(** * Nissmart ledger: the transaction controller and its store

    A shallow embedding of [backend/src/controllers/transaction.controller.ts]
    (handlers [deposit], [transfer], [withdraw], [getTransactions],
    [getAdminStats]) and of [user.controller.ts] ([createUser],
    [getUserBalance]) over a model of the two tables of
    [prisma/migrations/20251120174230_init/migration.sql].

    Money.  Both [User.balance] and [Transaction.amount] are [DECIMAL(15,2)]
    columns; a stored value is represented by its number of minor units
    (cents), an integer, so [100050] stands for 1000.50.  The amount of a
    request is a JavaScript number, which need not be a whole number of
    cents: it is a rational here, and the store rounds what it is given to
    the scale of its columns, the inserted amount and each new balance
    separately.  The numbers the handlers compute with [Number(...)] are
    doubles.

    Effects.  Handlers run in a small state-and-exception monad over [State]:
    the durable database, the view of the open unit of work
    ([prisma.$transaction]) and a trace of the events an outside observer
    can tell apart (a unit of work opening and closing, the external call).

    Concurrency.  What other requests do to one request is an input, [Env]:
    what they commit between its idempotency look-up and its unit of work,
    what they commit while its unit of work is open, whether the store
    refuses a Serializable commit, and what the external system answers. *)

From stdpp Require Import gmap strings list sorting.
From Stdlib Require Import ZArith QArith Lia Ascii.
Close Scope Q_scope.

(** ** Tables *)

Inductive TransactionType := DEPOSIT | TRANSFER | WITHDRAWAL.
Inductive TransactionStatus := PENDING | PROCESSING | COMPLETED | FAILED.

Module User.
Record t := mk {
  email : string;
  name : string;
  balance : Z
}.
End User.

Module Transaction.
(** [id] is [@default(uuid())] in the schema: a fresh identifier.  Rows are
    never deleted, so the model allocates the position of the row in the
    table.  [metadata] is never written and the two timestamps are never
    read by the handlers; they are left out. *)
Record t := mk {
  id : nat;
  type : TransactionType;
  status : TransactionStatus;
  amount : Z;
  idempotencyKey : string;
  senderId : option string;
  receiverId : option string;
  description : option string;
  failureReason : option string
}.
End Transaction.

Record DB := mkDB {
  users : gmap string User.t;
  transactions : list Transaction.t
}.

(** Largest magnitude a [DECIMAL(15,2)] column holds: 9999999999999.99. *)
Definition DECIMAL_15_2_max : Z := 999999999999999.

Definition fits_decimal (z : Z) : bool :=
  (Z.leb (- DECIMAL_15_2_max) z && Z.leb z DECIMAL_15_2_max)%bool.

(** ** Numbers

    The amount of a request body is a JavaScript number, a double.  The
    handlers only compare it with other numbers and hand it to the Prisma
    client, which passes the store the decimal that JavaScript writes for
    the number: the shortest decimal that reads back as the same double,
    [0.015] for the amount of the body [{ "amount": 0.015 }].  The number
    is represented by that decimal, a rational; different doubles are
    written differently and in the same order, so two numbers compare as
    their decimals do.  ([Infinity], which a body can reach as [1e999],
    behaves as an amount beyond the range of every column.) *)

(** The decimal with two digits after the point that has [c] minor units. *)
Definition cents (c : Z) : Q := c # 100.

(** [n / d] for [0 < d], rounded to the nearest integer, ties away from
    zero: the rounding of the store's [numeric] type. *)
Definition round_half_away (n d : Z) : Z :=
  if Z.leb 0 n then (2 * n + d) / (2 * d)
  else - ((2 * - n + d) / (2 * d)).

(** A decimal brought to the scale of a [DECIMAL(15,2)] column, in minor
    units.  Whether the result is within the column's precision is
    [fits_decimal]. *)
Definition to_scale_2 (x : Q) : Z := round_half_away (100 * Qnum x) (QDen x).

(** The amount is a whole number of cents. *)
Definition whole_cents (x : Q) : bool :=
  Z.eqb ((100 * Qnum x) mod QDen x) 0.

(** [x < y] on numbers. *)
Definition Qltb (x y : Q) : bool := negb (Qle_bool y x).

(** [Number(user.balance) < amount].  The balance is a decimal of at most
    15 significant digits; the double nearest to such a decimal is written
    as that same decimal, so the test compares the balance with the amount
    as decimals. *)
Definition Number_lt (balance : Z) (amount : Q) : bool :=
  Qltb (cents balance) amount.

(** A finite double, [mantissa * 2 ^ exponent]. *)
Module Double.
Record t := mk {
  mantissa : Z;
  exponent : Z
}.
End Double.

(** [n / d] for [0 <= n] and [0 < d], rounded to the nearest integer, ties
    to the even one: the rounding of double arithmetic. *)
Definition round_half_even (n d : Z) : Z :=
  let q := (n / d)%Z in
  let r := (n mod d)%Z in
  if Z.ltb (2 * r) d then q
  else if Z.ltb d (2 * r) then (q + 1)%Z
  else if Z.even q then q else (q + 1)%Z.

(** [Number(x)] for a decimal [x] of scale 2 with [c] minor units: the
    double nearest to [c / 100].  The exponent [- k] is chosen so that
    [c / 100 * 2 ^ k] has 53 binary digits before the point; the mantissa is
    that number rounded.  (A sum of balances stays far below the largest
    double and far above the smallest normal one.) *)
Definition Number (c : Z) : Double.t :=
  if Z.eqb c 0 then Double.mk 0 0 else
  let a := Z.abs c in
  let k0 := (59 - Z.log2 a)%Z in
  let k := if Z.ltb (a * 2 ^ Z.max k0 0) (100 * 2 ^ 53 * 2 ^ Z.max (- k0) 0)
           then k0 else (k0 - 1)%Z in
  let m := round_half_even (a * 2 ^ Z.max k 0) (100 * 2 ^ Z.max (- k) 0) in
  Double.mk (Z.sgn c * m) (- k).

(** [x.toFixed(2)], in minor units: the multiple of 0.01 nearest to [x],
    ties away from zero.  This is how the pages of the UI show a number. *)
Definition toFixed_2 (x : Double.t) : Z :=
  round_half_away
    (100 * Double.mantissa x * 2 ^ Z.max (Double.exponent x) 0)
    (2 ^ Z.max (- Double.exponent x) 0).

(** ** Exceptions, events, state *)

Inductive PrismaFailure :=
  | UniqueConstraintFailed      (* Transaction_idempotencyKey_key *)
  | ForeignKeyConstraintFailed  (* Transaction_senderId_fkey, _receiverId_fkey *)
  | RecordNotFound              (* update of a row that does not exist *)
  | ValueOutOfRange             (* numeric field overflow *)
  | SerializationFailure        (* write conflict under Serializable *)
  | TransactionClosed.          (* tx client used outside its unit of work *)

Inductive Exn :=
  | ZodError
  | Error (message : string)
  | PrismaError (failure : PrismaFailure).

Inductive Result (A : Type) :=
  | Ok (a : A)
  | Throw (e : Exn).
Arguments Ok {A} a.
Arguments Throw {A} e.

Inductive Event :=
  | UnitBegin
  | UnitCommit
  | UnitRollback
  | ExternalCall (durable_at_call : DB).

Record State := mkState {
  durable : DB;          (* what is committed *)
  tx : option DB;        (* view of the open unit of work, if any *)
  trace : list Event
}.

Definition M (A : Type) : Type := State -> Result A * State.

Definition ret {A} (a : A) : M A := fun s => (Ok a, s).
Definition throw {A} (e : Exn) : M A := fun s => (Throw e, s).
Definition bind {A B} (m : M A) (k : A -> M B) : M B := fun s =>
  match m s with
  | (Ok a, s') => k a s'
  | (Throw e, s') => (Throw e, s')
  end.

Notation "'let*' x := m 'in' k" := (bind m (fun x => k))
  (at level 10, x name, m at level 100, k at level 200).
Notation "m ;;; k" := (bind m (fun _ => k))
  (at level 100, k at level 200, right associativity).

(** What the rest of the world does to one request.  [concurrent] is what
    other requests commit between the idempotency look-up and the opening of
    the unit of work; [meanwhile] is what they commit while the unit of work
    is open, after its reads and before its first write, which a unit of
    work at READ COMMITTED works on from then; [conflict n] tells whether
    the store reports a serialization failure on the [n]-th attempt of a
    Serializable unit of work; [settlement] is the outcome of
    [Math.random() > 0.1]. *)
Record Env := mkEnv {
  concurrent : DB -> DB;
  meanwhile : DB -> DB;
  conflict : nat -> bool;
  settlement : bool
}.

Definition sequential (isSuccess : bool) : Env :=
  mkEnv (fun d => d) (fun d => d) (fun _ => false) isSuccess.

(** ** The Prisma client *)

Definition has_key (key : string) (t : Transaction.t) : bool :=
  String.eqb (Transaction.idempotencyKey t) key.

(** [prisma.transaction.findUnique({ where: { idempotencyKey } })], outside
    any unit of work: reads what is committed. *)
Definition prisma_transaction_findUnique (key : string) : M (option Transaction.t) :=
  fun s => (Ok (find (has_key key) (transactions (durable s))), s).

Definition in_tx {A} (f : DB -> Result A * DB) : M A := fun s =>
  match tx s with
  | None => (Throw (PrismaError TransactionClosed), s)
  | Some d =>
      let (r, d') := f d in
      (r, mkState (durable s) (Some d') (trace s))
  end.

(** [tx.user.findUnique({ where: { id } })] *)
Definition tx_user_findUnique (id : string) : M (option User.t) :=
  in_tx (fun d => (Ok (users d !! id), d)).

Definition references_user (d : DB) (ref : option string) : bool :=
  match ref with
  | None => true
  | Some id => bool_decide (is_Some (users d !! id))
  end.

(** [tx.transaction.create({ data })]; the returned row carries the
    amount as the column stores it. *)
Definition tx_transaction_create
    (type : TransactionType) (status : TransactionStatus) (amount : Q)
    (idempotencyKey : string) (senderId receiverId : option string)
    (description : string) : M Transaction.t :=
  in_tx (fun d =>
    if existsb (has_key idempotencyKey) (transactions d) then
      (Throw (PrismaError UniqueConstraintFailed), d)
    else if negb (references_user d senderId && references_user d receiverId) then
      (Throw (PrismaError ForeignKeyConstraintFailed), d)
    else if negb (fits_decimal (to_scale_2 amount)) then
      (Throw (PrismaError ValueOutOfRange), d)
    else
      let row := Transaction.mk (length (transactions d)) type status
                   (to_scale_2 amount)
                   idempotencyKey senderId receiverId (Some description) None in
      (Ok row, mkDB (users d) (transactions d ++ [row]))).

(** [tx.transaction.update({ where: { id }, data: { status, failureReason } })];
    [failureReason] is written only when the data names it. *)
Definition tx_transaction_update (id : nat) (status : TransactionStatus)
    (failureReason : option string) : M Transaction.t :=
  in_tx (fun d =>
    match transactions d !! id with
    | None => (Throw (PrismaError RecordNotFound), d)
    | Some row =>
        let row' := Transaction.mk (Transaction.id row) (Transaction.type row) status
                      (Transaction.amount row) (Transaction.idempotencyKey row)
                      (Transaction.senderId row) (Transaction.receiverId row)
                      (Transaction.description row)
                      (match failureReason with
                       | Some r => Some r
                       | None => Transaction.failureReason row
                       end) in
        (Ok row', mkDB (users d) (<[id := row']> (transactions d)))
    end).

(** [tx.user.update({ where: { id }, data: { balance: { increment: delta } } })];
    [decrement: a] is [increment: -a].  The store computes
    [balance + delta] exactly and rounds it to the scale of the column. *)
Definition tx_user_update_balance (id : string) (delta : Q) : M User.t :=
  in_tx (fun d =>
    match users d !! id with
    | None => (Throw (PrismaError RecordNotFound), d)
    | Some u =>
        let b := to_scale_2 (cents (User.balance u) + delta)%Q in
        if fits_decimal b then
          let u' := User.mk (User.email u) (User.name u) b in
          (Ok u', mkDB (<[id := u']> (users d)) (transactions d))
        else (Throw (PrismaError ValueOutOfRange), d)
    end).

(** Between two statements of a unit of work, other requests commit.  At
    the store's default isolation level, READ COMMITTED, every statement
    sees what is committed when it starts and an update works on the row as
    it then is: the view of the unit of work moves with the durable
    database.  The handlers that run at this level pass here once, between
    their reads and their first write; what is committed later in the unit
    of work reaches its balance update in the same way. *)
Definition tx_others_commit (env : Env) : M unit := fun s =>
  (Ok tt,
   mkState (meanwhile env (durable s)) (meanwhile env <$> tx s) (trace s)).

Inductive IsolationLevel := ReadCommitted | Serializable.

Definition close_unit (commit : bool) (s : State) : State :=
  if commit then
    mkState (default (durable s) (tx s)) None (trace s ++ [UnitCommit])
  else
    mkState (durable s) None (trace s ++ [UnitRollback]).

(** [prisma.$transaction(body, { isolationLevel })], attempt number [attempt];
    without an isolation level the store's default applies, READ COMMITTED,
    under which it reports no serialization failure.
    The body runs on a view taken when the unit of work opens; the view
    replaces the durable database on commit and is dropped when the body
    throws or when the store refuses a Serializable commit.  Under
    Serializable the view is a snapshot: what other requests commit while
    the unit of work is open either is as if committed before it opened
    ([concurrent]) or makes the store refuse the commit ([conflict]).  Under
    READ COMMITTED the view follows what is committed
    ([tx_others_commit]). *)
Definition prisma_transaction {A} (env : Env)
    (isolationLevel : option IsolationLevel) (attempt : nat) (body : M A) : M A :=
  fun s =>
  let d := concurrent env (durable s) in
  match body (mkState d (Some d) (trace s ++ [UnitBegin])) with
  | (Ok a, s') =>
      match isolationLevel with
      | Some Serializable =>
          if conflict env attempt
          then (Throw (PrismaError SerializationFailure), close_unit false s')
          else (Ok a, close_unit true s')
      | _ => (Ok a, close_unit true s')
      end
  | (Throw e, s') => (Throw e, close_unit false s')
  end.

(** [Math.random() > 0.1], the stand-in for the external system.  The event
    records what is durable at the moment of the call. *)
Definition external_system (env : Env) : M bool := fun s =>
  (Ok (settlement env),
   mkState (durable s) (tx s) (trace s ++ [ExternalCall (durable s)])).

(** ** Responses *)

Inductive Json :=
  | JTransaction (row : Transaction.t)
  | JError (error : string) (details : option string)
  | JInvalidInput.   (* { error: "Invalid input", details: error.errors } *)

Record Response := mkResponse {
  statusCode : nat;
  json : Json
}.

(** [try { ... } catch (error) { ... }] around a whole handler: every
    exception becomes a response. *)
Definition try_catch (body : M Response) (handler : Exn -> Response)
    : State -> Response * State := fun s =>
  match body s with
  | (Ok r, s') => (r, s')
  | (Throw e, s') => (handler e, s')
  end.

(** [description || dflt]: an absent or empty description is falsy. *)
Definition or_default (description : option string) (dflt : string) : string :=
  match description with
  | Some (String c rest) => String c rest
  | _ => dflt
  end.

(** The error responses of the [catch] blocks and of the early returns. *)
Definition invalid_input : Response := mkResponse 400 JInvalidInput.
Definition user_not_found : Response :=
  mkResponse 404 (JError "User not found" None).
Definition insufficient_funds (details : string) : Response :=
  mkResponse 400 (JError "Insufficient funds" (Some details)).
Definition invalid_transfer : Response :=
  mkResponse 400
    (JError "Invalid transfer" (Some "Cannot transfer to the same account")).
Definition internal_server_error : Response :=
  mkResponse 500 (JError "Internal server error" None).

(** ** Request bodies *)

Module DepositBody.
Record t := mk {
  userId : string;
  amount : Q;
  idempotencyKey : string;
  description : option string
}.
End DepositBody.

Module TransferBody.
Record t := mk {
  senderId : string;
  receiverId : string;
  amount : Q;
  idempotencyKey : string;
  description : option string
}.
End TransferBody.

Module WithdrawBody.
Record t := mk {
  userId : string;
  amount : Q;
  idempotencyKey : string;
  description : option string
}.
End WithdrawBody.

Section Controller.

(** [z.string().uuid()]: the format check of the validation library. *)
Variable uuid : string -> bool.

(** [z.number().positive().min(0.01)] *)
Definition amount_ok (amount : Q) : bool :=
  Qltb 0 amount && Qle_bool 0.01 amount.

(** [z.string().min(1)] *)
Definition key_ok (key : string) : bool := Nat.leb 1 (String.length key).

Definition depositSchema (b : DepositBody.t) : bool :=
  uuid (DepositBody.userId b) && amount_ok (DepositBody.amount b)
  && key_ok (DepositBody.idempotencyKey b).

Definition transferSchema (b : TransferBody.t) : bool :=
  uuid (TransferBody.senderId b) && uuid (TransferBody.receiverId b)
  && amount_ok (TransferBody.amount b) && key_ok (TransferBody.idempotencyKey b).

Definition withdrawSchema (b : WithdrawBody.t) : bool :=
  uuid (WithdrawBody.userId b) && amount_ok (WithdrawBody.amount b)
  && key_ok (WithdrawBody.idempotencyKey b).

(** [schema.parse(req.body)] *)
Definition parse {B} (schema : B -> bool) (b : B) : M B :=
  if schema b then ret b else throw ZodError.

(** ** deposit *)

Definition deposit (env : Env) (req : DepositBody.t) : State -> Response * State :=
  try_catch
    (let* body := parse depositSchema req in
     let userId := DepositBody.userId body in
     let amount := DepositBody.amount body in
     let idempotencyKey := DepositBody.idempotencyKey body in
     let description := DepositBody.description body in
     let* existingTransaction := prisma_transaction_findUnique idempotencyKey in
     match existingTransaction with
     | Some existing => ret (mkResponse 200 (JTransaction existing))
     | None =>
         let* result := prisma_transaction env None 0
           (let* user := tx_user_findUnique userId in
            match user with
            | None => throw (Error "USER_NOT_FOUND")
            | Some _ =>
                (* the unit of work runs at READ COMMITTED *)
                tx_others_commit env ;;;
                let* transaction :=
                  tx_transaction_create DEPOSIT COMPLETED amount idempotencyKey
                    None (Some userId) (or_default description "Deposit") in
                tx_user_update_balance userId amount ;;;
                ret transaction
            end) in
         ret (mkResponse 201 (JTransaction result))
     end)
    (fun error =>
       match error with
       | ZodError => invalid_input
       | Error message =>
           if String.eqb message "USER_NOT_FOUND" then user_not_found
           else internal_server_error
       | _ => internal_server_error
       end).

(** ** transfer *)

(** [[senderId, receiverId].sort()]: the two ids in ascending order of
    their code units (uuids are ASCII, compared byte by byte here). *)
Definition sort_pair (a b : string) : string * string :=
  if String.ltb b a then (b, a) else (a, b).

Definition transfer (env : Env) (req : TransferBody.t) : State -> Response * State :=
  try_catch
    (let* body := parse transferSchema req in
     let senderId := TransferBody.senderId body in
     let receiverId := TransferBody.receiverId body in
     let amount := TransferBody.amount body in
     let idempotencyKey := TransferBody.idempotencyKey body in
     let description := TransferBody.description body in
     if String.eqb senderId receiverId then
       ret invalid_transfer
     else
     let* existingTransaction := prisma_transaction_findUnique idempotencyKey in
     match existingTransaction with
     | Some existing => ret (mkResponse 200 (JTransaction existing))
     | None =>
         let* result := prisma_transaction env (Some Serializable) 0
           (let '(firstId, secondId) := sort_pair senderId receiverId in
            let* firstUser := tx_user_findUnique firstId in
            let* secondUser := tx_user_findUnique secondId in
            match firstUser, secondUser with
            | Some firstUser, Some secondUser =>
                let sender :=
                  if String.eqb firstId senderId then firstUser else secondUser in
                let receiver :=
                  if String.eqb firstId receiverId then firstUser else secondUser in
                if Number_lt (User.balance sender) amount then
                  throw (Error "INSUFFICIENT_FUNDS")
                else
                let* transaction :=
                  tx_transaction_create TRANSFER COMPLETED amount idempotencyKey
                    (Some senderId) (Some receiverId)
                    (or_default description "Internal Transfer") in
                tx_user_update_balance senderId (- amount)%Q ;;;
                tx_user_update_balance receiverId amount ;;;
                ret transaction
            | _, _ => throw (Error "USER_NOT_FOUND")
            end) in
         ret (mkResponse 201 (JTransaction result))
     end)
    (fun error =>
       match error with
       | ZodError => invalid_input
       | Error message =>
           if String.eqb message "USER_NOT_FOUND" then user_not_found
           else if String.eqb message "INSUFFICIENT_FUNDS" then
             insufficient_funds "Sender does not have enough balance for this transfer"
           else internal_server_error
       | _ => internal_server_error
       end).

(** ** withdraw *)

Definition withdraw (env : Env) (req : WithdrawBody.t) : State -> Response * State :=
  try_catch
    (let* body := parse withdrawSchema req in
     let userId := WithdrawBody.userId body in
     let amount := WithdrawBody.amount body in
     let idempotencyKey := WithdrawBody.idempotencyKey body in
     let description := WithdrawBody.description body in
     let* existingTransaction := prisma_transaction_findUnique idempotencyKey in
     match existingTransaction with
     | Some existing => ret (mkResponse 200 (JTransaction existing))
     | None =>
         let* result := prisma_transaction env None 0
           (let* user := tx_user_findUnique userId in
            match user with
            | None => throw (Error "USER_NOT_FOUND")
            | Some user =>
                if Number_lt (User.balance user) amount then
                  throw (Error "INSUFFICIENT_FUNDS")
                else
                (* the unit of work runs at READ COMMITTED *)
                tx_others_commit env ;;;
                let* transaction :=
                  tx_transaction_create WITHDRAWAL PROCESSING amount idempotencyKey
                    (Some userId) None (or_default description "Withdrawal") in
                let* isSuccess := external_system env in
                if isSuccess then
                  let* completedTransaction :=
                    tx_transaction_update (Transaction.id transaction) COMPLETED None in
                  tx_user_update_balance userId (- amount)%Q ;;;
                  ret completedTransaction
                else
                  let* failedTransaction :=
                    tx_transaction_update (Transaction.id transaction) FAILED
                      (Some "External system rejected the withdrawal") in
                  ret failedTransaction
            end) in
         let statusCode :=
           match Transaction.status result with COMPLETED => 201 | _ => 400 end in
         ret (mkResponse statusCode (JTransaction result))
     end)
    (fun error =>
       match error with
       | ZodError => invalid_input
       | Error message =>
           if String.eqb message "USER_NOT_FOUND" then user_not_found
           else if String.eqb message "INSUFFICIENT_FUNDS" then
             insufficient_funds "User does not have enough balance for this withdrawal"
           else internal_server_error
       | _ => internal_server_error
       end).

(** ** Sequences of requests *)

Inductive Call :=
  | Deposit (env : Env) (req : DepositBody.t)
  | Transfer (env : Env) (req : TransferBody.t)
  | Withdraw (env : Env) (req : WithdrawBody.t).

Definition call_env (c : Call) : Env :=
  match c with
  | Deposit env _ | Transfer env _ | Withdraw env _ => env
  end.

Definition perform (c : Call) : State -> Response * State :=
  match c with
  | Deposit env req => deposit env req
  | Transfer env req => transfer env req
  | Withdraw env req => withdraw env req
  end.

(** The state after the calls were served one after the other. *)
Definition run (calls : list Call) (s : State) : State :=
  fold_left (fun s c => snd (perform c s)) calls s.

End Controller.

(** ** Vocabulary of the statements *)

(** No other request commits while this one is being served. *)
Definition quiet (env : Env) : Prop :=
  (forall d, concurrent env d = d) /\ (forall d, meanwhile env d = d).

(** The same environment, except that the store never reports a conflict. *)
Definition without_conflict (env : Env) : Env :=
  mkEnv (concurrent env) (meanwhile env) (fun _ => false) (settlement env).

(** The store [d] once the other requests of [env] have committed, those
    that overlap the unit of work included: the store that a unit of work
    at READ COMMITTED writes to. *)
Definition others_done (env : Env) (d : DB) : DB :=
  meanwhile env (concurrent env d).

Definition balance_of (d : DB) (id : string) : option Z :=
  User.balance <$> users d !! id.

Definition pair_total (d : DB) (a b : string) : option Z :=
  match balance_of d a, balance_of d b with
  | Some x, Some y => Some (x + y)%Z
  | _, _ => None
  end.

Definition no_negative_balance (d : DB) : Prop :=
  map_Forall (fun _ u => (0 <= User.balance u)%Z) (users d).

(** The events a call added to the trace, and the durable databases the
    external system was called on. *)
Definition events_of (before after : State) : list Event :=
  drop (length (trace before)) (trace after).

Definition external_calls (events : list Event) : list DB :=
  flat_map (fun e => match e with ExternalCall d => [d] | _ => [] end) events.

Definition units_of_work (events : list Event) : nat :=
  length (List.filter (fun e => match e with UnitBegin => true | _ => false end) events).

(** The state a request leaves when its only unit of work is rolled back
    before any external call: during its reads, or under Serializable. *)
Definition rolled_back (env : Env) (s : State) : State :=
  mkState (concurrent env (durable s)) None (trace s ++ [UnitBegin; UnitRollback]).

(** The same for a unit of work at READ COMMITTED that is rolled back after
    its reads. *)
Definition rolled_back_late (env : Env) (s : State) : State :=
  mkState (others_done env (durable s)) None
    (trace s ++ [UnitBegin; UnitRollback]).

(** [balance: { increment: delta }] on a row. *)
Definition credit (delta : Q) (u : User.t) : User.t :=
  User.mk (User.email u) (User.name u)
    (to_scale_2 (cents (User.balance u) + delta)%Q).

(** ** Sample data for the examples *)

Definition is_hex (c : ascii) : bool :=
  let n := nat_of_ascii c in
  (Nat.leb 48 n && Nat.leb n 57) || (Nat.leb 65 n && Nat.leb n 70)
  || (Nat.leb 97 n && Nat.leb n 102).

(** A format check in the 8-4-4-4-12 shape, to instantiate [uuid]. *)
Fixpoint uuid_from (i : nat) (s : string) : bool :=
  match s with
  | EmptyString => Nat.eqb i 36
  | String c rest =>
      (if Nat.eqb i 8 || Nat.eqb i 13 || Nat.eqb i 18 || Nat.eqb i 23
       then Ascii.eqb c "-" else is_hex c)
      && uuid_from (S i) rest
  end.

Definition uuid_shape : string -> bool := uuid_from 0.

Definition U1 : string := "11111111-1111-4111-8111-111111111111".
Definition U2 : string := "22222222-2222-4222-8222-222222222222".

(** Two new accounts, as [createUser] makes them. *)
Definition fresh_db : DB :=
  mkDB (<[U1 := User.mk "u1@example.com" "U1" 0]>
          (<[U2 := User.mk "u2@example.com" "U2" 0]> ∅))
       [].

(** The requests of the scenarios: 1000.00 in, 300.00 across, then a
    transfer of 10000.00, a withdrawal of 100.00 and a transfer to oneself. *)
Definition k1_deposit : DepositBody.t := DepositBody.mk U1 1000 "k1" None.
Definition k2_transfer : TransferBody.t := TransferBody.mk U1 U2 300 "k2" None.
Definition k3_transfer : TransferBody.t := TransferBody.mk U1 U2 10000 "k3" None.
Definition k4_withdraw : WithdrawBody.t := WithdrawBody.mk U1 100 "k4" None.
Definition k5_transfer : TransferBody.t := TransferBody.mk U1 U1 5 "k5" None.
Definition k6_deposit : DepositBody.t := DepositBody.mk U2 50 "k6" None.
Definition k7_transfer : TransferBody.t := TransferBody.mk U2 U1 25 "k7" None.
Definition k8_withdraw : WithdrawBody.t := WithdrawBody.mk U1 80000 "k8" None.

(** Requests that reuse the key of the first deposit with other arguments. *)
Definition k1_again_deposit : DepositBody.t :=
  DepositBody.mk U2 0.01 "k1" (Some "other").
Definition k1_again_withdraw : WithdrawBody.t :=
  WithdrawBody.mk U2 0.01 "k1" None.
Definition k1_again_transfer : TransferBody.t :=
  TransferBody.mk U2 U1 0.01 "k1" None.
Definition k1_self_transfer : TransferBody.t := TransferBody.mk U1 U1 5 "k1" None.

(** The store after the first two scenarios: 700.00 and 300.00. *)
Definition k1_row : Transaction.t :=
  Transaction.mk 0 DEPOSIT COMPLETED 100000 "k1" None (Some U1)
    (Some "Deposit") None.
Definition k2_row : Transaction.t :=
  Transaction.mk 1 TRANSFER COMPLETED 30000 "k2" (Some U1) (Some U2)
    (Some "Internal Transfer") None.

Definition sample_db : DB :=
  mkDB (<[U1 := User.mk "u1@example.com" "U1" 70000]>
          (<[U2 := User.mk "u2@example.com" "U2" 30000]> ∅))
       [k1_row; k2_row].

Definition sample_state : State := mkState sample_db None [].

Definition k4_failed_row : Transaction.t :=
  Transaction.mk 2 WITHDRAWAL FAILED 10000 "k4" (Some U1) None
    (Some "Withdrawal") (Some "External system rejected the withdrawal").

Definition k6_row : Transaction.t :=
  Transaction.mk 2 DEPOSIT COMPLETED 5000 "k6" None (Some U2)
    (Some "Deposit") None.

(** An identical deposit [k6_deposit] of another client commits between
    this request's look-up and its unit of work. *)
Definition racing : Env :=
  mkEnv (fun d => durable (snd (deposit uuid_shape (sequential true) k6_deposit
                                  (mkState d None []))))
        (fun d => d) (fun _ => false) true.

(** The store reports a serialization failure on the first attempt only. *)
Definition conflict_once : Env :=
  mkEnv (fun d => d) (fun d => d) (fun attempt => Nat.eqb attempt 0) true.

(** Two withdrawals of all that [U1] holds in [sample_db], 700.00. *)
Definition k11_withdraw : WithdrawBody.t := WithdrawBody.mk U1 700 "k11" None.
Definition k12_withdraw : WithdrawBody.t := WithdrawBody.mk U1 700 "k12" None.

(** The withdrawal [k12_withdraw] of another client is served and commits
    while the unit of work of this request is open, after its balance
    check. *)
Definition overlapping : Env :=
  mkEnv (fun d => d)
        (fun d => durable (snd (withdraw uuid_shape (sequential true) k12_withdraw
                                  (mkState d None []))))
        (fun _ => false) true.


(** A transfer of a cent and a half. *)
Definition k13_transfer : TransferBody.t :=
  TransferBody.mk U1 U2 0.015 "k13" None.

Definition sample_calls : list Call :=
  [Deposit (sequential true) k6_deposit;
   Transfer conflict_once k7_transfer;
   Transfer (sequential true) k7_transfer;
   Withdraw (sequential false) k4_withdraw;
   Withdraw (sequential true) k4_withdraw;
   Transfer (sequential true) k3_transfer].

Definition after_sample_calls : State :=
  run uuid_shape (take 6 sample_calls) sample_state.

(** Some requests served on [sample_state]. *)
Definition k3_rejected : Response * State :=
  transfer uuid_shape (sequential true) k3_transfer sample_state.
Definition k4_settled : Response * State :=
  withdraw uuid_shape (sequential true) k4_withdraw sample_state.
Definition k4_declined : Response * State :=
  withdraw uuid_shape (sequential false) k4_withdraw sample_state.
Definition k5_rejected : Response * State :=
  transfer uuid_shape (sequential true) k5_transfer sample_state.
Definition k6_first : Response * State :=
  deposit uuid_shape (sequential true) k6_deposit sample_state.
Definition k6_raced : Response * State :=
  deposit uuid_shape racing k6_deposit sample_state.
Definition k7_completed : Response * State :=
  transfer uuid_shape (sequential true) k7_transfer sample_state.
Definition k7_conflicting : Response * State :=
  transfer uuid_shape conflict_once k7_transfer sample_state.
Definition k11_overlapped : Response * State :=
  withdraw uuid_shape overlapping k11_withdraw sample_state.
Definition k13_completed : Response * State :=
  transfer uuid_shape (sequential true) k13_transfer sample_state.

(** ** The other handlers: accounts, histories, the dashboard

    [createUser] and [getUserBalance] of [user.controller.ts],
    [getTransactions] and [getAdminStats] of [transaction.controller.ts].
    [getUsers] lists the accounts by [createdAt]; the account table of this
    model keeps no creation order, so it is left out. *)

(** A statement of the global client that only reads: it sees what is
    committed. *)
Definition read {A} (f : DB -> A) : M A := fun s => (Ok (f (durable s)), s).

(** What other requests commit while this one waits between two statements
    of the global client. *)
Definition others_commit (env : Env) : M unit := fun s =>
  (Ok tt, mkState (concurrent env (durable s)) (tx s) (trace s)).

(** [prisma.user.findUnique({ where: { id } })] *)
Definition prisma_user_findUnique (id : string) : M (option User.t) :=
  read (fun d => users d !! id).

Definition has_email (email : string) (entry : string * User.t) : bool :=
  String.eqb (User.email (snd entry)) email.

(** [prisma.user.findUnique({ where: { email } })] *)
Definition prisma_user_findUnique_email (email : string)
    : M (option (string * User.t)) :=
  read (fun d => find (has_email email) (map_to_list (users d))).

(** [prisma.user.create({ data: { email, name, balance } })].  [id] is
    [@default(uuid())]: the identifier drawn for the row is an input, and
    the primary key and the unique index on [email] refuse a row that
    repeats either. *)
Definition prisma_user_create (id email name : string) (balance : Z)
    : M (string * User.t) := fun s =>
  let d := durable s in
  if bool_decide (is_Some (users d !! id))
     || existsb (has_email email) (map_to_list (users d)) then
    (Throw (PrismaError UniqueConstraintFailed), s)
  else if negb (fits_decimal balance) then
    (Throw (PrismaError ValueOutOfRange), s)
  else
    let row := User.mk email name balance in
    (Ok (id, row),
     mkState (mkDB (<[id := row]> (users d)) (transactions d)) (tx s) (trace s)).

(** [include: { sender: { select: { id, name, email } }, receiver: ... }] *)
Module Party.
Record t := mk {
  id : string;
  name : string;
  email : string
}.
End Party.

Module Included.
Record t := mk {
  row : Transaction.t;
  sender : option Party.t;
  receiver : option Party.t
}.
End Included.

Definition party (d : DB) (ref : option string) : option Party.t :=
  match ref with
  | None => None
  | Some id =>
      match users d !! id with
      | None => None
      | Some u => Some (Party.mk id (User.name u) (User.email u))
      end
  end.

Definition include_parties (d : DB) (row : Transaction.t) : Included.t :=
  Included.mk row (party d (Transaction.senderId row))
    (party d (Transaction.receiverId row)).

(** [where: { OR: [{ senderId: user_id }, { receiverId: user_id }] }] *)
Definition involves (user_id : string) (row : Transaction.t) : bool :=
  bool_decide (Transaction.senderId row = Some user_id)
  || bool_decide (Transaction.receiverId row = Some user_id).

(** [orderBy: { createdAt: "desc" }].  [createdAt] is [@default(now())] and
    is only ever used to order rows; rows are appended to the table as they
    are created, so the newest row is the last one and this order is the
    table read backwards. *)
Definition newest_first (rows : list Transaction.t) : list Transaction.t :=
  rev rows.

(** [prisma.transaction.findMany({ where, orderBy, include })] of
    [getTransactions] *)
Definition prisma_transaction_findMany_of (user_id : string)
    : M (list Included.t) :=
  read (fun d =>
    map (include_parties d)
      (newest_first (List.filter (involves user_id) (transactions d)))).

(** [prisma.transaction.findMany({ take: 50, orderBy, include })] *)
Definition prisma_transaction_findMany_recent (take_ : nat)
    : M (list Included.t) :=
  read (fun d =>
    map (include_parties d) (take take_ (newest_first (transactions d)))).

Definition completed_of (type : TransactionType) (row : Transaction.t) : bool :=
  match Transaction.status row with
  | COMPLETED =>
      match type, Transaction.type row with
      | DEPOSIT, DEPOSIT | TRANSFER, TRANSFER | WITHDRAWAL, WITHDRAWAL => true
      | _, _ => false
      end
  | _ => false
  end.

(** [prisma.transaction.count({ where: { type, status: "COMPLETED" } })] *)
Definition prisma_transaction_count_completed (type : TransactionType) : M nat :=
  read (fun d => length (List.filter (completed_of type) (transactions d))).

(** [prisma.user.count()] *)
Definition prisma_user_count : M nat := read (fun d => size (users d)).

Definition total_balance (accounts : gmap string User.t) : Z :=
  map_fold (fun _ u acc => (User.balance u + acc)%Z) 0%Z accounts.

(** [prisma.user.aggregate({ _sum: { balance: true } })]: [null] over an
    empty table. *)
Definition prisma_user_aggregate_sum_balance : M (option Z) :=
  read (fun d =>
    if bool_decide (users d = ∅) then None else Some (total_balance (users d))).

(** ** Replies of these handlers *)

Module AdminStats.
Record t := mk {
  totalUsers : nat;
  totalValueInWallets : Double.t;
  totalTransfers : nat;
  totalWithdrawals : nat;
  totalDeposits : nat;
  recentTransactions : list Included.t
}.
End AdminStats.

Inductive Payload :=
  | PUser (id : string) (row : User.t)
  | PBalance (userId : string) (balance : Double.t)
  | PTransactions (rows : list Included.t)
  | PStats (stats : AdminStats.t)
  | PError (error : string) (details : option string)
  | PInvalidInput.

Record Reply := mkReply {
  replyStatus : nat;
  payload : Payload
}.

(** [try { ... } catch (error) { ... }] around these handlers. *)
Definition catching (body : M Reply) (handler : Exn -> Reply)
    : State -> Reply * State := fun s =>
  match body s with
  | (Ok r, s') => (r, s')
  | (Throw e, s') => (handler e, s')
  end.

Definition server_error : Reply :=
  mkReply 500 (PError "Internal server error" None).

Module CreateUserBody.
Record t := mk {
  email : string;
  name : string
}.
End CreateUserBody.

Section UserController.

(** [z.string().email()]: the format check of the validation library. *)
Variable email_format : string -> bool.

Definition createUserSchema (b : CreateUserBody.t) : bool :=
  email_format (CreateUserBody.email b)
  && Nat.leb 1 (String.length (CreateUserBody.name b)).

(** [createUser]; [newId] is the uuid drawn for the new row. *)
Definition createUser (env : Env) (newId : string) (req : CreateUserBody.t)
    : State -> Reply * State :=
  catching
    (let* body := parse createUserSchema req in
     let email := CreateUserBody.email body in
     let name := CreateUserBody.name body in
     let* existingUser := prisma_user_findUnique_email email in
     match existingUser with
     | Some _ =>
         ret (mkReply 409
                (PError "User already exists"
                   (Some "A user with this email already exists")))
     | None =>
         others_commit env ;;;
         let* user := prisma_user_create newId email name 0 in
         ret (mkReply 201 (PUser (fst user) (snd user)))
     end)
    (fun error =>
       match error with
       | ZodError => mkReply 400 PInvalidInput
       | _ => server_error
       end).

End UserController.

(** [getUserBalance] *)
Definition getUserBalance (user_id : string) : State -> Reply * State :=
  catching
    (let* user := prisma_user_findUnique user_id in
     match user with
     | None =>
         ret (mkReply 404
                (PError "User not found"
                   (Some "No user found with the provided ID")))
     | Some user =>
         ret (mkReply 200 (PBalance user_id (Number (User.balance user))))
     end)
    (fun _ => server_error).

(** [getTransactions] *)
Definition getTransactions (user_id : string) : State -> Reply * State :=
  catching
    (let* user := prisma_user_findUnique user_id in
     match user with
     | None => ret (mkReply 404 (PError "User not found" None))
     | Some _ =>
         let* transactions := prisma_transaction_findMany_of user_id in
         ret (mkReply 200 (PTransactions transactions))
     end)
    (fun _ => server_error).

(** [getAdminStats] *)
Definition getAdminStats : State -> Reply * State :=
  catching
    (let* totalUsers := prisma_user_count in
     let* walletSum := prisma_user_aggregate_sum_balance in
     let* totalTransfers := prisma_transaction_count_completed TRANSFER in
     let* totalWithdrawals := prisma_transaction_count_completed WITHDRAWAL in
     let* totalDeposits := prisma_transaction_count_completed DEPOSIT in
     let* recentTransactions := prisma_transaction_findMany_recent 50 in
     ret (mkReply 200
            (PStats (AdminStats.mk totalUsers (Number (default 0%Z walletSum))
                       totalTransfers totalWithdrawals totalDeposits
                       recentTransactions))))
    (fun _ => server_error).

(** ** The whole API, one request after the other *)

Inductive Request :=
  | PostUsers (env : Env) (newId : string) (body : CreateUserBody.t)
  | GetBalance (user_id : string)
  | PostDeposit (env : Env) (body : DepositBody.t)
  | PostTransfer (env : Env) (body : TransferBody.t)
  | PostWithdraw (env : Env) (body : WithdrawBody.t)
  | GetTransactions (user_id : string)
  | GetAdminStats.

Definition quiet_request (r : Request) : Prop :=
  match r with
  | PostUsers env _ _ | PostDeposit env _ | PostTransfer env _
  | PostWithdraw env _ => quiet env
  | _ => True
  end.

Section Api.

Variable uuid : string -> bool.
Variable email_format : string -> bool.

(** The state a request leaves. *)
Definition handle (r : Request) (s : State) : State :=
  match r with
  | PostUsers env newId body => snd (createUser email_format env newId body s)
  | GetBalance user_id => snd (getUserBalance user_id s)
  | PostDeposit env body => snd (deposit uuid env body s)
  | PostTransfer env body => snd (transfer uuid env body s)
  | PostWithdraw env body => snd (withdraw uuid env body s)
  | GetTransactions user_id => snd (getTransactions user_id s)
  | GetAdminStats => snd (getAdminStats s)
  end.

Definition serve (requests : list Request) (s : State) : State :=
  fold_left (fun s r => handle r s) requests s.

End Api.

(** ** What one request can do to the store *)

Definition whole_cents_request (r : Request) : Prop :=
  match r with
  | PostDeposit _ body => whole_cents (DepositBody.amount body) = true
  | PostTransfer _ body => whole_cents (TransferBody.amount body) = true
  | PostWithdraw _ body => whole_cents (WithdrawBody.amount body) = true
  | _ => True
  end.

Definition new_row (d : DB) (type : TransactionType) (status : TransactionStatus)
    (amount : Q) (key : string) (senderId receiverId : option string)
    (description : string) (failureReason : option string) : Transaction.t :=
  Transaction.mk (length (transactions d)) type status (to_scale_2 amount) key
    senderId receiverId (Some description) failureReason.

(** [step exact d d']: a request served alone can take the store from [d]
    to [d']; with [exact], its amount is a whole number of cents. *)
Inductive step (exact : bool) (d : DB) : DB -> Prop :=
  | step_none : step exact d d
  | step_account id email name :
      users d !! id = None ->
      existsb (has_email email) (map_to_list (users d)) = false ->
      step exact d
        (mkDB (<[id := User.mk email name 0]> (users d)) (transactions d))
  | step_deposit id user amount key description :
      users d !! id = Some user ->
      amount_ok amount = true ->
      (exact = true -> whole_cents amount = true) ->
      fits_decimal (to_scale_2 amount) = true ->
      existsb (has_key key) (transactions d) = false ->
      step exact d
        (mkDB (<[id := credit amount user]> (users d))
           (transactions d
            ++ [new_row d DEPOSIT COMPLETED amount key None (Some id)
                  description None]))
  | step_transfer a b sender receiver amount key description :
      a <> b ->
      users d !! a = Some sender -> users d !! b = Some receiver ->
      amount_ok amount = true ->
      Number_lt (User.balance sender) amount = false ->
      (exact = true -> whole_cents amount = true) ->
      fits_decimal (to_scale_2 amount) = true ->
      existsb (has_key key) (transactions d) = false ->
      step exact d
        (mkDB (<[b := credit amount receiver]>
                 (<[a := credit (- amount) sender]> (users d)))
           (transactions d
            ++ [new_row d TRANSFER COMPLETED amount key (Some a) (Some b)
                  description None]))
  | step_withdrawal id user amount key description :
      users d !! id = Some user ->
      amount_ok amount = true ->
      Number_lt (User.balance user) amount = false ->
      (exact = true -> whole_cents amount = true) ->
      fits_decimal (to_scale_2 amount) = true ->
      existsb (has_key key) (transactions d) = false ->
      step exact d
        (mkDB (<[id := credit (- amount) user]> (users d))
           (transactions d
            ++ [new_row d WITHDRAWAL COMPLETED amount key (Some id) None
                  description None]))
  | step_declined id user amount key description :
      users d !! id = Some user ->
      amount_ok amount = true ->
      Number_lt (User.balance user) amount = false ->
      fits_decimal (to_scale_2 amount) = true ->
      existsb (has_key key) (transactions d) = false ->
      step exact d
        (mkDB (users d)
           (transactions d
            ++ [new_row d WITHDRAWAL FAILED amount key (Some id) None
                  description
                  (Some "External system rejected the withdrawal")])).

(** ** Invariants of the store *)

Definition well_formed_row (accounts : gmap string User.t)
    (row : Transaction.t) : Prop :=
  (1 <= Transaction.amount row <= DECIMAL_15_2_max)%Z
  /\ match Transaction.type row with
     | DEPOSIT =>
         Transaction.senderId row = None
         /\ (exists id, Transaction.receiverId row = Some id
                        /\ is_Some (accounts !! id))
         /\ Transaction.status row = COMPLETED
         /\ Transaction.failureReason row = None
     | TRANSFER =>
         (exists a b, Transaction.senderId row = Some a
                      /\ Transaction.receiverId row = Some b
                      /\ a <> b
                      /\ is_Some (accounts !! a) /\ is_Some (accounts !! b))
         /\ Transaction.status row = COMPLETED
         /\ Transaction.failureReason row = None
     | WITHDRAWAL =>
         (exists id, Transaction.senderId row = Some id
                     /\ is_Some (accounts !! id))
         /\ Transaction.receiverId row = None
         /\ (Transaction.status row = COMPLETED
                /\ Transaction.failureReason row = None
             \/ Transaction.status row = FAILED
                /\ exists reason, Transaction.failureReason row = Some reason
                                  /\ reason <> EmptyString)
     end.

Definition well_formed (d : DB) : Prop :=
  NoDup (map Transaction.idempotencyKey (transactions d))
  /\ (forall i row, transactions d !! i = Some row -> Transaction.id row = i)
  /\ Forall (well_formed_row (users d)) (transactions d)
  /\ (forall i j u v, users d !! i = Some u -> users d !! j = Some v ->
                      User.email u = User.email v -> i = j).

(** What a recorded transaction moved into (+) or out of (-) an account. *)
Definition movement (id : string) (row : Transaction.t) : Z :=
  match Transaction.status row with
  | COMPLETED =>
      (if bool_decide (Transaction.receiverId row = Some id)
       then Transaction.amount row else 0)
      - (if bool_decide (Transaction.senderId row = Some id)
         then Transaction.amount row else 0)
  | _ => 0
  end.

Definition ledger_balance (log : list Transaction.t) (id : string) : Z :=
  foldr (fun row acc => (movement id row + acc)%Z) 0%Z log.

(** Every balance is what the log says it should be. *)
Definition reconciled (d : DB) : Prop :=
  map_Forall (fun id u => User.balance u = ledger_balance (transactions d) id)
    (users d).

Definition completed_amount (type : TransactionType)
    (log : list Transaction.t) : Z :=
  foldr (fun row acc =>
           ((if completed_of type row then Transaction.amount row else 0) + acc)%Z)
    0%Z log.

Definition empty_db : DB := mkDB ∅ [].

(** The money in the wallets is what was deposited and not withdrawn. *)
Definition conserved (d : DB) : Prop :=
  total_balance (users d)
  = (completed_amount DEPOSIT (transactions d)
     - completed_amount WITHDRAWAL (transactions d))%Z.

(** The rows of a history reply, the figures of a dashboard reply. *)
Definition history_rows (r : Reply) : list Transaction.t :=
  match payload r with
  | PTransactions rows => map Included.row rows
  | _ => []
  end.

Definition stats_of (r : Reply) : option AdminStats.t :=
  match payload r with
  | PStats stats => Some stats
  | _ => None
  end.

(** ** More sample data *)

(** A format check that asks for an at sign, to instantiate [email_format]. *)
Fixpoint email_shape (s : string) : bool :=
  match s with
  | EmptyString => false
  | String c rest => Ascii.eqb c "@" || email_shape rest
  end.

Definition u1_body : CreateUserBody.t := CreateUserBody.mk "u1@example.com" "U1".
Definition u2_body : CreateUserBody.t := CreateUserBody.mk "u2@example.com" "U2".
Definition U3 : string := "33333333-3333-4333-8333-333333333333".
Definition u3_body : CreateUserBody.t := CreateUserBody.mk "u3@example.com" "U3".
Definition u1_again_body : CreateUserBody.t :=
  CreateUserBody.mk "u1@example.com" "Someone else".

Definition empty_state : State := mkState empty_db None [].

(** The scenarios as requests to the API, from an empty store. *)
Definition opening_requests : list Request :=
  [PostUsers (sequential true) U1 u1_body;
   PostUsers (sequential true) U2 u2_body;
   PostDeposit (sequential true) k1_deposit;
   PostTransfer (sequential true) k2_transfer].

Definition later_requests : list Request :=
  [GetBalance U1;
   PostTransfer (sequential true) k3_transfer;
   PostWithdraw (sequential false) k4_withdraw;
   PostTransfer (sequential true) k5_transfer;
   PostUsers (sequential true) U3 u1_again_body;
   PostUsers (sequential true) U3 u3_body;
   PostWithdraw (sequential true) k8_withdraw;
   PostTransfer conflict_once k7_transfer;
   PostTransfer (sequential true) k7_transfer;
   GetTransactions U2;
   GetAdminStats].

Definition sample_requests : list Request := opening_requests ++ later_requests.

Definition after_sample_requests : State :=
  serve uuid_shape email_shape sample_requests empty_state.

(** The five counters of a dashboard reply. *)
Definition figures_of (r : Reply) : option (nat * Double.t * nat * nat * nat) :=
  match stats_of r with
  | Some stats =>
      Some (AdminStats.totalUsers stats, AdminStats.totalValueInWallets stats,
            AdminStats.totalTransfers stats, AdminStats.totalWithdrawals stats,
            AdminStats.totalDeposits stats)
  | None => None
  end.

Definition figures (d : DB) : nat * Double.t * nat * nat * nat :=
  (size (users d), Number (total_balance (users d)),
   length (List.filter (completed_of TRANSFER) (transactions d)),
   length (List.filter (completed_of WITHDRAWAL) (transactions d)),
   length (List.filter (completed_of DEPOSIT) (transactions d))).

(** [newer x y]: [x] was recorded after [y]. *)
Definition newer (x y : Transaction.t) : Prop :=
  Transaction.id y < Transaction.id x.

Definition units_closed (events : list Event) : nat :=
  length (List.filter
            (fun e => match e with UnitCommit | UnitRollback => true | _ => false end)
            events).

(** Another client registers [u3_body] between this request's look-up and
    its insert. *)
Definition racing_signup : Env :=
  mkEnv (fun d => durable (snd (createUser email_shape (sequential true) U3 u3_body
                                  (mkState d None []))))
        (fun d => d) (fun _ => false) true.

Definition k7_row : Transaction.t :=
  Transaction.mk 2 TRANSFER COMPLETED 2500 "k7" (Some U2) (Some U1)
    (Some "Internal Transfer") None.

(** A deposit to an account that does not exist, and one of nothing. *)
Definition k9_deposit : DepositBody.t := DepositBody.mk U3 1 "k9" None.
Definition k10_deposit : DepositBody.t := DepositBody.mk U1 0 "k10" None.

(** A store whose first account is 1.00 below the largest balance. *)
Definition rich_state : State :=
  mkState
    (mkDB (<[U1 := User.mk "u1@example.com" "U1" 999999999999900]>
             (<[U2 := User.mk "u2@example.com" "U2" 30000]> ∅))
          [])
    None [].

(** * Numbers *)

Lemma round_half_away_exact k d :
  (0 < d)%Z -> round_half_away (k * d) d = k.
Proof.
  intros Hd. unfold round_half_away.
  destruct (Z.leb_spec 0 (k * d)) as [Hk|Hk].
  - replace (2 * (k * d) + d)%Z with (d + k * (2 * d))%Z by lia.
    rewrite Z.div_add by lia. rewrite Z.div_small by lia. lia.
  - replace (2 * - (k * d) + d)%Z with (d + - k * (2 * d))%Z by lia.
    rewrite Z.div_add by lia. rewrite Z.div_small by lia. lia.
Qed.

Lemma round_half_away_scale k n d :
  (0 < k)%Z -> (0 < d)%Z ->
  round_half_away (k * n) (k * d) = round_half_away n d.
Proof.
  intros Hk Hd. unfold round_half_away.
  assert (Hsign : Z.leb 0 (k * n) = Z.leb 0 n).
  { destruct (Z.leb_spec 0 n), (Z.leb_spec 0 (k * n)); try done; nia. }
  rewrite Hsign. destruct (Z.leb 0 n).
  - replace (2 * (k * n) + k * d)%Z with (k * (2 * n + d))%Z by lia.
    replace (2 * (k * d))%Z with (k * (2 * d))%Z by lia.
    by rewrite Z.div_mul_cancel_l by lia.
  - replace (2 * - (k * n) + k * d)%Z with (k * (2 * - n + d))%Z by lia.
    replace (2 * (k * d))%Z with (k * (2 * d))%Z by lia.
    by rewrite Z.div_mul_cancel_l by lia.
Qed.

Lemma round_half_away_nonneg n d :
  (0 <= n)%Z -> (0 < d)%Z -> (0 <= round_half_away n d)%Z.
Proof.
  intros Hn Hd. unfold round_half_away.
  rewrite (proj2 (Z.leb_le 0 n)) by done. apply Z.div_pos; lia.
Qed.

Lemma round_half_away_shift b n d :
  (0 < d)%Z -> (0 <= n)%Z -> (0 <= b * d + n)%Z ->
  round_half_away (b * d + n) d = (b + round_half_away n d)%Z.
Proof.
  intros Hd Hn Hsum. unfold round_half_away.
  rewrite (proj2 (Z.leb_le 0 n)), (proj2 (Z.leb_le 0 (b * d + n))) by done.
  replace (2 * (b * d + n) + d)%Z with (2 * n + d + b * (2 * d))%Z by lia.
  rewrite Z.div_add by lia. lia.
Qed.

Lemma to_scale_2_cents c : to_scale_2 (cents c) = c.
Proof.
  unfold to_scale_2, cents. cbn [Qnum Qden].
  rewrite Z.mul_comm. by apply round_half_away_exact.
Qed.

Lemma whole_cents_exact x :
  whole_cents x = true -> (100 * Qnum x = to_scale_2 x * QDen x)%Z.
Proof.
  unfold whole_cents, to_scale_2. intros Hmod%Z.eqb_eq.
  apply Z.div_exact in Hmod; [|lia].
  rewrite Hmod at 2. rewrite (Z.mul_comm (QDen x)).
  rewrite round_half_away_exact by lia. lia.
Qed.

Lemma whole_cents_eq x c : (x == cents c)%Q -> whole_cents x = true /\ to_scale_2 x = c.
Proof.
  unfold Qeq, cents. cbn [Qnum Qden]. intros Heq.
  assert (Hnum : (100 * Qnum x = c * QDen x)%Z) by lia.
  unfold whole_cents, to_scale_2. rewrite Hnum. split.
  - apply Z.eqb_eq. apply Z_mod_mult.
  - apply round_half_away_exact. lia.
Qed.

(** For an amount in whole cents, the balance moves by the stored amount. *)
Lemma credit_exact b x :
  whole_cents x = true ->
  to_scale_2 (cents b + x)%Q = (b + to_scale_2 x)%Z.
Proof.
  intros Hx%whole_cents_exact. unfold to_scale_2 at 1, cents, Qplus.
  cbn [Qnum Qden].
  rewrite Pos2Z.inj_mul, round_half_away_scale by lia.
  replace (b * QDen x + Qnum x * 100)%Z with ((b + to_scale_2 x) * QDen x)%Z
    by lia.
  apply round_half_away_exact. lia.
Qed.

Lemma debit_exact b x :
  whole_cents x = true ->
  to_scale_2 (cents b + - x)%Q = (b - to_scale_2 x)%Z.
Proof.
  intros Hx%whole_cents_exact. unfold to_scale_2 at 1, cents, Qplus, Qopp.
  cbn [Qnum Qden].
  rewrite Pos2Z.inj_mul, round_half_away_scale by lia.
  replace (b * QDen x + - Qnum x * 100)%Z with ((b - to_scale_2 x) * QDen x)%Z
    by lia.
  apply round_half_away_exact. lia.
Qed.

Lemma Qltb_lt x y : Qltb x y = true <-> (x < y)%Q.
Proof.
  unfold Qltb. rewrite negb_true_iff, <- not_true_iff_false, Qle_bool_iff.
  split; [apply Qnot_le_lt | apply Qlt_not_le].
Qed.

Lemma Qltb_ge x y : Qltb x y = false <-> (y <= x)%Q.
Proof. unfold Qltb. by rewrite negb_false_iff, Qle_bool_iff. Qed.

Lemma Number_lt_short balance amount :
  Number_lt balance amount = true <-> (cents balance < amount)%Q.
Proof. apply Qltb_lt. Qed.

Lemma Number_lt_covered balance amount :
  Number_lt balance amount = false <-> (amount <= cents balance)%Q.
Proof. apply Qltb_ge. Qed.

Lemma amount_ok_iff amount :
  amount_ok amount = true <-> (0 < amount)%Q /\ (0.01 <= amount)%Q.
Proof. unfold amount_ok. by rewrite andb_true_iff, Qltb_lt, Qle_bool_iff. Qed.

Lemma amount_ok_positive amount : amount_ok amount = true -> (0 < amount)%Q.
Proof. rewrite amount_ok_iff. tauto. Qed.

(** An accepted amount is stored as at least one cent. *)
Lemma amount_ok_stored amount :
  amount_ok amount = true -> (1 <= to_scale_2 amount)%Z.
Proof.
  rewrite amount_ok_iff. intros [_ Hmin]. unfold Qle in Hmin.
  cbn [Qnum Qden] in Hmin. unfold to_scale_2, round_half_away.
  rewrite (proj2 (Z.leb_le 0 (100 * Qnum amount))) by lia.
  apply Z.div_le_lower_bound; lia.
Qed.

Lemma amount_not_ok amount : (amount < 0.01)%Q -> amount_ok amount = false.
Proof.
  intros Hsmall. apply not_true_iff_false. rewrite amount_ok_iff.
  intros [_ Hmin]. by apply Qlt_not_le in Hsmall.
Qed.

(** A debit that the balance covers leaves no negative balance, and neither
    does a credit to a balance that is not negative. *)
Lemma debit_nonneg balance amount :
  Number_lt balance amount = false ->
  (0 <= to_scale_2 (cents balance + - amount)%Q)%Z.
Proof.
  rewrite Number_lt_covered. unfold Qle, cents. cbn [Qnum Qden]. intros Hle.
  unfold to_scale_2. apply round_half_away_nonneg; [|lia].
  unfold Qplus, Qopp. cbn [Qnum Qden]. lia.
Qed.

Lemma credit_nonneg balance amount :
  (0 <= balance)%Z -> (0 < amount)%Q ->
  (0 <= to_scale_2 (cents balance + amount)%Q)%Z.
Proof.
  unfold Qlt, cents. cbn [Qnum Qden]. intros Hb Hx.
  unfold to_scale_2. apply round_half_away_nonneg; [|lia].
  unfold Qplus. cbn [Qnum Qden]. nia.
Qed.

(** A credit to a balance that is not negative adds what the record of the
    amount carries, whatever the amount. *)
Lemma credit_stored balance amount :
  (0 <= balance)%Z -> (0 < amount)%Q ->
  to_scale_2 (cents balance + amount)%Q = (balance + to_scale_2 amount)%Z.
Proof.
  unfold Qlt. cbn [Qnum Qden]. intros Hb Hx.
  unfold to_scale_2, cents, Qplus. cbn [Qnum Qden].
  rewrite Pos2Z.inj_mul, round_half_away_scale by lia.
  replace (Qnum amount * 100)%Z with (100 * Qnum amount)%Z by lia.
  apply round_half_away_shift; nia.
Qed.

(** The rounding of a double is off by at most half a unit. *)
Lemma round_half_even_error n d :
  (0 < d)%Z ->
  (- d <= 2 * (d * round_half_even n d - n) <= d)%Z.
Proof.
  intros Hd. unfold round_half_even.
  assert (Hdiv := Z.div_mod n d ltac:(lia)).
  assert (Hmod := Z.mod_pos_bound n d Hd).
  repeat case_match; rewrite ?Z.ltb_lt, ?Z.ltb_ge in *; lia.
Qed.

(** Doubles carry every amount of cents below 2^46 units: shown with two
    decimals, [Number(x)] is [x]. *)
Lemma Number_exact c :
  (Z.abs c < 100 * 2 ^ 46)%Z -> toFixed_2 (Number c) = c.
Proof.
  intros Hc. unfold Number.
  destruct (Z.eqb_spec c 0) as [->|Hnz]; [done|].
  set (a := Z.abs c) in *. assert (Ha : (0 < a)%Z) by lia.
  assert (Hp : (Z.log2 a < 53)%Z) by (apply Z.log2_lt_pow2; lia).
  assert (Hp0 := Z.log2_nonneg a).
  set (k0 := (59 - Z.log2 a)%Z).
  assert (Hk0 : (7 <= k0)%Z) by lia.
  rewrite (Z.max_l k0 0), (Z.max_r (- k0) 0) by lia.
  set (k := if Z.ltb _ _ then k0 else (k0 - 1)%Z).
  assert (Hk : (7 <= k)%Z).
  { unfold k. destruct (Z.ltb_spec (a * 2 ^ k0) (100 * 2 ^ 53 * 2 ^ 0));
      [done|].
    destruct (Z.eq_dec k0 7) as [Hseven|]; [|lia].
    rewrite Hseven in *. lia. }
  rewrite (Z.max_l k 0), (Z.max_r (- k) 0) by lia.
  unfold toFixed_2. cbn [Double.mantissa Double.exponent].
  rewrite Z.opp_involutive.
  rewrite (Z.max_r (- k) 0), (Z.max_l k 0) by lia.
  assert (Hpow : (2 ^ 7 <= 2 ^ k)%Z) by (apply Z.pow_le_mono_r; lia).
  set (P := (2 ^ k)%Z) in *. change (2 ^ 7)%Z with 128%Z in Hpow.
  change (2 ^ 0)%Z with 1%Z.
  assert (Herr := round_half_even_error (a * P) (100 * 1) ltac:(lia)).
  set (m := round_half_even (a * P) (100 * 1)) in *.
  assert (Hm : (1 <= m)%Z) by nia.
  unfold round_half_away.
  destruct (Z.leb_spec 0 (100 * (Z.sgn c * m) * 1)) as [Hsign|Hsign].
  - assert (Hpos : (0 < c)%Z) by nia.
    rewrite Z.sgn_pos by done.
    assert (Hac : a = c) by lia. rewrite Hac in Herr.
    symmetry. apply Z.div_unique with (r := (2 * (100 * m - c * P) + P)%Z); lia.
  - assert (Hneg : (c < 0)%Z) by nia.
    rewrite Z.sgn_neg by done.
    assert (Hac : a = (- c)%Z) by lia. rewrite Hac in Herr.
    assert (Hq : ((2 * - (100 * (-1 * m) * 1) + P) / (2 * P) = - c)%Z).
    { symmetry.
      apply Z.div_unique with (r := (2 * (100 * m + c * P) + P)%Z); lia. }
    lia.
Qed.

(** In particular every balance a column can hold. *)
Lemma Number_of_balance_exact b :
  fits_decimal b = true -> toFixed_2 (Number b) = b.
Proof.
  unfold fits_decimal, DECIMAL_15_2_max.
  rewrite andb_true_iff, !Z.leb_le. intros [Hlow Hhigh].
  apply Number_exact. lia.
Qed.

(** Beyond that bound a double is too coarse for cents: the next amount
    is shown as another one. *)
Example Number_loses_cents :
  toFixed_2 (Number (100 * 2 ^ 46 + 1)) = (100 * 2 ^ 46 + 2)%Z
  /\ toFixed_2 (Number 9999999999999999) = 9999999999999998%Z.
Proof. vm_compute. split; reflexivity. Qed.

(** * Running the handlers

    Each handler is first run symbolically, once: the [_run] lemmas give its
    response and final state as a decision tree over the request and the
    store.  The theorems below are read off these trees. *)

Ltac run_handler :=
  unfold try_catch, parse, bind, ret, throw,
    prisma_transaction_findUnique, prisma_transaction, tx_user_findUnique,
    tx_others_commit, tx_transaction_create, tx_transaction_update,
    tx_user_update_balance, external_system, in_tx, close_unit, sort_pair,
    references_user;
  cbn [durable tx trace fst snd default users transactions fmap option_fmap
       option_map].

Ltac step :=
  cbn [durable tx trace fst snd default users transactions andb orb negb
       Transaction.id Transaction.status fmap option_fmap option_map].

Ltac close_trace := by rewrite <- ?app_assoc.

(** Nothing is committed by others under a quiet environment. *)
Ltac calm Hquiet :=
  unfold rolled_back_late, rolled_back, others_done;
  rewrite ?(proj1 Hquiet), ?(proj2 Hquiet).

Ltac unchanged Hquiet := by calm Hquiet; cbn; calm Hquiet.

Ltac no_event := exists []; by rewrite app_nil_r.
Ltac some_events := eexists; split; [reflexivity|]; cbn; by repeat constructor.

Lemma eqb_false_sym (a b : string) :
  String.eqb a b = false -> String.eqb b a = false.
Proof. rewrite !String.eqb_neq. congruence. Qed.

Lemma lookup_last {A} (l : list A) (x : A) : (l ++ [x]) !! length l = Some x.
Proof. by rewrite list_lookup_middle. Qed.

Lemma insert_last {A} (l : list A) (x y : A) :
  <[length l := y]> (l ++ [x]) = l ++ [y].
Proof. rewrite insert_app_r_alt by lia. by rewrite Nat.sub_diag. Qed.

Lemma existsb_false_find {A} (f : A -> bool) l :
  existsb f l = false -> find f l = None.
Proof.
  induction l as [|x l IH]; cbn; [done|].
  destruct (f x); cbn; [done|auto].
Qed.

Lemma find_some_existsb {A} (f : A -> bool) l x :
  find f l = Some x -> existsb f l = true.
Proof.
  induction l as [|y l IH]; cbn; [done|].
  destruct (f y); cbn; [done|auto].
Qed.

Lemma find_app_fresh {A} (f : A -> bool) l x :
  existsb f l = false -> f x = true -> find f (l ++ [x]) = Some x.
Proof.
  induction l as [|y l IH]; cbn; intros Hl Hx.
  - by rewrite Hx.
  - destruct (f y); cbn in *; [done|auto].
Qed.

Lemma events_of_same s : events_of s s = [].
Proof. unfold events_of. by rewrite drop_all. Qed.

Lemma events_of_app s d t evs :
  events_of s (mkState d t (trace s ++ evs)) = evs.
Proof. unfold events_of. cbn [trace]. by rewrite drop_app_length. Qed.

Lemma events_of_rolled_back env s :
  events_of s (rolled_back env s) = [UnitBegin; UnitRollback].
Proof. apply events_of_app. Qed.

Lemma events_of_rolled_back_late env s :
  events_of s (rolled_back_late env s) = [UnitBegin; UnitRollback].
Proof. apply events_of_app. Qed.

Lemma external_calls_app evs1 evs2 :
  external_calls (evs1 ++ evs2) = external_calls evs1 ++ external_calls evs2.
Proof. apply flat_map_app. Qed.

Lemma response_cases (r : Response) :
  (exists row, json r = JTransaction row)
  \/ (forall row, json r <> JTransaction row).
Proof. destruct r as [c [row| |]]; cbn; eauto. Qed.

Lemma quiet_others_done env d : quiet env -> others_done env d = d.
Proof. intros Hquiet. by calm Hquiet. Qed.

Section Execution.

Variable uuid : string -> bool.

Lemma deposit_run env req s :
  deposit uuid env req s =
  let userId := DepositBody.userId req in
  let amount := DepositBody.amount req in
  let key := DepositBody.idempotencyKey req in
  if depositSchema uuid req then
    match find (has_key key) (transactions (durable s)) with
    | Some existing => (mkResponse 200 (JTransaction existing), s)
    | None =>
        match users (concurrent env (durable s)) !! userId with
        | None => (user_not_found, rolled_back env s)
        | Some _ =>
            let d := others_done env (durable s) in
            match users d !! userId with
            | None => (internal_server_error, rolled_back_late env s)
            | Some user =>
                if existsb (has_key key) (transactions d)
                   || negb (fits_decimal (to_scale_2 amount))
                   || negb (fits_decimal
                              (to_scale_2 (cents (User.balance user) + amount)%Q))
                then (internal_server_error, rolled_back_late env s)
                else
                  let row :=
                    Transaction.mk (length (transactions d)) DEPOSIT COMPLETED
                      (to_scale_2 amount) key None (Some userId)
                      (Some (or_default (DepositBody.description req) "Deposit"))
                      None in
                  (mkResponse 201 (JTransaction row),
                   mkState (mkDB (<[userId := credit amount user]> (users d))
                                 (transactions d ++ [row]))
                           None (trace s ++ [UnitBegin; UnitCommit]))
            end
        end
    end
  else (invalid_input, s).
Proof.
  unfold deposit, rolled_back_late, rolled_back, others_done, credit.
  run_handler.
  destruct (depositSchema uuid req); [|done].
  destruct (find _ _); [done|].
  destruct (users (concurrent env _) !! _); step; [|close_trace].
  destruct (users (meanwhile env _) !! _) as [user|] eqn:Huser; step.
  - destruct (existsb _ _); step; [close_trace|].
    rewrite ?Huser, bool_decide_eq_true_2 by done. step.
    destruct (fits_decimal (to_scale_2 (DepositBody.amount req))); step;
      [|close_trace].
    rewrite ?Huser.
    destruct (fits_decimal (to_scale_2 (_ + _))); step; close_trace.
  - destruct (existsb _ _); step; [close_trace|].
    rewrite ?Huser, bool_decide_eq_false_2 by (by intros [? ?]). step.
    close_trace.
Qed.

Lemma transfer_run env req s :
  transfer uuid env req s =
  let senderId := TransferBody.senderId req in
  let receiverId := TransferBody.receiverId req in
  let amount := TransferBody.amount req in
  let key := TransferBody.idempotencyKey req in
  if transferSchema uuid req then
    if String.eqb senderId receiverId then (invalid_transfer, s) else
    match find (has_key key) (transactions (durable s)) with
    | Some existing => (mkResponse 200 (JTransaction existing), s)
    | None =>
        let d := concurrent env (durable s) in
        match users d !! senderId, users d !! receiverId with
        | Some sender, Some receiver =>
            if Number_lt (User.balance sender) amount then
              (insufficient_funds
                 "Sender does not have enough balance for this transfer",
               rolled_back env s)
            else if existsb (has_key key) (transactions d)
               || negb (fits_decimal (to_scale_2 amount))
               || negb (fits_decimal
                          (to_scale_2 (cents (User.balance sender) + - amount)%Q))
               || negb (fits_decimal
                          (to_scale_2 (cents (User.balance receiver) + amount)%Q))
               || conflict env 0
            then (internal_server_error, rolled_back env s)
            else
              let row := Transaction.mk (length (transactions d)) TRANSFER COMPLETED
                           (to_scale_2 amount) key (Some senderId) (Some receiverId)
                           (Some (or_default (TransferBody.description req)
                                    "Internal Transfer"))
                           None in
              (mkResponse 201 (JTransaction row),
               mkState (mkDB (<[receiverId := credit amount receiver]>
                                (<[senderId := credit (- amount) sender]> (users d)))
                             (transactions d ++ [row]))
                       None (trace s ++ [UnitBegin; UnitCommit]))
        | _, _ => (user_not_found, rolled_back env s)
        end
    end
  else (invalid_input, s).
Proof.
  unfold transfer, rolled_back, credit. run_handler.
  destruct (transferSchema uuid req); [|done].
  destruct (String.eqb _ _) eqn:Hne; [done|].
  destruct (find _ _); [done|].
  assert (Hne' := eqb_false_sym _ _ Hne).
  assert (Hids : TransferBody.senderId req <> TransferBody.receiverId req)
    by (by apply String.eqb_neq).
  set (d := concurrent env (durable s)).
  destruct (users d !! TransferBody.senderId req) as [sender|] eqn:Hs;
  destruct (users d !! TransferBody.receiverId req) as [receiver|] eqn:Hr;
  (destruct (String.ltb _ _); rewrite ?Hne, ?Hne', ?String.eqb_refl; step;
   rewrite ?Hs, ?Hr; step; try close_trace).
  all: destruct (Number_lt _ _); step; [close_trace|].
  all: destruct (existsb _ _); step; [close_trace|].
  all: rewrite Hs, Hr, !bool_decide_eq_true_2 by done; step.
  all: destruct (fits_decimal (to_scale_2 (TransferBody.amount req))); step;
         [|close_trace].
  all: rewrite Hs.
  all: destruct (fits_decimal (to_scale_2 (cents (User.balance sender) + _)));
         step; [|close_trace].
  all: rewrite lookup_insert_ne, Hr by done.
  all: destruct (fits_decimal (to_scale_2 (cents (User.balance receiver) + _)));
         step; [|close_trace].
  all: destruct (conflict env 0); step; close_trace.
Qed.

Lemma withdraw_run env req s :
  withdraw uuid env req s =
  let userId := WithdrawBody.userId req in
  let amount := WithdrawBody.amount req in
  let key := WithdrawBody.idempotencyKey req in
  if withdrawSchema uuid req then
    match find (has_key key) (transactions (durable s)) with
    | Some existing => (mkResponse 200 (JTransaction existing), s)
    | None =>
        match users (concurrent env (durable s)) !! userId with
        | None => (user_not_found, rolled_back env s)
        | Some checked =>
            if Number_lt (User.balance checked) amount then
              (insufficient_funds
                 "User does not have enough balance for this withdrawal",
               rolled_back env s)
            else
              let d := others_done env (durable s) in
              match users d !! userId with
              | None => (internal_server_error, rolled_back_late env s)
              | Some user =>
                  if existsb (has_key key) (transactions d)
                     || negb (fits_decimal (to_scale_2 amount))
                  then (internal_server_error, rolled_back_late env s)
                  else
                    let row status reason :=
                      Transaction.mk (length (transactions d)) WITHDRAWAL status
                        (to_scale_2 amount) key (Some userId) None
                        (Some (or_default (WithdrawBody.description req)
                                 "Withdrawal"))
                        reason in
                    if settlement env then
                      if fits_decimal
                           (to_scale_2 (cents (User.balance user) + - amount)%Q)
                      then
                        (mkResponse 201 (JTransaction (row COMPLETED None)),
                         mkState
                           (mkDB (<[userId := credit (- amount) user]> (users d))
                                 (transactions d ++ [row COMPLETED None]))
                           None
                           (trace s ++ [UnitBegin; ExternalCall d; UnitCommit]))
                      else
                        (internal_server_error,
                         mkState d None
                           (trace s ++ [UnitBegin; ExternalCall d; UnitRollback]))
                    else
                      let failed :=
                        row FAILED
                          (Some "External system rejected the withdrawal") in
                      (mkResponse 400 (JTransaction failed),
                       mkState (mkDB (users d) (transactions d ++ [failed])) None
                               (trace s ++ [UnitBegin; ExternalCall d; UnitCommit]))
              end
        end
    end
  else (invalid_input, s).
Proof.
  unfold withdraw, rolled_back_late, rolled_back, others_done, credit.
  run_handler.
  destruct (withdrawSchema uuid req); [|done].
  destruct (find _ _); [done|].
  destruct (users (concurrent env _) !! _); step; [|close_trace].
  destruct (Number_lt _ _); step; [close_trace|].
  set (d := meanwhile env (concurrent env (durable s))).
  destruct (users d !! _) as [user|] eqn:Huser; step.
  - destruct (existsb _ _); step; [close_trace|].
    rewrite ?Huser, bool_decide_eq_true_2 by done; step.
    destruct (fits_decimal (to_scale_2 (WithdrawBody.amount req))); step;
      [|close_trace].
    destruct (settlement env); step.
    + rewrite lookup_last; step.
      rewrite insert_last, ?Huser.
      destruct (fits_decimal _); step; close_trace.
    + rewrite lookup_last; step.
      rewrite insert_last. close_trace.
  - destruct (existsb _ _); step; [close_trace|].
    rewrite ?Huser, bool_decide_eq_false_2 by (by intros [? ?]). step.
    close_trace.
Qed.

(** ** Replay *)

Lemma deposit_replay env req s existing :
  depositSchema uuid req = true ->
  find (has_key (DepositBody.idempotencyKey req)) (transactions (durable s))
    = Some existing ->
  deposit uuid env req s = (mkResponse 200 (JTransaction existing), s).
Proof.
  intros Hvalid Hfound. rewrite deposit_run. cbn zeta.
  by rewrite Hvalid, Hfound.
Qed.

Lemma withdraw_replay env req s existing :
  withdrawSchema uuid req = true ->
  find (has_key (WithdrawBody.idempotencyKey req)) (transactions (durable s))
    = Some existing ->
  withdraw uuid env req s = (mkResponse 200 (JTransaction existing), s).
Proof.
  intros Hvalid Hfound. rewrite withdraw_run. cbn zeta.
  by rewrite Hvalid, Hfound.
Qed.

Lemma transfer_replay env req s existing :
  transferSchema uuid req = true ->
  find (has_key (TransferBody.idempotencyKey req)) (transactions (durable s))
    = Some existing ->
  transfer uuid env req s =
    (if String.eqb (TransferBody.senderId req) (TransferBody.receiverId req)
     then invalid_transfer
     else mkResponse 200 (JTransaction existing), s).
Proof.
  intros Hvalid Hfound. rewrite transfer_run. cbn zeta. rewrite Hvalid, Hfound.
  by destruct (String.eqb _ _).
Qed.

(** A record in a response is the record stored under the request's key. *)
Lemma deposit_returns_stored env req s row :
  json (fst (deposit uuid env req s)) = JTransaction row ->
  depositSchema uuid req = true
  /\ find (has_key (DepositBody.idempotencyKey req))
          (transactions (durable (snd (deposit uuid env req s)))) = Some row.
Proof.
  rewrite deposit_run. cbn zeta.
  destruct (depositSchema uuid req); [|done].
  destruct (find _ _) eqn:Hfound; [by intros [= <-]|].
  destruct (users (concurrent env _) !! _); [|done].
  destruct (users (others_done env _) !! _); [|done].
  destruct (existsb _ _) eqn:Hfresh; [done|].
  destruct (_ || _); [done|]. intros [= <-]. split; [done|].
  cbn [snd durable transactions]. apply find_app_fresh; [done|].
  apply String.eqb_refl.
Qed.

Lemma transfer_returns_stored env req s row :
  json (fst (transfer uuid env req s)) = JTransaction row ->
  transferSchema uuid req = true
  /\ String.eqb (TransferBody.senderId req) (TransferBody.receiverId req) = false
  /\ find (has_key (TransferBody.idempotencyKey req))
          (transactions (durable (snd (transfer uuid env req s)))) = Some row.
Proof.
  rewrite transfer_run. cbn zeta.
  destruct (transferSchema uuid req); [|done].
  destruct (String.eqb _ _); [done|].
  destruct (find _ _) eqn:Hfound; [by intros [= <-]|].
  destruct (users _ !! TransferBody.senderId req); [|done].
  destruct (users _ !! TransferBody.receiverId req); [|done].
  destruct (Number_lt _ _); [done|].
  destruct (existsb _ _) eqn:Hfresh; [done|].
  destruct (_ || _); [done|]. intros [= <-]. do 2 (split; [done|]).
  cbn [snd durable transactions]. apply find_app_fresh; [done|].
  apply String.eqb_refl.
Qed.

Lemma withdraw_returns_stored env req s row :
  json (fst (withdraw uuid env req s)) = JTransaction row ->
  withdrawSchema uuid req = true
  /\ find (has_key (WithdrawBody.idempotencyKey req))
          (transactions (durable (snd (withdraw uuid env req s)))) = Some row.
Proof.
  rewrite withdraw_run. cbn zeta.
  destruct (withdrawSchema uuid req); [|done].
  destruct (find _ _) eqn:Hfound; [by intros [= <-]|].
  destruct (users (concurrent env _) !! _); [|done].
  destruct (Number_lt _ _); [done|].
  destruct (users (others_done env _) !! _); [|done].
  destruct (existsb _ _) eqn:Hfresh; [done|].
  destruct (negb _); [done|]. cbn [orb].
  destruct (settlement env); [destruct (fits_decimal _); [|done]|];
    intros [= <-]; (split; [done|]);
    cbn [snd durable transactions]; (apply find_app_fresh; [done|]);
    apply String.eqb_refl.
Qed.

(** A response without a record comes with nothing of the request committed. *)
Lemma deposit_error_unchanged env req s :
  (forall row, json (fst (deposit uuid env req s)) <> JTransaction row) ->
  durable (snd (deposit uuid env req s)) = durable s
  \/ durable (snd (deposit uuid env req s)) = concurrent env (durable s)
  \/ durable (snd (deposit uuid env req s)) = others_done env (durable s).
Proof.
  rewrite deposit_run. cbn zeta. intros Herror.
  repeat case_match; cbn; auto; exfalso; by eapply Herror.
Qed.

Lemma transfer_error_unchanged env req s :
  (forall row, json (fst (transfer uuid env req s)) <> JTransaction row) ->
  durable (snd (transfer uuid env req s)) = durable s
  \/ durable (snd (transfer uuid env req s)) = concurrent env (durable s).
Proof.
  rewrite transfer_run. cbn zeta. intros Herror.
  repeat case_match; cbn; auto; exfalso; by eapply Herror.
Qed.

Lemma withdraw_error_unchanged env req s :
  (forall row, json (fst (withdraw uuid env req s)) <> JTransaction row) ->
  durable (snd (withdraw uuid env req s)) = durable s
  \/ durable (snd (withdraw uuid env req s)) = concurrent env (durable s)
  \/ durable (snd (withdraw uuid env req s)) = others_done env (durable s).
Proof.
  rewrite withdraw_run. cbn zeta. intros Herror.
  repeat case_match; cbn; auto; exfalso; by eapply Herror.
Qed.

(** ** Requests that exceed the balance *)

Lemma transfer_short_unchanged env req s sender :
  quiet env ->
  users (durable s) !! TransferBody.senderId req = Some sender ->
  (cents (User.balance sender) < TransferBody.amount req)%Q ->
  durable (snd (transfer uuid env req s)) = durable s.
Proof.
  intros Hquiet Hsender Hshort. rewrite transfer_run. cbn zeta.
  calm Hquiet. rewrite Hsender.
  apply Number_lt_short in Hshort. rewrite Hshort.
  repeat case_match; cbn; by calm Hquiet.
Qed.

Lemma withdraw_short_unchanged env req s user :
  quiet env ->
  users (durable s) !! WithdrawBody.userId req = Some user ->
  (cents (User.balance user) < WithdrawBody.amount req)%Q ->
  durable (snd (withdraw uuid env req s)) = durable s.
Proof.
  intros Hquiet Huser Hshort. rewrite withdraw_run. cbn zeta.
  calm Hquiet. rewrite Huser.
  apply Number_lt_short in Hshort. rewrite Hshort.
  repeat case_match; cbn; by calm Hquiet.
Qed.

(** ** The balance invariant, one request at a time *)

Lemma depositSchema_amount req :
  depositSchema uuid req = true -> amount_ok (DepositBody.amount req) = true.
Proof. unfold depositSchema. rewrite !andb_true_iff. tauto. Qed.

Lemma transferSchema_amount req :
  transferSchema uuid req = true -> amount_ok (TransferBody.amount req) = true.
Proof. unfold transferSchema. rewrite !andb_true_iff. tauto. Qed.

Lemma withdrawSchema_amount req :
  withdrawSchema uuid req = true -> amount_ok (WithdrawBody.amount req) = true.
Proof. unfold withdrawSchema. rewrite !andb_true_iff. tauto. Qed.

Lemma deposit_keeps_nonneg env req s :
  quiet env -> no_negative_balance (durable s) ->
  no_negative_balance (durable (snd (deposit uuid env req s))).
Proof.
  intros Hquiet Hs. rewrite deposit_run. cbn zeta. calm Hquiet.
  destruct (depositSchema uuid req) eqn:Hvalid; [|done].
  destruct (find _ _); [done|].
  destruct (users _ !! _) as [user|] eqn:Huser; [|unchanged Hquiet].
  destruct (_ || _); [unchanged Hquiet|].
  unfold no_negative_balance. cbn [snd durable users].
  apply map_Forall_insert_2; [|done]. cbn.
  apply depositSchema_amount, amount_ok_positive in Hvalid.
  specialize (Hs _ _ Huser). by apply credit_nonneg.
Qed.

Lemma transfer_keeps_nonneg env req s :
  quiet env -> no_negative_balance (durable s) ->
  no_negative_balance (durable (snd (transfer uuid env req s))).
Proof.
  intros Hquiet Hs. rewrite transfer_run. cbn zeta. calm Hquiet.
  destruct (transferSchema uuid req) eqn:Hvalid; [|done].
  destruct (String.eqb _ _); [done|].
  destruct (find _ _); [done|].
  destruct (users _ !! TransferBody.senderId req) as [sender|] eqn:Hsender;
    [|unchanged Hquiet].
  destruct (users _ !! TransferBody.receiverId req) as [receiver|] eqn:Hreceiver;
    [|unchanged Hquiet].
  destruct (Number_lt _ _) eqn:Hcovered; [unchanged Hquiet|].
  destruct (_ || _); [unchanged Hquiet|].
  unfold no_negative_balance. cbn [snd durable users].
  apply transferSchema_amount, amount_ok_positive in Hvalid.
  apply map_Forall_insert_2; [|apply map_Forall_insert_2; [|done]]; cbn.
  - specialize (Hs _ _ Hreceiver). by apply credit_nonneg.
  - by apply debit_nonneg.
Qed.

Lemma withdraw_keeps_nonneg env req s :
  quiet env -> no_negative_balance (durable s) ->
  no_negative_balance (durable (snd (withdraw uuid env req s))).
Proof.
  intros Hquiet Hs. rewrite withdraw_run. cbn zeta. calm Hquiet.
  destruct (withdrawSchema uuid req); [|done].
  destruct (find _ _); [done|].
  destruct (users _ !! _) as [user|]; [|unchanged Hquiet].
  destruct (Number_lt _ _) eqn:Hcovered; [unchanged Hquiet|].
  destruct (_ || _); [unchanged Hquiet|].
  destruct (settlement env); [destruct (fits_decimal _)|]; try done.
  unfold no_negative_balance. cbn [snd durable users].
  apply map_Forall_insert_2; [|done]. cbn. by apply debit_nonneg.
Qed.

Lemma perform_keeps_nonneg c s :
  quiet (call_env c) -> no_negative_balance (durable s) ->
  no_negative_balance (durable (snd (perform uuid c s))).
Proof.
  destruct c; cbn;
    auto using deposit_keeps_nonneg, transfer_keeps_nonneg, withdraw_keeps_nonneg.
Qed.

Lemma run_keeps_nonneg calls s :
  Forall (fun c => quiet (call_env c)) calls ->
  no_negative_balance (durable s) ->
  no_negative_balance (durable (run uuid calls s)).
Proof.
  intros Hcalls. revert s.
  induction Hcalls as [|c calls Hc _ IH]; intros s Hs; [done|].
  cbn. apply IH. by apply perform_keeps_nonneg.
Qed.

(** What a call adds to the trace; the external system is only ever called
    on the store as the call found it. *)
Lemma perform_events c s :
  quiet (call_env c) ->
  exists evs,
    trace (snd (perform uuid c s)) = trace s ++ evs
    /\ Forall (fun d => d = durable s) (external_calls evs).
Proof.
  intros Hquiet. destruct c as [env req|env req|env req]; cbn in *.
  - rewrite deposit_run. cbn zeta. unfold rolled_back_late, rolled_back.
    repeat case_match; cbn [snd trace]; first [no_event | some_events].
  - rewrite transfer_run. cbn zeta. unfold rolled_back.
    repeat case_match; cbn [snd trace]; first [no_event | some_events].
  - rewrite withdraw_run. cbn zeta. calm Hquiet.
    repeat case_match; cbn [snd trace]; first [no_event | some_events].
Qed.

Lemma run_events_nonneg calls s :
  Forall (fun c => quiet (call_env c)) calls ->
  no_negative_balance (durable s) ->
  Forall no_negative_balance (external_calls (events_of s (run uuid calls s))).
Proof.
  intros Hcalls Hs.
  cut (exists evs, trace (run uuid calls s) = trace s ++ evs
                   /\ Forall no_negative_balance (external_calls evs)).
  { intros (evs & Htrace & Hevs). unfold events_of.
    by rewrite Htrace, drop_app_length. }
  revert s Hs.
  induction Hcalls as [|c calls Hc _ IH]; intros s Hs.
  { exists []. by rewrite app_nil_r. }
  destruct (perform_events c s Hc) as (evs1 & Htrace1 & Hevs1).
  destruct (IH (snd (perform uuid c s))) as (evs2 & Htrace2 & Hevs2).
  { by apply perform_keeps_nonneg. }
  exists (evs1 ++ evs2).
  change (run uuid (c :: calls) s) with (run uuid calls (snd (perform uuid c s))).
  split.
  - by rewrite Htrace2, Htrace1, app_assoc.
  - rewrite external_calls_app. apply Forall_app. split; [|done].
    eapply Forall_impl; [exact Hevs1|]. by intros d ->.
Qed.

(** * The claims *)

(** C2. A deposit, transfer or withdrawal served twice in a row with the
    same body: when the first response carries a transaction record, the
    second response is 200 with that very record (hence the same id) and
    the second call leaves the whole state as the first left it (no balance
    change, no log entry, no unit of work).  In every case at most one of
    the two calls changes the store. *)
Theorem idempotent_replay env1 env2 s :
  (forall req,
     let first := deposit uuid env1 req s in
     let second := deposit uuid env2 req (snd first) in
     (forall row, json (fst first) = JTransaction row ->
        second = (mkResponse 200 (JTransaction row), snd first))
     /\ (quiet env1 ->
         durable (snd first) = durable s \/ snd second = snd first))
  /\ (forall req,
     let first := transfer uuid env1 req s in
     let second := transfer uuid env2 req (snd first) in
     (forall row, json (fst first) = JTransaction row ->
        second = (mkResponse 200 (JTransaction row), snd first))
     /\ (quiet env1 ->
         durable (snd first) = durable s \/ snd second = snd first))
  /\ (forall req,
     let first := withdraw uuid env1 req s in
     let second := withdraw uuid env2 req (snd first) in
     (forall row, json (fst first) = JTransaction row ->
        second = (mkResponse 200 (JTransaction row), snd first))
     /\ (quiet env1 ->
         durable (snd first) = durable s \/ snd second = snd first)).
Proof.
  split; [|split]; intros req first second.
  - assert (Hreplay : forall row, json (fst first) = JTransaction row ->
              second = (mkResponse 200 (JTransaction row), snd first)).
    { intros row Hrow. apply deposit_returns_stored in Hrow as [Hvalid Hstored].
      by apply deposit_replay. }
    split; [done|]. intros Hquiet.
    destruct (response_cases (fst first)) as [[row Hrow]|Herror].
    + right. by rewrite (Hreplay row Hrow).
    + left. destruct (deposit_error_unchanged env1 req s Herror) as [H|[H|H]];
        unfold first; rewrite H; by calm Hquiet.
  - assert (Hreplay : forall row, json (fst first) = JTransaction row ->
              second = (mkResponse 200 (JTransaction row), snd first)).
    { intros row Hrow.
      apply transfer_returns_stored in Hrow as (Hvalid & Hids & Hstored).
      unfold second. by rewrite (transfer_replay _ _ _ row), Hids. }
    split; [done|]. intros Hquiet.
    destruct (response_cases (fst first)) as [[row Hrow]|Herror].
    + right. by rewrite (Hreplay row Hrow).
    + left. destruct (transfer_error_unchanged env1 req s Herror) as [H|H];
        unfold first; rewrite H; by calm Hquiet.
  - assert (Hreplay : forall row, json (fst first) = JTransaction row ->
              second = (mkResponse 200 (JTransaction row), snd first)).
    { intros row Hrow. apply withdraw_returns_stored in Hrow as [Hvalid Hstored].
      by apply withdraw_replay. }
    split; [done|]. intros Hquiet.
    destruct (response_cases (fst first)) as [[row Hrow]|Herror].
    + right. by rewrite (Hreplay row Hrow).
    + left. destruct (withdraw_error_unchanged env1 req s Herror) as [H|[H|H]];
        unfold first; rewrite H; by calm Hquiet.
Qed.

(** C4, as the code has it.  When the look-up finds no record but the
    insert does (another request committed the key in between: before the
    unit of work opened or, for a deposit and a withdrawal, while it was
    reading), the insert fails on the unique index; the unit of work is
    rolled back, so nothing of this request is written, and the caller gets
    500 Internal server error.  The existing record is not fetched.  This
    holds for deposit, transfer and withdraw alike. *)
Theorem duplicate_key_is_surfaced env s winner :
  (forall req,
     depositSchema uuid req = true ->
     find (has_key (DepositBody.idempotencyKey req)) (transactions (durable s))
       = None ->
     find (has_key (DepositBody.idempotencyKey req))
       (transactions (others_done env (durable s))) = Some winner ->
     is_Some (users (concurrent env (durable s)) !! DepositBody.userId req) ->
     deposit uuid env req s = (internal_server_error, rolled_back_late env s))
  /\ (forall req sender,
     let d := concurrent env (durable s) in
     transferSchema uuid req = true ->
     TransferBody.senderId req <> TransferBody.receiverId req ->
     find (has_key (TransferBody.idempotencyKey req)) (transactions (durable s))
       = None ->
     find (has_key (TransferBody.idempotencyKey req)) (transactions d)
       = Some winner ->
     users d !! TransferBody.senderId req = Some sender ->
     is_Some (users d !! TransferBody.receiverId req) ->
     (TransferBody.amount req <= cents (User.balance sender))%Q ->
     transfer uuid env req s = (internal_server_error, rolled_back env s))
  /\ (forall req user,
     withdrawSchema uuid req = true ->
     find (has_key (WithdrawBody.idempotencyKey req)) (transactions (durable s))
       = None ->
     find (has_key (WithdrawBody.idempotencyKey req))
       (transactions (others_done env (durable s))) = Some winner ->
     users (concurrent env (durable s)) !! WithdrawBody.userId req = Some user ->
     (WithdrawBody.amount req <= cents (User.balance user))%Q ->
     withdraw uuid env req s = (internal_server_error, rolled_back_late env s)).
Proof.
  split; [|split].
  - intros req Hvalid Hnew Hwinner [user Huser].
    rewrite deposit_run. cbn zeta.
    rewrite Hvalid, Hnew, Huser, (find_some_existsb _ _ _ Hwinner).
    destruct (users (others_done _ _) !! _); reflexivity.
  - intros req sender d Hvalid Hids Hnew Hwinner Hsender [receiver Hreceiver]
      Hcovered.
    rewrite transfer_run. cbn zeta. fold d.
    apply String.eqb_neq in Hids. apply Number_lt_covered in Hcovered.
    by rewrite Hvalid, Hids, Hnew, Hsender, Hreceiver, Hcovered,
      (find_some_existsb _ _ _ Hwinner).
  - intros req user Hvalid Hnew Hwinner Huser Hcovered.
    rewrite withdraw_run. cbn zeta.
    apply Number_lt_covered in Hcovered.
    rewrite Hvalid, Hnew, Huser, Hcovered, (find_some_existsb _ _ _ Hwinner).
    destruct (users (others_done _ _) !! _); reflexivity.
Qed.

(** C5, as the code has it.  A withdrawal that reaches the external call
    runs in one unit of work.  What is durable when the call is made is the
    store as the other requests left it, without any record under the
    request's key: the PROCESSING record exists only inside the open unit
    of work.  The record, its final status (COMPLETED on success, FAILED on
    failure) and the balance change become durable together, when that same
    unit of work commits after the call; if it is rolled back instead,
    nothing is written. *)
Theorem withdraw_is_one_unit_of_work env req s visible :
  external_calls (events_of s (snd (withdraw uuid env req s))) = [visible] ->
  let userId := WithdrawBody.userId req in
  let amount := WithdrawBody.amount req in
  let key := WithdrawBody.idempotencyKey req in
  let events := events_of s (snd (withdraw uuid env req s)) in
  let after := durable (snd (withdraw uuid env req s)) in
  visible = others_done env (durable s)
  /\ find (has_key key) (transactions visible) = None
  /\ units_of_work events = 1
  /\ exists checked user,
       users (concurrent env (durable s)) !! userId = Some checked
       /\ (amount <= cents (User.balance checked))%Q
       /\ users visible !! userId = Some user
       /\ match json (fst (withdraw uuid env req s)) with
          | JTransaction row =>
              events = [UnitBegin; ExternalCall visible; UnitCommit]
              /\ transactions after = transactions visible ++ [row]
              /\ Transaction.idempotencyKey row = key
              /\ Transaction.status row
                 = (if settlement env then COMPLETED else FAILED)
              /\ users after
                 = (if settlement env
                    then <[userId := credit (- amount) user]> (users visible)
                    else users visible)
          | _ =>
              events = [UnitBegin; ExternalCall visible; UnitRollback]
              /\ after = visible
          end.
Proof.
  rewrite withdraw_run. cbn zeta.
  destruct (withdrawSchema uuid req);
    [|by cbn [fst snd]; rewrite events_of_same].
  destruct (find _ _); [by cbn [fst snd]; rewrite events_of_same|].
  destruct (users (concurrent env _) !! _) as [checked|] eqn:Hchecked;
    [|by cbn [fst snd]; rewrite events_of_rolled_back].
  destruct (Number_lt _ _) eqn:Hcovered;
    [by cbn [fst snd]; rewrite events_of_rolled_back|].
  destruct (users (others_done env _) !! _) as [user|] eqn:Huser;
    [|by cbn [fst snd]; rewrite events_of_rolled_back_late].
  destruct (existsb _ _) eqn:Hfresh; cbn [orb];
    [by cbn [fst snd]; rewrite events_of_rolled_back_late|].
  destruct (negb _); [by cbn [fst snd]; rewrite events_of_rolled_back_late|].
  apply existsb_false_find in Hfresh. apply Number_lt_covered in Hcovered.
  destruct (settlement env); [destruct (fits_decimal _)|];
    cbn [fst snd]; rewrite events_of_app; cbn; intros [= <-];
    (split; [done|]); (split; [done|]); (split; [done|]);
    exists checked, user; done.
Qed.

(** C6. When the external call of a withdrawal was made and answered
    failure, the response is 400 (not 500) and carries the WITHDRAWAL
    record; that record has status FAILED and a non-empty failureReason, it
    is the record stored under the request's key, and no balance differs
    from before the withdrawal. *)
Theorem withdraw_settlement_failure env req s visible :
  quiet env ->
  external_calls (events_of s (snd (withdraw uuid env req s))) = [visible] ->
  settlement env = false ->
  let after := durable (snd (withdraw uuid env req s)) in
  exists row reason,
    fst (withdraw uuid env req s) = mkResponse 400 (JTransaction row)
    /\ Transaction.type row = WITHDRAWAL
    /\ Transaction.status row = FAILED
    /\ Transaction.failureReason row = Some reason
    /\ reason <> EmptyString
    /\ find (has_key (WithdrawBody.idempotencyKey req)) (transactions after)
       = Some row
    /\ users after = users (durable s).
Proof.
  intros Hquiet. rewrite withdraw_run. cbn zeta.
  rewrite (quiet_others_done _ _ Hquiet), (proj1 Hquiet).
  destruct (withdrawSchema uuid req);
    [|by cbn [fst snd]; rewrite events_of_same].
  destruct (find _ _); [by cbn [fst snd]; rewrite events_of_same|].
  destruct (users _ !! _) as [user|];
    [|by cbn [fst snd]; rewrite events_of_rolled_back].
  destruct (Number_lt _ _); [by cbn [fst snd]; rewrite events_of_rolled_back|].
  destruct (existsb _ _) eqn:Hfresh; cbn [orb];
    [by cbn [fst snd]; rewrite events_of_rolled_back_late|].
  destruct (negb _); [by cbn [fst snd]; rewrite events_of_rolled_back_late|].
  intros _ ->. cbn [fst snd durable users transactions].
  do 2 eexists. repeat split; try done.
  apply find_app_fresh; [done|]. apply String.eqb_refl.
Qed.

(** C7. A transfer whose sender holds less than the amount changes
    nothing in the store: no balance, no record.  When the request reaches
    the balance check (valid body, two different accounts, new key,
    receiver exists) the response is 400 Insufficient funds, its unit of
    work is rolled back, and no record exists under its key. *)
Theorem transfer_insufficient_funds env req s sender :
  quiet env ->
  users (durable s) !! TransferBody.senderId req = Some sender ->
  (cents (User.balance sender) < TransferBody.amount req)%Q ->
  durable (snd (transfer uuid env req s)) = durable s
  /\ (transferSchema uuid req = true ->
      TransferBody.senderId req <> TransferBody.receiverId req ->
      find (has_key (TransferBody.idempotencyKey req)) (transactions (durable s))
        = None ->
      is_Some (users (durable s) !! TransferBody.receiverId req) ->
      fst (transfer uuid env req s) =
        insufficient_funds "Sender does not have enough balance for this transfer"
      /\ events_of s (snd (transfer uuid env req s)) = [UnitBegin; UnitRollback]
      /\ find (has_key (TransferBody.idempotencyKey req))
              (transactions (durable (snd (transfer uuid env req s)))) = None).
Proof.
  intros Hquiet Hsender Hshort. split.
  { by eapply transfer_short_unchanged. }
  intros Hvalid Hids Hnew [receiver Hreceiver].
  rewrite transfer_run. cbn zeta.
  apply String.eqb_neq in Hids. apply Number_lt_short in Hshort.
  rewrite Hvalid, Hids, Hnew, (proj1 Hquiet), Hsender, Hreceiver, Hshort.
  cbn [fst snd]. rewrite events_of_rolled_back.
  unfold rolled_back; cbn [durable]. by rewrite (proj1 Hquiet).
Qed.

(** C8. A transfer whose senderId equals its receiverId leaves the whole
    state as it was: no log entry of any status, no balance change, no unit
    of work opened.  The response is a 400; for a valid body it is Invalid
    transfer. *)
Theorem transfer_to_same_account_rejected env req s :
  TransferBody.senderId req = TransferBody.receiverId req ->
  snd (transfer uuid env req s) = s
  /\ statusCode (fst (transfer uuid env req s)) = 400
  /\ (transferSchema uuid req = true ->
      fst (transfer uuid env req s) = invalid_transfer).
Proof.
  intros Hsame. rewrite transfer_run. cbn zeta.
  rewrite Hsame, String.eqb_refl.
  destruct (transferSchema uuid req); done.
Qed.

(** C9, as the code has it.  A transfer that would complete is attempted
    once: when the store reports a serialization failure on that attempt,
    the unit of work is rolled back and the caller gets 500 Internal server
    error at once, whatever the store would answer to later attempts. *)
Theorem transfer_conflict_is_not_retried env req s :
  conflict env 0 = true ->
  statusCode (fst (transfer uuid (without_conflict env) req s)) = 201 ->
  transfer uuid env req s = (internal_server_error, rolled_back env s)
  /\ units_of_work (events_of s (snd (transfer uuid env req s))) = 1.
Proof.
  intros Hconflict. rewrite !transfer_run. cbn zeta.
  cbn [without_conflict concurrent conflict].
  destruct (transferSchema uuid req); [|done].
  destruct (String.eqb _ _); [done|].
  destruct (find _ _); [done|].
  destruct (users _ !! TransferBody.senderId req); [|done].
  destruct (users _ !! TransferBody.receiverId req); [|done].
  destruct (Number_lt _ _); [done|].
  rewrite Hconflict, !orb_true_r. intros _.
  cbn [fst snd]. by rewrite events_of_rolled_back.
Qed.

(** C10, as the code has it.  A valid deposit or withdrawal whose key
    matches a recorded transaction returns that record with 200 and leaves
    the whole state as it was, whatever its other arguments; so does a
    valid transfer between two different accounts.  A transfer whose
    senderId equals its receiverId is answered Invalid transfer before the
    key is looked up, also without any change. *)
Theorem replay_is_decided_by_key env s existing :
  (forall req,
     depositSchema uuid req = true ->
     find (has_key (DepositBody.idempotencyKey req)) (transactions (durable s))
       = Some existing ->
     deposit uuid env req s = (mkResponse 200 (JTransaction existing), s))
  /\ (forall req,
     withdrawSchema uuid req = true ->
     find (has_key (WithdrawBody.idempotencyKey req)) (transactions (durable s))
       = Some existing ->
     withdraw uuid env req s = (mkResponse 200 (JTransaction existing), s))
  /\ (forall req,
     transferSchema uuid req = true ->
     find (has_key (TransferBody.idempotencyKey req)) (transactions (durable s))
       = Some existing ->
     transfer uuid env req s =
       (if String.eqb (TransferBody.senderId req) (TransferBody.receiverId req)
        then invalid_transfer
        else mkResponse 200 (JTransaction existing), s)).
Proof.
  repeat split; intros req Hvalid Hfound.
  - by apply deposit_replay.
  - by apply withdraw_replay.
  - by apply transfer_replay.
Qed.

(** ** Requests served alone, amounts in whole cents *)

(** X23. Served one after the other, deposits, transfers and withdrawals
    never leave a negative balance: if no balance is negative at the start,
    none is after any prefix of the calls ([take n calls], every point at
    which the store can be observed between two requests), nor in any store
    the external system was called on in between, whatever the external
    system and the store answer.  In particular, at each such point, a
    transfer or a withdrawal whose amount exceeds the current balance of
    the paying account leaves the store unchanged. *)
Theorem no_negative_balance_one_at_a_time calls s :
  no_negative_balance (durable s) ->
  Forall (fun c => quiet (call_env c)) calls ->
  forall n,
    let s_n := run uuid (take n calls) s in
    no_negative_balance (durable s_n)
    /\ Forall no_negative_balance (external_calls (events_of s s_n))
    /\ (forall env req sender,
          quiet env ->
          users (durable s_n) !! TransferBody.senderId req = Some sender ->
          (cents (User.balance sender) < TransferBody.amount req)%Q ->
          durable (snd (transfer uuid env req s_n)) = durable s_n)
    /\ (forall env req user,
          quiet env ->
          users (durable s_n) !! WithdrawBody.userId req = Some user ->
          (cents (User.balance user) < WithdrawBody.amount req)%Q ->
          durable (snd (withdraw uuid env req s_n)) = durable s_n).
Proof.
  intros Hs Hcalls n s_n. split; [|split; [|split]].
  - apply run_keeps_nonneg; [|done]. by apply Forall_take.
  - apply run_events_nonneg; [|done]. by apply Forall_take.
  - intros env req sender. apply transfer_short_unchanged.
  - intros env req user. apply withdraw_short_unchanged.
Qed.

(** X24. A transfer that completes (response 201) while no other request
    commits returns a COMPLETED TRANSFER record whose amount is the
    requested amount at the scale of the column; the sender's balance
    becomes its balance minus the amount, the receiver's its balance plus
    the amount, each rounded to the scale of the column, and no other
    account changes.  When the amount is a whole number of cents, the
    record carries exactly the amount, the sender's balance went down by
    exactly the amount, the receiver's went up by exactly the amount, and
    the sum of the two is what it was. *)
Theorem transfer_of_whole_cents_conserves_total env req s :
  quiet env ->
  statusCode (fst (transfer uuid env req s)) = 201 ->
  let senderId := TransferBody.senderId req in
  let receiverId := TransferBody.receiverId req in
  let amount := TransferBody.amount req in
  let after := durable (snd (transfer uuid env req s)) in
  exists sender receiver row,
    users (durable s) !! senderId = Some sender
    /\ users (durable s) !! receiverId = Some receiver
    /\ fst (transfer uuid env req s) = mkResponse 201 (JTransaction row)
    /\ Transaction.type row = TRANSFER
    /\ Transaction.status row = COMPLETED
    /\ Transaction.amount row = to_scale_2 amount
    /\ balance_of after senderId
       = Some (to_scale_2 (cents (User.balance sender) - amount)%Q)
    /\ balance_of after receiverId
       = Some (to_scale_2 (cents (User.balance receiver) + amount)%Q)
    /\ (forall id, id <> senderId -> id <> receiverId ->
        users after !! id = users (durable s) !! id)
    /\ (whole_cents amount = true ->
        (cents (Transaction.amount row) == amount)%Q
        /\ balance_of after senderId
           = Some (User.balance sender - Transaction.amount row)%Z
        /\ balance_of after receiverId
           = Some (User.balance receiver + Transaction.amount row)%Z
        /\ pair_total after senderId receiverId
           = pair_total (durable s) senderId receiverId).
Proof.
  intros Hquiet. rewrite transfer_run. cbn zeta. calm Hquiet.
  destruct (transferSchema uuid req); [|done].
  destruct (String.eqb _ _) eqn:Hids; [done|]. apply String.eqb_neq in Hids.
  destruct (find _ _); [done|].
  destruct (users _ !! TransferBody.senderId req) as [sender|] eqn:Hsender;
    [|done].
  destruct (users _ !! TransferBody.receiverId req) as [receiver|] eqn:Hreceiver;
    [|done].
  destruct (Number_lt _ _); [done|].
  destruct (_ || _); [done|]. intros _.
  exists sender, receiver. eexists. cbn [fst snd durable].
  unfold pair_total, balance_of. cbn [users].
  rewrite lookup_insert_eq, lookup_insert_ne, lookup_insert_eq by done.
  rewrite Hsender, Hreceiver. cbn [fmap option_fmap option_map credit User.balance
    Transaction.type Transaction.status Transaction.amount].
  do 8 (split; [done|]). split.
  - intros id Hs Hr. by rewrite !lookup_insert_ne.
  - intros Hwhole. unfold Qminus.
    rewrite (credit_exact _ _ Hwhole), (debit_exact _ _ Hwhole).
    repeat split; try done.
    + apply whole_cents_exact in Hwhole. unfold Qeq, cents.
      cbn [Qnum Qden Transaction.amount]. lia.
    + f_equal. lia.
Qed.

End Execution.

(** * The scenarios and the claims on sample data *)

(** Scenarios 1 and 2: a deposit of 1000.00 then a transfer of 300.00 from
    two new accounts give [sample_db]. *)
Example scenario_deposit_then_transfer :
  run uuid_shape
    [Deposit (sequential true) k1_deposit; Transfer (sequential true) k2_transfer]
    (mkState fresh_db None [])
  = mkState sample_db None [UnitBegin; UnitCommit; UnitBegin; UnitCommit].
Proof. vm_compute. reflexivity. Qed.

Lemma sample_db_nonneg : no_negative_balance sample_db.
Proof.
  unfold no_negative_balance, sample_db. cbn [users].
  repeat (apply map_Forall_insert_2; [cbn; lia|]).
  apply map_Forall_empty.
Defined.

Lemma sequential_quiet isSuccess : quiet (sequential isSuccess).
Proof. split; intros d; reflexivity. Defined.

Lemma sample_calls_quiet : Forall (fun c => quiet (call_env c)) sample_calls.
Proof. repeat constructor. Defined.

(** C1, the claim fails.  [U1] holds 700.00.  The withdrawal [k11_withdraw]
    of 700.00 passes its balance check; while its unit of work is open the
    withdrawal [k12_withdraw] of 700.00 of another client is served and
    commits, leaving 0.00; the decrement of the first is then applied to
    that row.  Both withdrawals are recorded COMPLETED, the answer is 201,
    and the balance of [U1] is -700.00. *)
Lemma overlapping_withdrawals_overdraw :
  no_negative_balance sample_db
  /\ balance_of sample_db U1 = Some 70000%Z
  /\ withdrawSchema uuid_shape k11_withdraw = true
  /\ withdrawSchema uuid_shape k12_withdraw = true
  /\ statusCode (fst k11_overlapped) = 201
  /\ map Transaction.idempotencyKey
       (List.filter (completed_of WITHDRAWAL)
          (transactions (durable (snd k11_overlapped))))
     = ["k12"; "k11"]
  /\ balance_of (durable (snd k11_overlapped)) U1 = Some (-70000)%Z
  /\ ~ no_negative_balance (durable (snd k11_overlapped)).
Proof.
  split; [apply sample_db_nonneg|].
  do 6 (split; [vm_compute; reflexivity|]).
  intros Hnonneg.
  assert (Hu1 : users (durable (snd k11_overlapped)) !! U1
                = Some (User.mk "u1@example.com" "U1" (-70000)))
    by (vm_compute; reflexivity).
  apply Hnonneg in Hu1. cbn in Hu1. lia.
Qed.

Lemma no_negative_balance_one_at_a_time_witness :
  no_negative_balance (durable after_sample_calls)
  /\ Forall no_negative_balance
       (external_calls (events_of sample_state after_sample_calls))
  /\ durable (snd (transfer uuid_shape (sequential true) k3_transfer
                     after_sample_calls))
     = durable after_sample_calls
  /\ durable (snd (withdraw uuid_shape (sequential true) k8_withdraw
                     after_sample_calls))
     = durable after_sample_calls.
Proof.
  destruct (no_negative_balance_one_at_a_time uuid_shape sample_calls sample_state
              sample_db_nonneg sample_calls_quiet 6)
    as (Hnonneg & Hvisible & Htransfer & Hwithdraw).
  split; [exact Hnonneg|]. split; [exact Hvisible|]. split.
  - eapply Htransfer.
    + apply sequential_quiet.
    + vm_compute. reflexivity.
    + vm_compute. reflexivity.
  - eapply Hwithdraw.
    + apply sequential_quiet.
    + vm_compute. reflexivity.
    + vm_compute. reflexivity.
Defined.

Lemma idempotent_replay_witness :
  deposit uuid_shape (sequential false) k6_deposit (snd k6_first)
  = (mkResponse 200 (JTransaction k6_row), snd k6_first)
  /\ withdraw uuid_shape (sequential true) k4_withdraw (snd k4_declined)
     = (mkResponse 200 (JTransaction k4_failed_row), snd k4_declined)
  /\ (durable (snd k3_rejected) = durable sample_state
      \/ snd (transfer uuid_shape (sequential false) k3_transfer (snd k3_rejected))
         = snd k3_rejected).
Proof.
  destruct (idempotent_replay uuid_shape (sequential true) (sequential false)
              sample_state) as (Hdeposit & Htransfer & _).
  destruct (idempotent_replay uuid_shape (sequential false) (sequential true)
              sample_state) as (_ & _ & Hwithdraw).
  split; [|split].
  - apply (Hdeposit k6_deposit). vm_compute. reflexivity.
  - apply (Hwithdraw k4_withdraw). vm_compute. reflexivity.
  - apply (Htransfer k3_transfer). apply sequential_quiet.
Defined.

Lemma transfer_of_whole_cents_conserves_total_witness :
  exists sender receiver row,
    users sample_db !! U2 = Some sender
    /\ users sample_db !! U1 = Some receiver
    /\ fst k7_completed = mkResponse 201 (JTransaction row)
    /\ (cents (Transaction.amount row) == 25)%Q
    /\ balance_of (durable (snd k7_completed)) U2
       = Some (User.balance sender - Transaction.amount row)%Z
    /\ balance_of (durable (snd k7_completed)) U1
       = Some (User.balance receiver + Transaction.amount row)%Z
    /\ pair_total (durable (snd k7_completed)) U2 U1 = pair_total sample_db U2 U1.
Proof.
  destruct (transfer_of_whole_cents_conserves_total uuid_shape (sequential true)
              k7_transfer sample_state)
    as (sender & receiver & row & Hsender & Hreceiver & Hreply & _ & _ & _ & _
        & _ & _ & Hexact).
  - apply sequential_quiet.
  - vm_compute. reflexivity.
  - destruct Hexact as (Hamount & Hdebit & Hcredit & Htotal);
      [vm_compute; reflexivity|].
    exists sender, receiver, row. repeat split; assumption.
Defined.

(** C3, the claim fails.  [U1] holds 700.00 and [U2] 300.00.  The transfer
    [k13_transfer] of 0.015 passes validation and completes with 201.  The
    store rounds each value it is given to two decimals: the record carries
    0.02, the balance of [U1] becomes 699.985, stored as 699.99, and the
    balance of [U2] becomes 300.015, stored as 300.02.  The sender lost 0.01,
    the receiver gained 0.02, and the sum of the two went from 1000.00 to
    1000.01. *)
Lemma half_cent_transfer_creates_money :
  transferSchema uuid_shape k13_transfer = true
  /\ statusCode (fst k13_completed) = 201
  /\ (exists row, json (fst k13_completed) = JTransaction row
                  /\ Transaction.status row = COMPLETED
                  /\ Transaction.amount row = 2%Z)
  /\ balance_of sample_db U1 = Some 70000%Z
  /\ balance_of sample_db U2 = Some 30000%Z
  /\ balance_of (durable (snd k13_completed)) U1 = Some 69999%Z
  /\ balance_of (durable (snd k13_completed)) U2 = Some 30002%Z
  /\ pair_total sample_db U1 U2 = Some 100000%Z
  /\ pair_total (durable (snd k13_completed)) U1 U2 = Some 100001%Z.
Proof.
  vm_compute. repeat split; try reflexivity.
  eexists. repeat split; reflexivity.
Qed.

(** C4, the claim fails.  The look-up of [k6_deposit] finds nothing, an
    identical request commits, and the insert of this one then fails on the
    unique key: the answer is 500 Internal server error, not the record the
    other request stored. *)
Lemma duplicate_key_race_returns_500 :
  depositSchema uuid_shape k6_deposit = true
  /\ find (has_key "k6") (transactions (durable sample_state)) = None
  /\ find (has_key "k6") (transactions (concurrent racing (durable sample_state)))
     = Some k6_row
  /\ k6_raced = (internal_server_error, rolled_back racing sample_state)
  /\ fst k6_raced <> mkResponse 200 (JTransaction k6_row)
  /\ statusCode (fst k6_raced) = 500.
Proof. vm_compute. repeat split; try reflexivity. discriminate. Qed.

Lemma duplicate_key_is_surfaced_witness :
  deposit uuid_shape racing k6_deposit sample_state
  = (internal_server_error, rolled_back_late racing sample_state).
Proof.
  destruct (duplicate_key_is_surfaced uuid_shape racing sample_state k6_row)
    as (Hdeposit & _ & _).
  apply (Hdeposit k6_deposit).
  - vm_compute. reflexivity.
  - vm_compute. reflexivity.
  - vm_compute. reflexivity.
  - vm_compute. eexists. reflexivity.
Defined.

(** C5, the claim fails.  The withdrawal [k4_withdraw] passes its balance
    check and completes; when its external call is made the durable store
    is still [sample_db], which has no record under "k4", and the request
    opens a single unit of work, committed after the call. *)
Lemma withdraw_record_not_durable_at_settlement :
  statusCode (fst k4_settled) = 201
  /\ events_of sample_state (snd k4_settled)
     = [UnitBegin; ExternalCall sample_db; UnitCommit]
  /\ find (has_key "k4") (transactions sample_db) = None
  /\ units_of_work (events_of sample_state (snd k4_settled)) = 1.
Proof. vm_compute. repeat split; reflexivity. Qed.

Lemma withdraw_is_one_unit_of_work_witness :
  sample_db = others_done (sequential false) (durable sample_state)
  /\ find (has_key "k4") (transactions sample_db) = None
  /\ units_of_work (events_of sample_state (snd k4_declined)) = 1.
Proof.
  destruct (withdraw_is_one_unit_of_work uuid_shape (sequential false)
              k4_withdraw sample_state sample_db)
    as (Hvisible & Hnone & Hone & _).
  - vm_compute. reflexivity.
  - split; [exact Hvisible|]. split; [exact Hnone | exact Hone].
Defined.

Lemma withdraw_settlement_failure_witness :
  exists row reason,
    fst k4_declined = mkResponse 400 (JTransaction row)
    /\ Transaction.type row = WITHDRAWAL
    /\ Transaction.status row = FAILED
    /\ Transaction.failureReason row = Some reason
    /\ reason <> EmptyString
    /\ find (has_key "k4") (transactions (durable (snd k4_declined))) = Some row
    /\ users (durable (snd k4_declined)) = users (durable sample_state).
Proof.
  apply (withdraw_settlement_failure uuid_shape (sequential false) k4_withdraw
           sample_state sample_db).
  - apply sequential_quiet.
  - vm_compute. reflexivity.
  - reflexivity.
Defined.

Lemma transfer_insufficient_funds_witness :
  durable (snd k3_rejected) = durable sample_state
  /\ fst k3_rejected
     = insufficient_funds "Sender does not have enough balance for this transfer"
  /\ events_of sample_state (snd k3_rejected) = [UnitBegin; UnitRollback]
  /\ find (has_key "k3") (transactions (durable (snd k3_rejected))) = None.
Proof.
  destruct (transfer_insufficient_funds uuid_shape (sequential true) k3_transfer
              sample_state (User.mk "u1@example.com" "U1" 70000))
    as [Hsame Hreached].
  - apply sequential_quiet.
  - vm_compute. reflexivity.
  - vm_compute. reflexivity.
  - split; [exact Hsame|]. apply Hreached.
    + vm_compute. reflexivity.
    + vm_compute. discriminate.
    + vm_compute. reflexivity.
    + vm_compute. eexists. reflexivity.
Defined.

Lemma transfer_to_same_account_rejected_witness :
  snd k5_rejected = sample_state
  /\ statusCode (fst k5_rejected) = 400
  /\ fst k5_rejected = invalid_transfer.
Proof.
  destruct (transfer_to_same_account_rejected uuid_shape (sequential true)
              k5_transfer sample_state) as (Hstate & Hcode & Hresponse).
  - reflexivity.
  - split; [exact Hstate|]. split; [exact Hcode|].
    apply Hresponse. vm_compute. reflexivity.
Defined.

(** C9, the claim fails.  The store refuses the first attempt of
    [k7_transfer] and would accept a second one; the transfer, which
    completes when nothing is refused, is answered 500 Internal server
    error after that single attempt. *)
Lemma transfer_conflict_surfaces_at_once :
  conflict conflict_once 0 = true
  /\ conflict conflict_once 1 = false
  /\ statusCode (fst k7_completed) = 201
  /\ fst k7_conflicting = internal_server_error
  /\ events_of sample_state (snd k7_conflicting) = [UnitBegin; UnitRollback]
  /\ units_of_work (events_of sample_state (snd k7_conflicting)) = 1.
Proof. vm_compute. repeat split; reflexivity. Qed.

Lemma transfer_conflict_is_not_retried_witness :
  transfer uuid_shape conflict_once k7_transfer sample_state
  = (internal_server_error, rolled_back conflict_once sample_state)
  /\ units_of_work
       (events_of sample_state
          (snd (transfer uuid_shape conflict_once k7_transfer sample_state))) = 1.
Proof.
  apply (transfer_conflict_is_not_retried uuid_shape conflict_once k7_transfer
           sample_state).
  - reflexivity.
  - vm_compute. reflexivity.
Defined.

(** C10, the claim fails.  [k1_self_transfer] is a valid body whose key is
    that of the recorded deposit [k1_row]; the answer is Invalid transfer,
    not the record. *)
Lemma self_transfer_is_not_replayed :
  transferSchema uuid_shape k1_self_transfer = true
  /\ find (has_key (TransferBody.idempotencyKey k1_self_transfer))
       (transactions (durable sample_state)) = Some k1_row
  /\ transfer uuid_shape (sequential true) k1_self_transfer sample_state
     = (invalid_transfer, sample_state)
  /\ fst (transfer uuid_shape (sequential true) k1_self_transfer sample_state)
     <> mkResponse 200 (JTransaction k1_row).
Proof. vm_compute. repeat split; try reflexivity. discriminate. Qed.

Lemma replay_is_decided_by_key_witness :
  deposit uuid_shape (sequential true) k1_again_deposit sample_state
  = (mkResponse 200 (JTransaction k1_row), sample_state)
  /\ withdraw uuid_shape (sequential true) k1_again_withdraw sample_state
     = (mkResponse 200 (JTransaction k1_row), sample_state)
  /\ transfer uuid_shape (sequential true) k1_again_transfer sample_state
     = (mkResponse 200 (JTransaction k1_row), sample_state)
  /\ transfer uuid_shape (sequential true) k1_self_transfer sample_state
     = (invalid_transfer, sample_state).
Proof.
  destruct (replay_is_decided_by_key uuid_shape (sequential true) sample_state
              k1_row) as (Hdeposit & Hwithdraw & Htransfer).
  split; [|split; [|split]].
  - apply Hdeposit; vm_compute; reflexivity.
  - apply Hwithdraw; vm_compute; reflexivity.
  - apply (Htransfer k1_again_transfer); vm_compute; reflexivity.
  - apply (Htransfer k1_self_transfer); vm_compute; reflexivity.
Defined.

(** * The other handlers *)

Ltac run_query :=
  unfold catching, parse, bind, ret, throw,
    prisma_user_findUnique, prisma_user_findUnique_email, prisma_user_create,
    prisma_transaction_findMany_of, prisma_transaction_findMany_recent,
    prisma_transaction_count_completed, prisma_user_count,
    prisma_user_aggregate_sum_balance, read, others_commit;
  cbn [durable tx trace fst snd users transactions].

Lemma createUser_run email_format env newId req s :
  createUser email_format env newId req s =
  let email := CreateUserBody.email req in
  let name := CreateUserBody.name req in
  if createUserSchema email_format req then
    match find (has_email email) (map_to_list (users (durable s))) with
    | Some _ =>
        (mkReply 409
           (PError "User already exists"
              (Some "A user with this email already exists")), s)
    | None =>
        let d := concurrent env (durable s) in
        if bool_decide (is_Some (users d !! newId))
           || existsb (has_email email) (map_to_list (users d))
        then (server_error, mkState d (tx s) (trace s))
        else
          let row := User.mk email name 0 in
          (mkReply 201 (PUser newId row),
           mkState (mkDB (<[newId := row]> (users d)) (transactions d))
                   (tx s) (trace s))
    end
  else (mkReply 400 PInvalidInput, s).
Proof.
  unfold createUser. run_query.
  destruct (createUserSchema email_format req); [|done].
  destruct (find _ _); [done|].
  cbn [durable tx trace]. by destruct (_ || _).
Qed.

Lemma getUserBalance_run user_id s :
  getUserBalance user_id s =
  (match users (durable s) !! user_id with
   | Some user => mkReply 200 (PBalance user_id (Number (User.balance user)))
   | None =>
       mkReply 404
         (PError "User not found" (Some "No user found with the provided ID"))
   end, s).
Proof. unfold getUserBalance. run_query. by destruct (users _ !! _). Qed.

Lemma getTransactions_run user_id s :
  getTransactions user_id s =
  (match users (durable s) !! user_id with
   | Some _ =>
       mkReply 200
         (PTransactions
            (map (include_parties (durable s))
               (newest_first
                  (List.filter (involves user_id) (transactions (durable s))))))
   | None => mkReply 404 (PError "User not found" None)
   end, s).
Proof. unfold getTransactions. run_query. by destruct (users _ !! _). Qed.

Lemma getAdminStats_run s :
  getAdminStats s =
  (mkReply 200
     (PStats
        (AdminStats.mk (size (users (durable s)))
           (Number (total_balance (users (durable s))))
           (length (List.filter (completed_of TRANSFER) (transactions (durable s))))
           (length (List.filter (completed_of WITHDRAWAL) (transactions (durable s))))
           (length (List.filter (completed_of DEPOSIT) (transactions (durable s))))
           (map (include_parties (durable s))
              (take 50 (newest_first (transactions (durable s))))))), s).
Proof.
  unfold getAdminStats. run_query.
  case_bool_decide as Hempty; [|done].
  rewrite Hempty. unfold total_balance. by rewrite map_fold_empty.
Qed.

(** ** One request, one step *)

Section Steps.

Variable uuid : string -> bool.
Variable email_format : string -> bool.
Variable exact : bool.

Lemma createUser_step env newId req s :
  quiet env ->
  step exact (durable s)
    (durable (snd (createUser email_format env newId req s))).
Proof.
  intros Hquiet. rewrite createUser_run. cbn zeta. calm Hquiet.
  destruct (createUserSchema email_format req); [|constructor].
  destruct (find _ _); [constructor|].
  destruct (bool_decide _) eqn:Hid; cbn [orb]; [constructor|].
  destruct (existsb _ _) eqn:Hemail; [constructor|].
  cbn [snd durable]. apply step_account; [|done].
  apply bool_decide_eq_false in Hid. by apply eq_None_not_Some.
Qed.

Lemma deposit_step env req s :
  quiet env ->
  (exact = true -> whole_cents (DepositBody.amount req) = true) ->
  step exact (durable s) (durable (snd (deposit uuid env req s))).
Proof.
  intros Hquiet Hexact. rewrite deposit_run. cbn zeta. calm Hquiet.
  destruct (depositSchema uuid req) eqn:Hvalid; [|constructor].
  destruct (find _ _); [constructor|].
  destruct (users _ !! _) as [user|] eqn:Huser; [|constructor].
  destruct (existsb _ _) eqn:Hfresh; [constructor|].
  destruct (fits_decimal (to_scale_2 (DepositBody.amount req))) eqn:Hfits;
    [|constructor].
  destruct (fits_decimal (to_scale_2 (_ + _))); [|constructor].
  cbn [snd durable orb negb].
  apply depositSchema_amount in Hvalid.
  by apply (step_deposit _ _ _ _ _ _ _ Huser).
Qed.

Lemma transfer_step env req s :
  quiet env ->
  (exact = true -> whole_cents (TransferBody.amount req) = true) ->
  step exact (durable s) (durable (snd (transfer uuid env req s))).
Proof.
  intros Hquiet Hexact. rewrite transfer_run. cbn zeta. calm Hquiet.
  destruct (transferSchema uuid req) eqn:Hvalid; [|constructor].
  destruct (String.eqb _ _) eqn:Hids; [constructor|].
  apply String.eqb_neq in Hids.
  destruct (find _ _); [constructor|].
  destruct (users _ !! TransferBody.senderId req) as [sender|] eqn:Hsender;
    [|constructor].
  destruct (users _ !! TransferBody.receiverId req) as [receiver|] eqn:Hreceiver;
    [|constructor].
  destruct (Number_lt _ _) eqn:Hcovered; [constructor|].
  destruct (existsb _ _) eqn:Hfresh; [constructor|].
  destruct (fits_decimal (to_scale_2 (TransferBody.amount req))) eqn:Hfits;
    [|constructor].
  cbn [orb negb]. destruct (_ || _); [constructor|]. cbn [snd durable].
  apply transferSchema_amount in Hvalid.
  by apply (step_transfer _ _ _ _ _ _ _ _ _ Hids Hsender Hreceiver).
Qed.

Lemma withdraw_step env req s :
  quiet env ->
  (exact = true -> whole_cents (WithdrawBody.amount req) = true) ->
  step exact (durable s) (durable (snd (withdraw uuid env req s))).
Proof.
  intros Hquiet Hexact. rewrite withdraw_run. cbn zeta. calm Hquiet.
  destruct (withdrawSchema uuid req) eqn:Hvalid; [|constructor].
  destruct (find _ _); [constructor|].
  destruct (users _ !! _) as [user|] eqn:Huser; [|constructor].
  destruct (Number_lt _ _) eqn:Hcovered; [constructor|].
  destruct (existsb _ _) eqn:Hfresh; [constructor|].
  destruct (fits_decimal (to_scale_2 (WithdrawBody.amount req))) eqn:Hfits;
    [|constructor].
  apply withdrawSchema_amount in Hvalid.
  cbn [orb negb].
  destruct (settlement env);
    [destruct (fits_decimal (to_scale_2 (_ + _))); [|constructor]|];
    cbn [snd durable].
  - by apply (step_withdrawal _ _ _ _ _ _ _ Huser).
  - by apply (step_declined _ _ _ _ _ _ _ Huser).
Qed.

Lemma handle_step r s :
  quiet_request r ->
  (exact = true -> whole_cents_request r) ->
  step exact (durable s) (durable (handle uuid email_format r s)).
Proof.
  destruct r; cbn [handle quiet_request whole_cents_request];
    intros Hquiet Hexact.
  - by apply createUser_step.
  - rewrite getUserBalance_run. constructor.
  - by apply deposit_step.
  - by apply transfer_step.
  - by apply withdraw_step.
  - rewrite getTransactions_run. constructor.
  - rewrite getAdminStats_run. constructor.
Qed.

End Steps.

(** ** What a step keeps *)

Lemma existsb_false_elem {A} (f : A -> bool) l x :
  existsb f l = false -> x ∈ l -> f x = false.
Proof.
  intros Hnone Hx. apply list_elem_of_In in Hx.
  destruct (f x) eqn:Hfx; [|done].
  rewrite <- Hnone. symmetry. apply existsb_exists. eauto.
Qed.

Lemma email_free (accounts : gmap string User.t) email id u :
  existsb (has_email email) (map_to_list accounts) = false ->
  accounts !! id = Some u -> User.email u <> email.
Proof.
  intros Hnone Hu.
  apply (existsb_false_elem _ _ (id, u)) in Hnone;
    [|by apply elem_of_map_to_list].
  by apply String.eqb_neq in Hnone.
Qed.

Lemma key_free (log : list Transaction.t) key :
  existsb (has_key key) log = false ->
  key ∉ map Transaction.idempotencyKey log.
Proof.
  intros Hnone Hin. apply list_elem_of_In, in_map_iff in Hin as (row & Hkey & Hrow).
  apply list_elem_of_In in Hrow.
  apply (existsb_false_elem _ _ row) in Hnone; [|done].
  unfold has_key in Hnone. apply String.eqb_neq in Hnone. done.
Qed.

Lemma well_formed_row_mono (accounts accounts' : gmap string User.t) row :
  (forall id, is_Some (accounts !! id) -> is_Some (accounts' !! id)) ->
  well_formed_row accounts row -> well_formed_row accounts' row.
Proof.
  intros Hgrow [Hamount Hshape]. split; [done|].
  destruct (Transaction.type row).
  - destruct Hshape as (? & (id & ? & ?) & ? & ?). eauto 10.
  - destruct Hshape as ((a & b & ? & ? & ? & ? & ?) & ? & ?).
    split; [|done]. exists a, b. eauto 10.
  - destruct Hshape as ((id & ? & ?) & ? & ?). eauto 10.
Qed.

Lemma fits_decimal_le (amount : Z) :
  fits_decimal amount = true -> (amount <= DECIMAL_15_2_max)%Z.
Proof. unfold fits_decimal. rewrite andb_true_iff, !Z.leb_le. tauto. Qed.

Lemma total_balance_insert_new (accounts : gmap string User.t) id u :
  accounts !! id = None ->
  total_balance (<[id := u]> accounts) = (User.balance u + total_balance accounts)%Z.
Proof.
  intros Hnew. unfold total_balance.
  rewrite map_fold_insert_L; [done| |done]. intros. lia.
Qed.

Lemma total_balance_insert (accounts : gmap string User.t) id u u' :
  accounts !! id = Some u ->
  total_balance (<[id := u']> accounts)
  = (total_balance accounts - User.balance u + User.balance u')%Z.
Proof.
  intros Hold.
  rewrite <- (insert_delete_eq accounts id u').
  rewrite total_balance_insert_new by apply lookup_delete_eq.
  rewrite <- (insert_id accounts id u Hold) at 2.
  rewrite <- (insert_delete_eq accounts id u).
  rewrite total_balance_insert_new by apply lookup_delete_eq. lia.
Qed.

Lemma ledger_balance_snoc log row id :
  ledger_balance (log ++ [row]) id = (ledger_balance log id + movement id row)%Z.
Proof.
  unfold ledger_balance. induction log as [|r log IH]; cbn; [lia|].
  rewrite IH. lia.
Qed.

Lemma completed_amount_snoc type log row :
  completed_amount type (log ++ [row])
  = (completed_amount type log
     + (if completed_of type row then Transaction.amount row else 0))%Z.
Proof.
  unfold completed_amount. induction log as [|r log IH]; cbn; [lia|].
  rewrite IH. lia.
Qed.

Lemma unreferenced_no_movement (accounts : gmap string User.t) log id :
  Forall (well_formed_row accounts) log -> accounts !! id = None ->
  ledger_balance log id = 0%Z.
Proof.
  intros Hlog Hnew. induction Hlog as [|row log [_ Hshape] _ IH]; [done|].
  change (ledger_balance (row :: log) id)
    with (movement id row + ledger_balance log id)%Z.
  rewrite IH. unfold movement.
  assert (Hnot : forall ref, is_Some (accounts !! ref) -> Some ref <> Some id).
  { intros ref [u Hu] [= ->]. congruence. }
  destruct (Transaction.type row).
  - destruct Hshape as (-> & (r & -> & ?) & -> & _).
    rewrite !bool_decide_eq_false_2; [lia|done|by apply Hnot].
  - destruct Hshape as ((a & b & -> & -> & _ & ? & ?) & -> & _).
    rewrite !bool_decide_eq_false_2; [lia|by apply Hnot|by apply Hnot].
  - destruct Hshape as ((a & -> & ?) & -> & _).
    destruct (Transaction.status row); try lia.
    rewrite !bool_decide_eq_false_2; [lia|by apply Hnot|done].
Qed.

(** The log only grows, by at most one row, and no recorded row changes. *)
Lemma step_log exact d d' :
  step exact d d' ->
  exists added, transactions d' = transactions d ++ added /\ length added <= 1.
Proof.
  destruct 1; cbn [transactions].
  1, 2: exists []; rewrite app_nil_r; cbn; split; [done|lia].
  all: eexists; split; [reflexivity|cbn; lia].
Qed.

(** No account disappears, and none changes its email or its name. *)
Lemma step_accounts exact d d' id u :
  step exact d d' -> users d !! id = Some u ->
  exists u', users d' !! id = Some u'
             /\ User.email u' = User.email u /\ User.name u' = User.name u.
Proof.
  intros Hstep Hu. destruct Hstep; cbn [users]; eauto.
  - destruct (decide (id0 = id)) as [->|]; [congruence|].
    rewrite lookup_insert_ne by done. eauto.
  - destruct (decide (id0 = id)) as [->|].
    + rewrite lookup_insert_eq. simplify_eq. eauto.
    + rewrite lookup_insert_ne by done. eauto.
  - destruct (decide (b = id)) as [->|];
      [rewrite lookup_insert_eq; simplify_eq; eauto|].
    rewrite lookup_insert_ne by done.
    destruct (decide (a = id)) as [->|];
      [rewrite lookup_insert_eq; simplify_eq; eauto|].
    rewrite lookup_insert_ne by done. eauto.
  - destruct (decide (id0 = id)) as [->|].
    + rewrite lookup_insert_eq. simplify_eq. eauto.
    + rewrite lookup_insert_ne by done. eauto.
Qed.

Lemma step_accounts_grow exact d d' id :
  step exact d d' -> is_Some (users d !! id) -> is_Some (users d' !! id).
Proof.
  intros Hstep [u Hu].
  destruct (step_accounts _ _ _ _ _ Hstep Hu) as (u' & Hu' & _). eauto.
Qed.

Lemma snoc_keys_unique (log : list Transaction.t) row :
  NoDup (map Transaction.idempotencyKey log) ->
  existsb (has_key (Transaction.idempotencyKey row)) log = false ->
  NoDup (map Transaction.idempotencyKey (log ++ [row])).
Proof.
  intros Hlog Hfresh. rewrite map_app. apply NoDup_app. split; [done|].
  split; [|apply NoDup_singleton].
  intros key Hkey Hrow. apply list_elem_of_singleton in Hrow as ->.
  by apply key_free in Hfresh.
Qed.

Lemma snoc_ids (log : list Transaction.t) row :
  (forall i r, log !! i = Some r -> Transaction.id r = i) ->
  Transaction.id row = length log ->
  forall i r, (log ++ [row]) !! i = Some r -> Transaction.id r = i.
Proof.
  intros Hlog Hrow i r [[_ Hr]|[-> <-]]%lookup_snoc_Some; eauto.
Qed.

Lemma emails_unique_insert (accounts : gmap string User.t) id u u' :
  (forall i j v w, accounts !! i = Some v -> accounts !! j = Some w ->
                   User.email v = User.email w -> i = j) ->
  accounts !! id = Some u -> User.email u' = User.email u ->
  forall i j v w, <[id := u']> accounts !! i = Some v ->
                  <[id := u']> accounts !! j = Some w ->
                  User.email v = User.email w -> i = j.
Proof.
  intros Hunique Hu Hsame i j v w Hv Hw Hvw.
  apply lookup_insert_Some in Hv as [[-> <-]|[? Hv]];
  apply lookup_insert_Some in Hw as [[-> <-]|[? Hw]]; try done.
  - apply (Hunique _ _ _ _ Hu Hw). congruence.
  - apply (Hunique _ _ _ _ Hv Hu). congruence.
  - by apply (Hunique _ _ _ _ Hv Hw).
Qed.

Lemma step_well_formed exact d d' :
  well_formed d -> step exact d d' -> well_formed d'.
Proof.
  intros (Hkeys & Hids & Hrows & Hemails) Hstep.
  assert (Hgrow : forall id, is_Some (users d !! id) -> is_Some (users d' !! id))
    by (intros id; by eapply step_accounts_grow).
  assert (Hold : Forall (well_formed_row (users d')) (transactions d)).
  { eapply Forall_impl; [exact Hrows|]. intros row.
    by apply well_formed_row_mono. }
  destruct Hstep as
    [ | id email name Hnew Hfree
      | id user amount key description Huser Hamount Hexact Hfits Hfresh
      | a b sender receiver amount key description Hab Hsender Hreceiver
          Hamount Hcovered Hexact Hfits Hfresh
      | id user amount key description Huser Hamount Hcovered Hexact Hfits Hfresh
      | id user amount key description Huser Hamount Hcovered Hfits Hfresh ];
    unfold well_formed; cbn [users transactions] in *.
  - done.
  - repeat split; try done.
    intros i j v w Hv Hw Hvw.
    apply lookup_insert_Some in Hv as [[-> <-]|[? Hv]];
    apply lookup_insert_Some in Hw as [[-> <-]|[? Hw]]; try done.
    + cbn in Hvw. by destruct (email_free _ _ _ _ Hfree Hw).
    + cbn in Hvw. by destruct (email_free _ _ _ _ Hfree Hv).
    + by apply (Hemails _ _ _ _ Hv Hw).
  - apply fits_decimal_le in Hfits. apply amount_ok_stored in Hamount.
    repeat split.
    + by apply snoc_keys_unique.
    + by apply snoc_ids.
    + apply Forall_app. split; [done|]. apply Forall_singleton.
      split; [cbn; lia|]. cbn. repeat split; try done.
      exists id. split; [done|]. apply Hgrow. eauto.
    + by apply (emails_unique_insert _ _ user).
  - apply fits_decimal_le in Hfits. apply amount_ok_stored in Hamount.
    repeat split.
    + by apply snoc_keys_unique.
    + by apply snoc_ids.
    + apply Forall_app. split; [done|]. apply Forall_singleton.
      split; [cbn; lia|]. cbn. repeat split; try done.
      exists a, b. repeat split; try done; apply Hgrow; eauto.
    + apply (emails_unique_insert _ _ receiver);
        [|by rewrite lookup_insert_ne|done].
      by apply (emails_unique_insert _ _ sender).
  - apply fits_decimal_le in Hfits. apply amount_ok_stored in Hamount.
    repeat split.
    + by apply snoc_keys_unique.
    + by apply snoc_ids.
    + apply Forall_app. split; [done|]. apply Forall_singleton.
      split; [cbn; lia|]. cbn. repeat split; try done.
      * exists id. split; [done|]. apply Hgrow. eauto.
      * by left.
    + by apply (emails_unique_insert _ _ user).
  - apply fits_decimal_le in Hfits. apply amount_ok_stored in Hamount.
    repeat split.
    + by apply snoc_keys_unique.
    + by apply snoc_ids.
    + apply Forall_app. split; [done|]. apply Forall_singleton.
      split; [cbn; lia|]. cbn. repeat split; try done.
      * exists id. split; [done|]. eauto.
      * right. split; [done|]. by eexists.
    + done.
Qed.

Lemma step_reconciled d d' :
  well_formed d -> reconciled d -> step true d d' -> reconciled d'.
Proof.
  intros (_ & _ & Hrows & _) Hd Hstep. unfold reconciled in *.
  destruct Hstep as
    [ | id email name Hnew Hfree
      | id user amount key description Huser Hamount Hexact Hfits Hfresh
      | a b sender receiver amount key description Hab Hsender Hreceiver
          Hamount Hcovered Hexact Hfits Hfresh
      | id user amount key description Huser Hamount Hcovered Hexact Hfits Hfresh
      | id user amount key description Huser Hamount Hcovered Hfits Hfresh ];
    cbn [users transactions]; unfold credit;
    try (specialize (Hexact eq_refl);
         rewrite ?(credit_exact _ _ Hexact), ?(debit_exact _ _ Hexact)).
  - done.
  - apply map_Forall_insert_2; [|done]. cbn.
    symmetry. by eapply unreferenced_no_movement.
  - intros i u Hu. rewrite ledger_balance_snoc. unfold movement, new_row.
    cbn [Transaction.status Transaction.amount Transaction.senderId
         Transaction.receiverId].
    apply lookup_insert_Some in Hu as [[-> <-]|[Hne Hu]];
      repeat case_bool_decide; simplify_eq; cbn [User.balance];
      first [rewrite (Hd _ _ Huser) | rewrite (Hd _ _ Hu)]; lia.
  - intros i u Hu. rewrite ledger_balance_snoc. unfold movement, new_row.
    cbn [Transaction.status Transaction.amount Transaction.senderId
         Transaction.receiverId].
    apply lookup_insert_Some in Hu as [[-> <-]|[Hb Hu]];
      [|apply lookup_insert_Some in Hu as [[-> <-]|[Ha Hu]]];
      repeat case_bool_decide; simplify_eq; cbn [User.balance];
      first [rewrite (Hd _ _ Hreceiver) | rewrite (Hd _ _ Hsender)
            | rewrite (Hd _ _ Hu)]; lia.
  - intros i u Hu. rewrite ledger_balance_snoc. unfold movement, new_row.
    cbn [Transaction.status Transaction.amount Transaction.senderId
         Transaction.receiverId].
    apply lookup_insert_Some in Hu as [[-> <-]|[Hne Hu]];
      repeat case_bool_decide; simplify_eq; cbn [User.balance];
      first [rewrite (Hd _ _ Huser) | rewrite (Hd _ _ Hu)]; lia.
  - intros i u Hu. rewrite ledger_balance_snoc. unfold movement, new_row.
    cbn [Transaction.status]. rewrite (Hd _ _ Hu). lia.
Qed.

Lemma step_conserved d d' : conserved d -> step true d d' -> conserved d'.
Proof.
  unfold conserved. intros Hd Hstep.
  destruct Hstep as
    [ | id email name Hnew Hfree
      | id user amount key description Huser Hamount Hexact Hfits Hfresh
      | a b sender receiver amount key description Hab Hsender Hreceiver
          Hamount Hcovered Hexact Hfits Hfresh
      | id user amount key description Huser Hamount Hcovered Hexact Hfits Hfresh
      | id user amount key description Huser Hamount Hcovered Hfits Hfresh ];
    cbn [users transactions]; rewrite ?completed_amount_snoc; unfold credit;
    try (specialize (Hexact eq_refl);
         rewrite ?(credit_exact _ _ Hexact), ?(debit_exact _ _ Hexact));
    unfold new_row;
    cbn [completed_of Transaction.status Transaction.type Transaction.amount].
  - done.
  - rewrite total_balance_insert_new by done. cbn. lia.
  - rewrite (total_balance_insert _ _ user) by done. cbn. lia.
  - rewrite (total_balance_insert _ _ receiver)
      by (by rewrite lookup_insert_ne).
    rewrite (total_balance_insert _ _ sender) by done. cbn. lia.
  - rewrite (total_balance_insert _ _ user) by done. cbn. lia.
  - lia.
Qed.

(** * Properties of the whole API *)

Section Serving.

Variable uuid : string -> bool.
Variable email_format : string -> bool.

(** What every step keeps, every run keeps. *)
Lemma serve_keeps exact (P : DB -> Prop) requests s :
  (forall d d', P d -> step exact d d' -> P d') ->
  Forall quiet_request requests ->
  (exact = true -> Forall whole_cents_request requests) ->
  P (durable s) -> P (durable (serve uuid email_format requests s)).
Proof.
  intros Hstep Hquiet. revert s.
  induction Hquiet as [|r requests Hr _ IH]; intros s Hexact Hs; [done|].
  cbn. apply IH.
  - intros Htrue. by eapply Forall_cons_1, Hexact.
  - eapply Hstep; [exact Hs|]. apply handle_step; [done|].
    intros Htrue. by eapply Forall_cons_1, Hexact.
Qed.

(** X1. Whatever requests the API serves one after the other, a
    well-formed store stays well formed: idempotency keys are unique, a
    row's id is its position, emails are unique, and every recorded row has
    an amount of at least 0.01 within the column's range, refers to
    existing accounts in the way of its type (a deposit has a receiver
    only, a withdrawal a sender only, a transfer two different accounts)
    and is COMPLETED, or a FAILED withdrawal with a reason.  No row is left
    PENDING or PROCESSING. *)
Theorem store_stays_well_formed requests s :
  well_formed (durable s) ->
  Forall quiet_request requests ->
  well_formed (durable (serve uuid email_format requests s)).
Proof.
  intros. apply (serve_keeps false); [apply step_well_formed|done..].
Qed.

(** X2. Whatever requests are served one after the other, as long as
    their amounts are whole numbers of cents, every balance stays what the
    log says: the COMPLETED amounts received by the account minus the
    COMPLETED amounts it sent.  FAILED withdrawals count for nothing, and a
    new account starts at what the log says for it, zero. *)
Theorem balances_stay_reconciled requests s :
  well_formed (durable s) ->
  reconciled (durable s) ->
  Forall quiet_request requests ->
  Forall whole_cents_request requests ->
  reconciled (durable (serve uuid email_format requests s)).
Proof.
  intros Hwf Hrec Hquiet Hexact.
  apply (serve_keeps true (fun d => well_formed d /\ reconciled d)); [|done..].
  intros d d' [? ?] ?. split;
    [by eapply step_well_formed | by eapply step_reconciled].
Qed.

(** X3. Whatever requests are served one after the other, as long as
    their amounts are whole numbers of cents, the money in the wallets is
    the sum of the COMPLETED deposits minus the sum of the COMPLETED
    withdrawals of the log: transfers move money, they never make or lose
    any.  The total the dashboard reports, [totalValueInWallets], is the
    double nearest to that sum; below 2^46 = 70368744177664 units of money
    the dashboard page, which shows it with two decimals, shows the sum to
    the cent. *)
Theorem dashboard_total_is_conserved requests s :
  conserved (durable s) ->
  Forall quiet_request requests ->
  Forall whole_cents_request requests ->
  let after := serve uuid email_format requests s in
  let sum := (completed_amount DEPOSIT (transactions (durable after))
              - completed_amount WITHDRAWAL (transactions (durable after)))%Z in
  total_balance (users (durable after)) = sum
  /\ exists stats,
       fst (getAdminStats after) = mkReply 200 (PStats stats)
       /\ AdminStats.totalValueInWallets stats = Number sum
       /\ ((Z.abs sum < 100 * 2 ^ 46)%Z ->
           toFixed_2 (AdminStats.totalValueInWallets stats) = sum).
Proof.
  intros Hs Hquiet Hexact after sum.
  assert (Hsum : total_balance (users (durable after)) = sum)
    by (apply (serve_keeps true conserved); [apply step_conserved|done..]).
  split; [done|]. rewrite getAdminStats_run. eexists.
  split; [reflexivity|]. cbn [AdminStats.totalValueInWallets].
  rewrite Hsum. split; [done|]. apply Number_exact.
Qed.

(** X4. The log is append-only: after any requests, it is the log as it
    was followed by new rows, at most one per request; no recorded row is
    changed or removed. *)
Theorem log_is_append_only requests s :
  Forall quiet_request requests ->
  exists added,
    transactions (durable (serve uuid email_format requests s))
    = transactions (durable s) ++ added
    /\ length added <= length requests.
Proof.
  intros Hquiet. revert s.
  induction Hquiet as [|r requests Hr _ IH]; intros s.
  { exists []. by rewrite app_nil_r. }
  change (serve uuid email_format (r :: requests) s)
    with (serve uuid email_format requests (handle uuid email_format r s)).
  assert (Hstep : step false (durable s) (durable (handle uuid email_format r s)))
    by (by apply handle_step).
  destruct (step_log _ _ _ Hstep) as (added1 & Hlog1 & Hlen1).
  destruct (IH (handle uuid email_format r s)) as (added2 & Hlog2 & Hlen2).
  exists (added1 ++ added2). split.
  - by rewrite Hlog2, Hlog1, app_assoc.
  - rewrite length_app. cbn. lia.
Qed.

(** X5. No request removes an account or changes its email or its name. *)
Theorem accounts_persist requests s id u :
  Forall quiet_request requests ->
  users (durable s) !! id = Some u ->
  exists u',
    users (durable (serve uuid email_format requests s)) !! id = Some u'
    /\ User.email u' = User.email u /\ User.name u' = User.name u.
Proof.
  intros Hquiet Hu.
  apply (serve_keeps false (fun d => exists u', users d !! id = Some u'
           /\ User.email u' = User.email u /\ User.name u' = User.name u));
    [|done|done|by eauto].
  intros d d' (v & Hv & Hemail & Hname) Hstep.
  destruct (step_accounts _ _ _ _ _ Hstep Hv) as (v' & Hv' & ? & ?).
  exists v'. split; [done|]. split; congruence.
Qed.

End Serving.

(** * Properties of single handlers *)

Lemma find_none_elem {A} (f : A -> bool) l x :
  find f l = None -> x ∈ l -> f x = false.
Proof.
  intros Hnone Hx. apply list_elem_of_In in Hx. by eapply find_none.
Qed.

Lemma email_taken (accounts : gmap string User.t) id u :
  accounts !! id = Some u ->
  find (has_email (User.email u)) (map_to_list accounts) <> None.
Proof.
  intros Hu Hnone.
  apply (find_none_elem _ _ (id, u)) in Hnone; [|by apply elem_of_map_to_list].
  unfold has_email in Hnone. cbn in Hnone. by rewrite String.eqb_refl in Hnone.
Qed.

Section Handlers.

Variable uuid : string -> bool.
Variable email_format : string -> bool.

(** X6. An account creation answered 201 returns the new row, whose
    balance is 0; its id and its email were not in use; every other account
    and the log are as before; [getUserBalance] of the new id then answers
    0; no unit of work was opened. *)
Theorem createUser_opens_empty_account env newId req s :
  quiet env ->
  replyStatus (fst (createUser email_format env newId req s)) = 201 ->
  let after := snd (createUser email_format env newId req s) in
  let row := User.mk (CreateUserBody.email req) (CreateUserBody.name req) 0 in
  fst (createUser email_format env newId req s) = mkReply 201 (PUser newId row)
  /\ users (durable s) !! newId = None
  /\ (forall id u, users (durable s) !! id = Some u ->
        User.email u <> CreateUserBody.email req)
  /\ users (durable after) = <[newId := row]> (users (durable s))
  /\ transactions (durable after) = transactions (durable s)
  /\ fst (getUserBalance newId after) = mkReply 200 (PBalance newId (Number 0))
  /\ trace after = trace s.
Proof.
  intros Hquiet. rewrite createUser_run. cbn zeta. calm Hquiet.
  destruct (createUserSchema email_format req); [|done].
  destruct (find _ _); [done|].
  destruct (bool_decide _) eqn:Hid; cbn [orb]; [done|].
  destruct (existsb _ _) eqn:Hfree; [done|]. intros _.
  apply bool_decide_eq_false in Hid. apply eq_None_not_Some in Hid.
  cbn [fst snd durable users transactions trace].
  repeat split; try done.
  - intros id u. by apply email_free.
  - rewrite getUserBalance_run. cbn. by rewrite lookup_insert_eq.
Qed.

(** X7. Creating an account with a valid body whose email some account
    already has is answered 409 User already exists, and the state is left
    as it was. *)
Theorem createUser_refuses_known_email env newId req s id u :
  createUserSchema email_format req = true ->
  users (durable s) !! id = Some u ->
  User.email u = CreateUserBody.email req ->
  createUser email_format env newId req s
  = (mkReply 409
       (PError "User already exists"
          (Some "A user with this email already exists")), s).
Proof.
  intros Hvalid Hu Hemail. rewrite createUser_run. cbn zeta. rewrite Hvalid.
  destruct (find _ _) eqn:Hfound; [done|].
  rewrite <- Hemail in Hfound. by destruct (email_taken _ _ _ Hu).
Qed.

(** X8. A deposit answered 201 while no other request commits:
    [getUserBalance] of the account goes from [before] to [before] plus the
    amount, rounded to the scale of the column, and answers the same as
    before for every other id; the log gains exactly the returned row, a
    COMPLETED DEPOSIT with the account as receiver and no sender, whose
    amount is the requested amount at the scale of the column, at least
    0.01; the requested amount is positive.  When the balance was not
    negative, it went up by exactly the amount of the record; when the
    requested amount is a whole number of cents, that is the requested
    amount. *)
Theorem deposit_credits_the_account env req s :
  quiet env ->
  statusCode (fst (deposit uuid env req s)) = 201 ->
  let userId := DepositBody.userId req in
  let amount := DepositBody.amount req in
  let after := snd (deposit uuid env req s) in
  exists before row,
    fst (getUserBalance userId s) = mkReply 200 (PBalance userId (Number before))
    /\ balance_of (durable s) userId = Some before
    /\ balance_of (durable after) userId
       = Some (to_scale_2 (cents before + amount)%Q)
    /\ fst (getUserBalance userId after)
       = mkReply 200
           (PBalance userId (Number (to_scale_2 (cents before + amount)%Q)))
    /\ (forall id, id <> userId ->
          fst (getUserBalance id after) = fst (getUserBalance id s))
    /\ fst (deposit uuid env req s) = mkResponse 201 (JTransaction row)
    /\ transactions (durable after) = transactions (durable s) ++ [row]
    /\ Transaction.type row = DEPOSIT
    /\ Transaction.status row = COMPLETED
    /\ Transaction.amount row = to_scale_2 amount
    /\ Transaction.senderId row = None
    /\ Transaction.receiverId row = Some userId
    /\ Transaction.idempotencyKey row = DepositBody.idempotencyKey req
    /\ (0 < amount)%Q
    /\ (1 <= Transaction.amount row)%Z
    /\ ((0 <= before)%Z ->
        balance_of (durable after) userId
        = Some (before + Transaction.amount row)%Z)
    /\ (whole_cents amount = true ->
        (cents (Transaction.amount row) == amount)%Q
        /\ balance_of (durable after) userId
           = Some (before + Transaction.amount row)%Z).
Proof.
  intros Hquiet. rewrite deposit_run. cbn zeta. calm Hquiet.
  destruct (depositSchema uuid req) eqn:Hvalid; [|done].
  destruct (find _ _); [done|].
  destruct (users _ !! _) as [user|] eqn:Huser; [|done].
  destruct (_ || _); [done|]. intros _.
  apply depositSchema_amount in Hvalid.
  assert (Hpositive := amount_ok_positive _ Hvalid).
  assert (Hstored := amount_ok_stored _ Hvalid).
  exists (User.balance user). eexists.
  rewrite !getUserBalance_run. unfold balance_of.
  cbn [fst snd durable users transactions].
  rewrite Huser, lookup_insert_eq.
  cbn [fmap option_fmap option_map credit User.balance Transaction.type
       Transaction.status Transaction.amount Transaction.senderId
       Transaction.receiverId Transaction.idempotencyKey].
  do 4 (split; [done|]). split.
  { intros id Hid. rewrite !getUserBalance_run. cbn.
    by rewrite lookup_insert_ne. }
  do 10 (split; [done|]). split.
  - intros Hbefore. by rewrite credit_stored.
  - intros Hwhole. rewrite (credit_exact _ _ Hwhole). split; [|done].
    apply whole_cents_exact in Hwhole. unfold Qeq, cents.
    cbn [Qnum Qden Transaction.amount]. lia.
Qed.

(** X9. A withdrawal answered 201, whatever other requests commit in the
    meantime.  The amount was positive and covered by the balance that was
    checked, the one in the store as the unit of work found it.  The
    decrement is applied to the balance [found] in the store as the other
    requests left it: [getUserBalance] of the account then answers [found]
    minus the amount, rounded to the scale of the column, and every other
    account is as the other requests left it; the log gains exactly the
    returned row, a COMPLETED WITHDRAWAL with the account as sender, no
    receiver and no failure reason, whose amount is the requested amount at
    the scale of the column.  When the amount is a whole number of cents the
    balance went from [found] to [found] minus exactly the amount.  When no
    other request commits, the balance found is the balance checked, the one
    [getUserBalance] answered before, and the new balance is not negative. *)
Theorem withdraw_debits_the_account env req s :
  statusCode (fst (withdraw uuid env req s)) = 201 ->
  let userId := WithdrawBody.userId req in
  let amount := WithdrawBody.amount req in
  let after := snd (withdraw uuid env req s) in
  let d := others_done env (durable s) in
  exists checked found row,
    balance_of (concurrent env (durable s)) userId = Some checked
    /\ (0 < amount)%Q
    /\ (amount <= cents checked)%Q
    /\ balance_of d userId = Some found
    /\ balance_of (durable after) userId
       = Some (to_scale_2 (cents found - amount)%Q)
    /\ fst (getUserBalance userId after)
       = mkReply 200
           (PBalance userId (Number (to_scale_2 (cents found - amount)%Q)))
    /\ (forall id, id <> userId ->
          users (durable after) !! id = users d !! id)
    /\ fst (withdraw uuid env req s) = mkResponse 201 (JTransaction row)
    /\ transactions (durable after) = transactions d ++ [row]
    /\ Transaction.type row = WITHDRAWAL
    /\ Transaction.status row = COMPLETED
    /\ Transaction.amount row = to_scale_2 amount
    /\ Transaction.senderId row = Some userId
    /\ Transaction.receiverId row = None
    /\ Transaction.failureReason row = None
    /\ (whole_cents amount = true ->
        (cents (Transaction.amount row) == amount)%Q
        /\ balance_of (durable after) userId
           = Some (found - Transaction.amount row)%Z)
    /\ (quiet env ->
        d = durable s
        /\ found = checked
        /\ fst (getUserBalance userId s)
           = mkReply 200 (PBalance userId (Number checked))
        /\ (0 <= to_scale_2 (cents found - amount)%Q)%Z).
Proof.
  rewrite withdraw_run. cbn zeta.
  destruct (withdrawSchema uuid req) eqn:Hvalid; [|done].
  destruct (find _ _); [done|].
  destruct (users (concurrent env _) !! _) as [checked|] eqn:Hchecked; [|done].
  destruct (Number_lt _ _) eqn:Hcovered; [done|].
  destruct (users (others_done env _) !! _) as [user|] eqn:Huser; [|done].
  destruct (_ || _); [done|].
  destruct (settlement env); [|done].
  destruct (fits_decimal _); [|done]. intros _.
  apply withdrawSchema_amount, amount_ok_positive in Hvalid.
  exists (User.balance checked), (User.balance user). eexists.
  rewrite getUserBalance_run. unfold balance_of, Qminus.
  cbn [fst snd durable users transactions].
  rewrite Hchecked, Huser, lookup_insert_eq.
  cbn [fmap option_fmap option_map credit User.balance Transaction.type
       Transaction.status Transaction.amount Transaction.senderId
       Transaction.receiverId Transaction.failureReason].
  split; [done|]. split; [done|].
  split; [by apply Number_lt_covered|].
  do 3 (split; [done|]). split.
  { intros id Hid. by rewrite lookup_insert_ne. }
  do 8 (split; [done|]). split.
  - intros Hwhole. rewrite (debit_exact _ _ Hwhole). split; [|done].
    apply whole_cents_exact in Hwhole. unfold Qeq, cents.
    cbn [Qnum Qden Transaction.amount]. lia.
  - intros Hquiet. rewrite getUserBalance_run.
    rewrite (quiet_others_done _ _ Hquiet) in Huser.
    rewrite (proj1 Hquiet) in Hchecked.
    rewrite (quiet_others_done _ _ Hquiet).
    assert (Hsame : user = checked) by congruence. subst user.
    rewrite Hchecked. cbn [fst].
    do 3 (split; [done|]). by apply debit_nonneg.
Qed.

(** X10. A valid withdrawal with a new key from an account that holds less
    than the amount is answered 400 Insufficient funds; the store is
    unchanged and the external system is not called. *)
Theorem withdraw_insufficient_funds env req s user :
  quiet env ->
  withdrawSchema uuid req = true ->
  find (has_key (WithdrawBody.idempotencyKey req)) (transactions (durable s))
    = None ->
  users (durable s) !! WithdrawBody.userId req = Some user ->
  (cents (User.balance user) < WithdrawBody.amount req)%Q ->
  fst (withdraw uuid env req s)
  = insufficient_funds "User does not have enough balance for this withdrawal"
  /\ durable (snd (withdraw uuid env req s)) = durable s
  /\ external_calls (events_of s (snd (withdraw uuid env req s))) = [].
Proof.
  intros Hquiet Hvalid Hnew Huser Hshort. rewrite withdraw_run. cbn zeta.
  apply Number_lt_short in Hshort.
  rewrite Hvalid, Hnew, (proj1 Hquiet), Huser, Hshort. cbn [fst snd].
  rewrite events_of_rolled_back. unfold rolled_back. cbn.
  by rewrite (proj1 Hquiet).
Qed.

(** X11. A request that reaches its account look-up and names an account
    that does not exist is answered 404 User not found and writes nothing:
    the deposit's account, either party of a transfer, the withdrawal's
    account.  [getUserBalance] and [getTransactions] of an unknown id
    answer 404 as well. *)
Theorem unknown_account_is_404 env s :
  quiet env ->
  (forall req,
     depositSchema uuid req = true ->
     find (has_key (DepositBody.idempotencyKey req)) (transactions (durable s))
       = None ->
     users (durable s) !! DepositBody.userId req = None ->
     fst (deposit uuid env req s) = user_not_found
     /\ durable (snd (deposit uuid env req s)) = durable s)
  /\ (forall req,
     transferSchema uuid req = true ->
     TransferBody.senderId req <> TransferBody.receiverId req ->
     find (has_key (TransferBody.idempotencyKey req)) (transactions (durable s))
       = None ->
     users (durable s) !! TransferBody.senderId req = None
     \/ users (durable s) !! TransferBody.receiverId req = None ->
     fst (transfer uuid env req s) = user_not_found
     /\ durable (snd (transfer uuid env req s)) = durable s)
  /\ (forall req,
     withdrawSchema uuid req = true ->
     find (has_key (WithdrawBody.idempotencyKey req)) (transactions (durable s))
       = None ->
     users (durable s) !! WithdrawBody.userId req = None ->
     fst (withdraw uuid env req s) = user_not_found
     /\ durable (snd (withdraw uuid env req s)) = durable s)
  /\ (forall id,
     users (durable s) !! id = None ->
     replyStatus (fst (getUserBalance id s)) = 404
     /\ replyStatus (fst (getTransactions id s)) = 404).
Proof.
  intros Hquiet. split; [|split; [|split]].
  - intros req Hvalid Hnew Hmissing. rewrite deposit_run. cbn zeta.
    rewrite Hvalid, Hnew, (proj1 Hquiet), Hmissing.
    unfold rolled_back. cbn. by rewrite (proj1 Hquiet).
  - intros req Hvalid Hids%String.eqb_neq Hnew Hmissing.
    rewrite transfer_run. cbn zeta. rewrite Hvalid, Hids, Hnew, (proj1 Hquiet).
    unfold rolled_back.
    destruct Hmissing as [-> | ->]; [|destruct (users _ !! _)];
      cbn; by rewrite (proj1 Hquiet).
  - intros req Hvalid Hnew Hmissing. rewrite withdraw_run. cbn zeta.
    rewrite Hvalid, Hnew, (proj1 Hquiet), Hmissing.
    unfold rolled_back. cbn. by rewrite (proj1 Hquiet).
  - intros id Hmissing. rewrite getUserBalance_run, getTransactions_run.
    cbn. by rewrite Hmissing.
Qed.

End Handlers.

Lemma too_large (amount : Z) :
  (DECIMAL_15_2_max < amount)%Z -> fits_decimal amount = false.
Proof.
  intros Hlarge. unfold fits_decimal.
  rewrite (proj2 (Z.leb_gt amount DECIMAL_15_2_max)) by done.
  apply andb_false_r.
Qed.



Section MoreHandlers.

Variable uuid : string -> bool.
Variable email_format : string -> bool.

(** X12. A body that fails its schema is answered 400 Invalid input and
    the state is left as it was, before anything is looked up: an amount
    below 0.01 (zero and negative amounts included), an empty idempotency
    key or an id that is not a uuid for the three money handlers; an empty
    name or a malformed email for [createUser]. *)
Theorem invalid_body_is_rejected env s :
  (forall req,
     (DepositBody.amount req < 0.01)%Q
     \/ DepositBody.idempotencyKey req = EmptyString
     \/ uuid (DepositBody.userId req) = false ->
     deposit uuid env req s = (invalid_input, s))
  /\ (forall req,
     (TransferBody.amount req < 0.01)%Q
     \/ TransferBody.idempotencyKey req = EmptyString
     \/ uuid (TransferBody.senderId req) = false
     \/ uuid (TransferBody.receiverId req) = false ->
     transfer uuid env req s = (invalid_input, s))
  /\ (forall req,
     (WithdrawBody.amount req < 0.01)%Q
     \/ WithdrawBody.idempotencyKey req = EmptyString
     \/ uuid (WithdrawBody.userId req) = false ->
     withdraw uuid env req s = (invalid_input, s))
  /\ (forall newId req,
     CreateUserBody.name req = EmptyString
     \/ email_format (CreateUserBody.email req) = false ->
     createUser email_format env newId req s = (mkReply 400 PInvalidInput, s)).
Proof.
  split; [|split; [|split]].
  - intros req Hbad. rewrite deposit_run. cbn zeta.
    replace (depositSchema uuid req) with false; [done|].
    unfold depositSchema.
    destruct Hbad as [Hamount%amount_not_ok|[Hkey|Hid]];
      rewrite ?Hamount, ?Hkey, ?Hid; cbn;
      by rewrite ?andb_false_r.
  - intros req Hbad. rewrite transfer_run. cbn zeta.
    replace (transferSchema uuid req) with false; [done|].
    unfold transferSchema.
    destruct Hbad as [Hamount%amount_not_ok|[Hkey|[Hid|Hid]]];
      rewrite ?Hamount, ?Hkey, ?Hid; cbn;
      by rewrite ?andb_false_r.
  - intros req Hbad. rewrite withdraw_run. cbn zeta.
    replace (withdrawSchema uuid req) with false; [done|].
    unfold withdrawSchema.
    destruct Hbad as [Hamount%amount_not_ok|[Hkey|Hid]];
      rewrite ?Hamount, ?Hkey, ?Hid; cbn;
      by rewrite ?andb_false_r.
  - intros newId req Hbad. rewrite createUser_run. cbn zeta.
    replace (createUserSchema email_format req) with false; [done|].
    unfold createUserSchema.
    destruct Hbad as [Hname|Hemail]; rewrite ?Hname, ?Hemail; cbn;
      by rewrite ?andb_false_r.
Qed.

(** X13. Only a 201 moves money.  A deposit or a transfer answered with
    any other status leaves the store unchanged; a withdrawal answered with
    any other status (a declined one included, which does record its FAILED
    row) leaves every account unchanged. *)
Theorem only_a_201_moves_money env s :
  quiet env ->
  (forall req, statusCode (fst (deposit uuid env req s)) <> 201 ->
     durable (snd (deposit uuid env req s)) = durable s)
  /\ (forall req, statusCode (fst (transfer uuid env req s)) <> 201 ->
     durable (snd (transfer uuid env req s)) = durable s)
  /\ (forall req, statusCode (fst (withdraw uuid env req s)) <> 201 ->
     users (durable (snd (withdraw uuid env req s))) = users (durable s)).
Proof.
  intros Hquiet. split; [|split]; intros req.
  - rewrite deposit_run. cbn zeta. calm Hquiet.
    repeat case_match; cbn; done.
  - rewrite transfer_run. cbn zeta. calm Hquiet.
    repeat case_match; cbn; done.
  - rewrite withdraw_run. cbn zeta. calm Hquiet.
    repeat case_match; cbn; done.
Qed.

(** X14. Bounds.  A deposit that would take the balance above
    9999999999999.99 is answered 500 and changes nothing.  A transfer whose
    credit would take the receiver above that bound is answered 500 and
    changes nothing either: the sender's debit, made first in the same unit
    of work, is rolled back with it. *)
Theorem overflow_is_rolled_back env s :
  quiet env ->
  (forall req user,
     depositSchema uuid req = true ->
     find (has_key (DepositBody.idempotencyKey req)) (transactions (durable s))
       = None ->
     users (durable s) !! DepositBody.userId req = Some user ->
     (DECIMAL_15_2_max
      < to_scale_2 (cents (User.balance user) + DepositBody.amount req)%Q)%Z ->
     fst (deposit uuid env req s) = internal_server_error
     /\ durable (snd (deposit uuid env req s)) = durable s)
  /\ (forall req sender receiver,
     transferSchema uuid req = true ->
     TransferBody.senderId req <> TransferBody.receiverId req ->
     find (has_key (TransferBody.idempotencyKey req)) (transactions (durable s))
       = None ->
     users (durable s) !! TransferBody.senderId req = Some sender ->
     users (durable s) !! TransferBody.receiverId req = Some receiver ->
     (TransferBody.amount req <= cents (User.balance sender))%Q ->
     (DECIMAL_15_2_max
      < to_scale_2 (cents (User.balance receiver) + TransferBody.amount req)%Q)%Z ->
     fst (transfer uuid env req s) = internal_server_error
     /\ durable (snd (transfer uuid env req s)) = durable s).
Proof.
  intros Hquiet. split.
  - intros req user Hvalid Hnew Huser Hlarge%too_large.
    rewrite deposit_run. cbn zeta. calm Hquiet.
    rewrite Hvalid, Hnew, Huser, Hlarge. cbn [negb].
    by rewrite !orb_true_r.
  - intros req sender receiver Hvalid Hids%String.eqb_neq Hnew Hsender
      Hreceiver Hcovered%Number_lt_covered Hlarge%too_large.
    rewrite transfer_run. cbn zeta. calm Hquiet.
    rewrite Hvalid, Hids, Hnew, Hsender, Hreceiver, Hcovered, Hlarge.
    cbn [negb]. by rewrite !orb_true_r, ?orb_true_l.
Qed.


End MoreHandlers.

(** * Histories and the dashboard *)

Lemma included_rows d rows :
  map Included.row (map (include_parties d) rows) = rows.
Proof. rewrite map_map. cbn. apply map_id. Qed.

Lemma history_rows_run user_id s :
  history_rows (fst (getTransactions user_id s))
  = match users (durable s) !! user_id with
    | Some _ =>
        newest_first (List.filter (involves user_id) (transactions (durable s)))
    | None => []
    end.
Proof.
  rewrite getTransactions_run. cbn [fst].
  destruct (users _ !! _); [|done]. apply included_rows.
Qed.

Lemma figures_run s : figures_of (fst (getAdminStats s)) = Some (figures (durable s)).
Proof. by rewrite getAdminStats_run. Qed.

Lemma ids_ascending (log : list Transaction.t) k :
  (forall i row, log !! i = Some row -> Transaction.id row = k + i) ->
  StronglySorted (fun x y => newer y x) log.
Proof.
  revert k. induction log as [|x log IH]; intros k Hids; constructor.
  - apply (IH (S k)). intros i row Hrow.
    rewrite (Hids (S i) row Hrow). lia.
  - apply Forall_forall. intros y [i Hy]%list_elem_of_lookup.
    unfold newer. rewrite (Hids 0 x eq_refl), (Hids (S i) y Hy). lia.
Qed.

Lemma sorted_filter {A} (R : relation A) (f : A -> bool) l :
  StronglySorted R l -> StronglySorted R (List.filter f l).
Proof.
  induction 1 as [|x l _ IH Hx]; cbn; [constructor|].
  destruct (f x); [|done]. constructor; [done|].
  apply Forall_forall. intros y Hy%list_elem_of_In%filter_In.
  rewrite Forall_forall in Hx. apply Hx, list_elem_of_In, Hy.
Qed.

Lemma sorted_rev {A} (R : relation A) l :
  StronglySorted R l -> StronglySorted (fun x y => R y x) (rev l).
Proof.
  induction 1 as [|x l _ IH Hx]; cbn; [constructor|].
  apply StronglySorted_app_2; [|done|repeat constructor].
  intros y z Hy%list_elem_of_In%in_rev Hz%list_elem_of_singleton. subst z.
  rewrite Forall_forall in Hx. apply Hx, list_elem_of_In, Hy.
Qed.

Lemma count_snoc {A} (f : A -> bool) l x :
  length (List.filter f (l ++ [x]))
  = length (List.filter f l) + (if f x then 1 else 0).
Proof. rewrite List.filter_app, length_app. cbn. by destruct (f x). Qed.

Lemma unreferenced_not_involved (accounts : gmap string User.t) log id :
  Forall (well_formed_row accounts) log -> accounts !! id = None ->
  List.filter (involves id) log = [].
Proof.
  intros Hlog Hnew. induction Hlog as [|row log [_ Hshape] _ IH]; [done|].
  cbn. rewrite IH.
  assert (Hnot : forall ref, is_Some (accounts !! ref) -> Some ref <> Some id).
  { intros ref [u Hu] [= ->]. congruence. }
  unfold involves.
  destruct (Transaction.type row).
  - destruct Hshape as (-> & (r & -> & ?) & _).
    rewrite !bool_decide_eq_false_2; [done|by apply Hnot|done].
  - destruct Hshape as ((a & b & -> & -> & _ & ? & ?) & _).
    rewrite !bool_decide_eq_false_2; [done|by apply Hnot|by apply Hnot].
  - destruct Hshape as ((a & -> & ?) & -> & _).
    rewrite !bool_decide_eq_false_2; [done|done|by apply Hnot].
Qed.

(** X15. On a well-formed store, [getTransactions] of an existing account
    answers 200 without changing the state; the rows are exactly the
    recorded rows that have the account as sender or receiver, newest
    first, and each comes with the id, name and email of every party it
    names (an included party is never null for a named one). *)
Theorem history_is_complete_and_ordered user_id s account :
  well_formed (durable s) ->
  users (durable s) !! user_id = Some account ->
  let reply := fst (getTransactions user_id s) in
  replyStatus reply = 200
  /\ snd (getTransactions user_id s) = s
  /\ (forall row,
        row ∈ history_rows reply
        <-> row ∈ transactions (durable s)
            /\ (Transaction.senderId row = Some user_id
                \/ Transaction.receiverId row = Some user_id))
  /\ StronglySorted newer (history_rows reply)
  /\ (forall entries, payload reply = PTransactions entries ->
        Forall (fun e =>
          (forall id, Transaction.senderId (Included.row e) = Some id ->
             exists u, users (durable s) !! id = Some u
                       /\ Included.sender e
                          = Some (Party.mk id (User.name u) (User.email u)))
          /\ (forall id, Transaction.receiverId (Included.row e) = Some id ->
             exists u, users (durable s) !! id = Some u
                       /\ Included.receiver e
                          = Some (Party.mk id (User.name u) (User.email u))))
          entries).
Proof.
  intros (_ & Hids & Hrows & _) Haccount reply. unfold reply.
  rewrite history_rows_run, getTransactions_run, Haccount. cbn [fst snd].
  split; [done|]. split; [done|]. split; [|split].
  - intros row. unfold newest_first.
    rewrite list_elem_of_In, <- in_rev, filter_In, <- list_elem_of_In.
    unfold involves. rewrite orb_true_iff, !bool_decide_eq_true. done.
  - unfold newest_first.
    apply (sorted_rev (fun x y => newer y x)), sorted_filter.
    by apply (ids_ascending _ 0).
  - intros entries [= <-]. apply Forall_forall.
    intros e (row & <- & Hrow)%list_elem_of_In%in_map_iff.
    unfold newest_first in Hrow.
    apply in_rev, filter_In in Hrow as [Hrow%list_elem_of_In _].
    rewrite Forall_forall in Hrows. destruct (Hrows row Hrow) as [_ Hshape].
    cbn. unfold party.
    destruct (Transaction.type row).
    + destruct Hshape as (-> & (r & -> & [u Hu]) & _).
      split; [done|]. intros id [= <-]. rewrite Hu. eauto.
    + destruct Hshape as ((a & b & -> & -> & _ & [u Hu] & [v Hv]) & _).
      split; intros id [= <-]; [rewrite Hu|rewrite Hv]; eauto.
    + destruct Hshape as ((a & -> & [u Hu]) & -> & _).
      split; [|done]. intros id [= <-]. rewrite Hu. eauto.
Qed.

Section Views.

Variable uuid : string -> bool.
Variable email_format : string -> bool.

(** X16. After a transfer answered 201 with [row], the history of the
    sender and the history of the receiver are what they were with [row]
    put in front, and the history of every other id is unchanged. *)
Theorem transfer_shows_in_both_histories env req s row :
  quiet env ->
  fst (transfer uuid env req s) = mkResponse 201 (JTransaction row) ->
  let after := snd (transfer uuid env req s) in
  let senderId := TransferBody.senderId req in
  let receiverId := TransferBody.receiverId req in
  history_rows (fst (getTransactions senderId after))
  = row :: history_rows (fst (getTransactions senderId s))
  /\ history_rows (fst (getTransactions receiverId after))
     = row :: history_rows (fst (getTransactions receiverId s))
  /\ (forall id, id <> senderId -> id <> receiverId ->
        history_rows (fst (getTransactions id after))
        = history_rows (fst (getTransactions id s))).
Proof.
  intros Hquiet. rewrite transfer_run. cbn zeta. calm Hquiet.
  destruct (transferSchema uuid req); [|done].
  destruct (String.eqb _ _) eqn:Hids; [done|]. apply String.eqb_neq in Hids.
  destruct (find _ _); [done|].
  destruct (users _ !! TransferBody.senderId req) as [sender|] eqn:Hsender;
    [|done].
  destruct (users _ !! TransferBody.receiverId req) as [receiver|] eqn:Hreceiver;
    [|done].
  destruct (Number_lt _ _); [done|].
  destruct (_ || _); [done|]. intros [= <-].
  rewrite !history_rows_run. cbn [snd durable users transactions].
  unfold newest_first.
  rewrite lookup_insert_ne, lookup_insert_eq, Hsender by done.
  rewrite lookup_insert_eq, Hreceiver.
  rewrite !List.filter_app, !rev_app_distr. unfold involves. cbn.
  rewrite !bool_decide_eq_true_2 by done. cbn.
  split; [done|]. split.
  { rewrite (bool_decide_eq_true_2 (Some (TransferBody.receiverId req) = _))
      by done.
    by rewrite orb_true_r. }
  intros id Hs Hr. rewrite !history_rows_run.
  cbn [snd durable users transactions].
  rewrite !lookup_insert_ne by done.
  destruct (users _ !! id); [|done]. unfold newest_first.
  rewrite List.filter_app, rev_app_distr. unfold involves. cbn.
  by rewrite !bool_decide_eq_false_2 by congruence.
Qed.

(** X17. On a well-formed store, a newly created account has an empty
    history: [getTransactions] of its id answered 404 before and answers
    200 with no row after, and the log moves nothing to or from it. *)
Theorem new_account_has_no_history env newId req s :
  well_formed (durable s) ->
  quiet env ->
  replyStatus (fst (createUser email_format env newId req s)) = 201 ->
  let after := snd (createUser email_format env newId req s) in
  fst (getTransactions newId s) = mkReply 404 (PError "User not found" None)
  /\ fst (getTransactions newId after) = mkReply 200 (PTransactions [])
  /\ ledger_balance (transactions (durable after)) newId = 0%Z.
Proof.
  intros (_ & _ & Hrows & _) Hquiet. rewrite createUser_run. cbn zeta.
  calm Hquiet.
  destruct (createUserSchema email_format req); [|done].
  destruct (find _ _); [done|].
  destruct (bool_decide _) eqn:Hid; cbn [orb]; [done|].
  destruct (existsb _ _); [done|]. intros _.
  apply bool_decide_eq_false in Hid. apply eq_None_not_Some in Hid.
  rewrite !getTransactions_run. cbn [fst snd durable users transactions].
  rewrite Hid, lookup_insert_eq.
  rewrite (unreferenced_not_involved _ _ _ Hrows Hid).
  split; [done|]. split; [done|].
  by eapply unreferenced_no_movement.
Qed.

End Views.

(** X19. The dashboard always answers 200 and leaves the state as it was;
    its [recentTransactions] are the last 50 rows of the log, newest first
    (all of them when the log has fewer), and [totalUsers] is the number of
    accounts. *)
Theorem recent_transactions_are_the_last_fifty s :
  exists stats,
    getAdminStats s = (mkReply 200 (PStats stats), s)
    /\ map Included.row (AdminStats.recentTransactions stats)
       = rev (drop (length (transactions (durable s)) - 50)
                (transactions (durable s)))
    /\ length (AdminStats.recentTransactions stats)
       = Nat.min 50 (length (transactions (durable s)))
    /\ AdminStats.totalUsers stats = size (users (durable s)).
Proof.
  rewrite getAdminStats_run. eexists. split; [reflexivity|]. cbn.
  unfold newest_first. split; [|split; [|done]].
  - rewrite included_rows. apply firstn_rev.
  - rewrite length_map, length_take, length_rev. done.
Qed.

Section Dashboard.

Variable uuid : string -> bool.
Variable email_format : string -> bool.

Ltac count_figures :=
  unfold figures; cbn [users transactions];
  rewrite ?count_snoc; cbn [completed_of Transaction.status Transaction.type];
  rewrite ?Nat.add_0_r, ?Nat.add_1_r.

(** X18. The dashboard follows the requests, served while no other
    request commits.  From the figures before (accounts, total value,
    completed transfers, withdrawals, deposits), where the total value is
    the double nearest to the sum of the balances: a 201 deposit of a whole
    number of cents adds its amount to the sum and one to the deposits; a
    201 transfer of a whole number of cents adds one to the transfers and
    leaves the sum; a 201 withdrawal of a whole number of cents takes its
    amount from the sum and adds one to the withdrawals; a withdrawal
    answered otherwise, a declined one included, changes no figure; a 201
    account creation adds one account. *)
Theorem dashboard_follows_the_requests env s :
  quiet env ->
  exists accounts value transfers withdrawals deposits,
    figures_of (fst (getAdminStats s))
    = Some (accounts, Number value, transfers, withdrawals, deposits)
    /\ value = total_balance (users (durable s))
    /\ (forall req,
          statusCode (fst (deposit uuid env req s)) = 201 ->
          whole_cents (DepositBody.amount req) = true ->
          figures_of (fst (getAdminStats (snd (deposit uuid env req s))))
          = Some (accounts,
                  Number (value + to_scale_2 (DepositBody.amount req)),
                  transfers, withdrawals, S deposits))
    /\ (forall req,
          statusCode (fst (transfer uuid env req s)) = 201 ->
          whole_cents (TransferBody.amount req) = true ->
          figures_of (fst (getAdminStats (snd (transfer uuid env req s))))
          = Some (accounts, Number value, S transfers, withdrawals, deposits))
    /\ (forall req,
          statusCode (fst (withdraw uuid env req s)) = 201 ->
          whole_cents (WithdrawBody.amount req) = true ->
          figures_of (fst (getAdminStats (snd (withdraw uuid env req s))))
          = Some (accounts,
                  Number (value - to_scale_2 (WithdrawBody.amount req)),
                  transfers, S withdrawals, deposits))
    /\ (forall req,
          statusCode (fst (withdraw uuid env req s)) <> 201 ->
          figures_of (fst (getAdminStats (snd (withdraw uuid env req s))))
          = Some (accounts, Number value, transfers, withdrawals, deposits))
    /\ (forall newId req,
          replyStatus (fst (createUser email_format env newId req s)) = 201 ->
          figures_of
            (fst (getAdminStats (snd (createUser email_format env newId req s))))
          = Some (S accounts, Number value, transfers, withdrawals, deposits)).
Proof.
  intros Hquiet. do 5 eexists. rewrite figures_run.
  split; [reflexivity|]. split; [reflexivity|]. repeat split.
  - intros req. rewrite figures_run, deposit_run. cbn zeta. calm Hquiet.
    destruct (depositSchema uuid req); [|done].
    destruct (find _ _); [done|].
    destruct (users _ !! _) as [user|] eqn:Huser; [|done].
    destruct (_ || _); [done|]. intros _ Hwhole. cbn [snd durable].
    count_figures.
    rewrite map_size_insert_Some by done.
    rewrite (total_balance_insert _ _ user) by done.
    unfold credit. cbn [User.balance]. rewrite (credit_exact _ _ Hwhole).
    do 4 f_equal. f_equal. f_equal. lia.
  - intros req. rewrite figures_run, transfer_run. cbn zeta. calm Hquiet.
    destruct (transferSchema uuid req); [|done].
    destruct (String.eqb _ _) eqn:Hids; [done|]. apply String.eqb_neq in Hids.
    destruct (find _ _); [done|].
    destruct (users _ !! TransferBody.senderId req) as [sender|] eqn:Hsender;
      [|done].
    destruct (users _ !! TransferBody.receiverId req) as [receiver|]
      eqn:Hreceiver; [|done].
    destruct (Number_lt _ _); [done|].
    destruct (_ || _); [done|]. intros _ Hwhole. cbn [snd durable].
    count_figures.
    rewrite !map_size_insert_Some by (by rewrite ?lookup_insert_ne).
    rewrite (total_balance_insert _ _ receiver) by (by rewrite lookup_insert_ne).
    rewrite (total_balance_insert _ _ sender) by done.
    unfold credit. cbn [User.balance].
    rewrite (credit_exact _ _ Hwhole), (debit_exact _ _ Hwhole).
    do 4 f_equal. f_equal. f_equal. lia.
  - intros req. rewrite figures_run, withdraw_run. cbn zeta. calm Hquiet.
    destruct (withdrawSchema uuid req); [|done].
    destruct (find _ _); [done|].
    destruct (users _ !! _) as [user|] eqn:Huser; [|done].
    destruct (Number_lt _ _); [done|].
    destruct (_ || _); [done|].
    destruct (settlement env); [|done].
    destruct (fits_decimal _); [|done]. intros _ Hwhole. cbn [snd durable].
    count_figures.
    rewrite map_size_insert_Some by done.
    rewrite (total_balance_insert _ _ user) by done.
    unfold credit. cbn [User.balance]. rewrite (debit_exact _ _ Hwhole).
    do 4 f_equal. f_equal. f_equal. lia.
  - intros req. rewrite figures_run, withdraw_run. cbn zeta. calm Hquiet.
    repeat case_match; cbn [fst snd statusCode durable]; try done.
    intros _. count_figures. done.
  - intros newId req. rewrite figures_run, createUser_run. cbn zeta.
    calm Hquiet.
    destruct (createUserSchema email_format req); [|done].
    destruct (find _ _); [done|].
    destruct (bool_decide _) eqn:Hid; cbn [orb]; [done|].
    destruct (existsb _ _); [done|]. intros _.
    apply bool_decide_eq_false in Hid. apply eq_None_not_Some in Hid.
    cbn [snd durable]. count_figures.
    rewrite map_size_insert_None by done.
    rewrite total_balance_insert_new by done. cbn.
    do 5 f_equal.
Qed.

End Dashboard.

Section Effects.

Variable uuid : string -> bool.
Variable email_format : string -> bool.

(** X21. When the email look-up of [createUser] finds nothing but, by the
    time of the insert, another request has taken the email or the id, the
    insert is refused by the store: the answer is 500 Internal server
    error and nothing of this request is written. *)
Theorem createUser_race_is_a_500 env newId req s :
  createUserSchema email_format req = true ->
  find (has_email (CreateUserBody.email req)) (map_to_list (users (durable s)))
    = None ->
  let d := concurrent env (durable s) in
  is_Some (users d !! newId)
  \/ (exists id u, users d !! id = Some u
                   /\ User.email u = CreateUserBody.email req) ->
  fst (createUser email_format env newId req s) = server_error
  /\ durable (snd (createUser email_format env newId req s)) = d.
Proof.
  intros Hvalid Hnew d Htaken. rewrite createUser_run. cbn zeta. fold d.
  rewrite Hvalid, Hnew.
  replace (bool_decide (is_Some (users d !! newId))
           || existsb (has_email (CreateUserBody.email req))
                (map_to_list (users d))) with true; [done|].
  symmetry. apply orb_true_iff.
  destruct Htaken as [Hid|(id & u & Hu & Hemail)].
  - left. by apply bool_decide_eq_true.
  - right. apply existsb_exists. exists (id, u). split.
    + by apply list_elem_of_In, elem_of_map_to_list.
    + unfold has_email. cbn. rewrite Hemail. apply String.eqb_refl.
Qed.

(** X22. A deposit and a transfer never call the external system; a
    withdrawal calls it at most once.  Each of the three opens at most one
    unit of work and closes every unit of work it opens, by a commit or a
    rollback, before it answers; it leaves no transaction open. *)
Theorem units_of_work_are_closed env s :
  (forall req,
     let events := events_of s (snd (deposit uuid env req s)) in
     external_calls events = []
     /\ units_of_work events <= 1
     /\ units_closed events = units_of_work events)
  /\ (forall req,
     let events := events_of s (snd (transfer uuid env req s)) in
     external_calls events = []
     /\ units_of_work events <= 1
     /\ units_closed events = units_of_work events)
  /\ (forall req,
     let events := events_of s (snd (withdraw uuid env req s)) in
     length (external_calls events) <= 1
     /\ units_of_work events <= 1
     /\ units_closed events = units_of_work events)
  /\ (forall req, tx (snd (deposit uuid env req s)) = tx s
                  \/ tx (snd (deposit uuid env req s)) = None)
  /\ (forall req, tx (snd (transfer uuid env req s)) = tx s
                  \/ tx (snd (transfer uuid env req s)) = None)
  /\ (forall req, tx (snd (withdraw uuid env req s)) = tx s
                  \/ tx (snd (withdraw uuid env req s)) = None).
Proof.
  repeat split.
  - rewrite deposit_run. cbn zeta. unfold rolled_back_late, rolled_back.
    repeat case_match; cbn [snd]; rewrite ?events_of_same, ?events_of_app; done.
  - rewrite deposit_run. cbn zeta. unfold rolled_back_late, rolled_back.
    repeat case_match; cbn [snd]; rewrite ?events_of_same, ?events_of_app;
      cbn; lia.
  - rewrite deposit_run. cbn zeta. unfold rolled_back_late, rolled_back.
    repeat case_match; cbn [snd]; rewrite ?events_of_same, ?events_of_app; done.
  - rewrite transfer_run. cbn zeta. unfold rolled_back_late, rolled_back.
    repeat case_match; cbn [snd]; rewrite ?events_of_same, ?events_of_app; done.
  - rewrite transfer_run. cbn zeta. unfold rolled_back_late, rolled_back.
    repeat case_match; cbn [snd]; rewrite ?events_of_same, ?events_of_app;
      cbn; lia.
  - rewrite transfer_run. cbn zeta. unfold rolled_back_late, rolled_back.
    repeat case_match; cbn [snd]; rewrite ?events_of_same, ?events_of_app; done.
  - rewrite withdraw_run. cbn zeta. unfold rolled_back_late, rolled_back.
    repeat case_match; cbn [snd]; rewrite ?events_of_same, ?events_of_app;
      cbn; lia.
  - rewrite withdraw_run. cbn zeta. unfold rolled_back_late, rolled_back.
    repeat case_match; cbn [snd]; rewrite ?events_of_same, ?events_of_app;
      cbn; lia.
  - rewrite withdraw_run. cbn zeta. unfold rolled_back_late, rolled_back.
    repeat case_match; cbn [snd]; rewrite ?events_of_same, ?events_of_app; done.
  - intros req. rewrite deposit_run. cbn zeta. unfold rolled_back_late, rolled_back.
    repeat case_match; cbn; auto.
  - intros req. rewrite transfer_run. cbn zeta. unfold rolled_back_late, rolled_back.
    repeat case_match; cbn; auto.
  - intros req. rewrite withdraw_run. cbn zeta. unfold rolled_back_late, rolled_back.
    repeat case_match; cbn; auto.
Qed.

End Effects.

(** * The properties on sample data *)

Lemma empty_db_well_formed : well_formed empty_db.
Proof.
  repeat split; cbn.
  - constructor.
  - intros i row Hrow. by rewrite lookup_nil in Hrow.
  - constructor.
  - intros i j u v Hu. by rewrite lookup_empty in Hu.
Defined.

Lemma empty_db_reconciled : reconciled empty_db.
Proof. apply map_Forall_empty. Defined.

Lemma opening_requests_quiet : Forall quiet_request opening_requests.
Proof. repeat constructor. Defined.

Lemma later_requests_quiet : Forall quiet_request later_requests.
Proof. repeat constructor. Defined.

Lemma sample_requests_quiet : Forall quiet_request sample_requests.
Proof. repeat constructor. Defined.

Lemma sample_requests_whole_cents : Forall whole_cents_request sample_requests.
Proof. repeat constructor. Defined.

(** Scenarios 1 and 2 through the API. *)
Example opening_gives_sample_db :
  durable (serve uuid_shape email_shape opening_requests empty_state) = sample_db.
Proof. vm_compute. reflexivity. Defined.

Lemma sample_db_well_formed : well_formed (durable sample_state).
Proof.
  change (durable sample_state) with sample_db.
  rewrite <- opening_gives_sample_db.
  apply (serve_keeps uuid_shape email_shape false);
    [apply step_well_formed | apply opening_requests_quiet | discriminate
    | apply empty_db_well_formed].
Defined.

Lemma store_stays_well_formed_witness :
  well_formed (durable after_sample_requests).
Proof.
  apply (store_stays_well_formed uuid_shape email_shape sample_requests
           empty_state).
  - apply empty_db_well_formed.
  - apply sample_requests_quiet.
Defined.

Lemma balances_stay_reconciled_witness :
  reconciled (durable after_sample_requests).
Proof.
  apply (balances_stay_reconciled uuid_shape email_shape sample_requests
           empty_state).
  - apply empty_db_well_formed.
  - apply empty_db_reconciled.
  - apply sample_requests_quiet.
  - apply sample_requests_whole_cents.
Defined.

Lemma dashboard_total_is_conserved_witness :
  total_balance (users (durable after_sample_requests)) = 100000%Z
  /\ exists stats,
       fst (getAdminStats after_sample_requests) = mkReply 200 (PStats stats)
       /\ AdminStats.totalValueInWallets stats = Number 100000
       /\ toFixed_2 (AdminStats.totalValueInWallets stats) = 100000%Z.
Proof.
  destruct (dashboard_total_is_conserved uuid_shape email_shape sample_requests
              empty_state)
    as (Hsum & stats & Hreply & Htotal & Hshown).
  - vm_compute. reflexivity.
  - apply sample_requests_quiet.
  - apply sample_requests_whole_cents.
  - assert (Hvalue :
      (completed_amount DEPOSIT
         (transactions
            (durable (serve uuid_shape email_shape sample_requests empty_state)))
       - completed_amount WITHDRAWAL
           (transactions
              (durable (serve uuid_shape email_shape sample_requests
                          empty_state))))%Z = 100000%Z)
      by (vm_compute; reflexivity).
    rewrite Hvalue in Hsum, Htotal, Hshown.
    split; [exact Hsum|]. exists stats.
    split; [exact Hreply|]. split; [exact Htotal|].
    apply Hshown. vm_compute. reflexivity.
Defined.

Lemma log_is_append_only_witness :
  exists added,
    transactions (durable (serve uuid_shape email_shape later_requests sample_state))
    = transactions (durable sample_state) ++ added
    /\ length added <= length later_requests.
Proof.
  apply (log_is_append_only uuid_shape email_shape later_requests sample_state).
  apply later_requests_quiet.
Defined.

Lemma accounts_persist_witness :
  exists u',
    users (durable (serve uuid_shape email_shape later_requests sample_state))
      !! U1 = Some u'
    /\ User.email u' = "u1@example.com" /\ User.name u' = "U1".
Proof.
  apply (accounts_persist uuid_shape email_shape later_requests sample_state U1
           (User.mk "u1@example.com" "U1" 70000)).
  - apply later_requests_quiet.
  - vm_compute. reflexivity.
Defined.

Lemma createUser_opens_empty_account_witness :
  fst (createUser email_shape (sequential true) U3 u3_body sample_state)
  = mkReply 201 (PUser U3 (User.mk "u3@example.com" "U3" 0))
  /\ users (durable sample_state) !! U3 = None
  /\ fst (getUserBalance U3
            (snd (createUser email_shape (sequential true) U3 u3_body
                    sample_state)))
     = mkReply 200 (PBalance U3 (Number 0)).
Proof.
  destruct (createUser_opens_empty_account email_shape (sequential true) U3
              u3_body sample_state)
    as (Hreply & Hnew & _ & _ & _ & Hbalance & _).
  - apply sequential_quiet.
  - vm_compute. reflexivity.
  - split; [exact Hreply|]. split; [exact Hnew | exact Hbalance].
Defined.

Lemma createUser_refuses_known_email_witness :
  createUser email_shape (sequential true) U3 u1_again_body sample_state
  = (mkReply 409
       (PError "User already exists"
          (Some "A user with this email already exists")), sample_state).
Proof.
  apply (createUser_refuses_known_email email_shape (sequential true) U3
           u1_again_body sample_state U1 (User.mk "u1@example.com" "U1" 70000)).
  - vm_compute. reflexivity.
  - vm_compute. reflexivity.
  - reflexivity.
Defined.

Lemma deposit_credits_the_account_witness :
  exists before row,
    balance_of (durable sample_state) U2 = Some before
    /\ fst k6_first = mkResponse 201 (JTransaction row)
    /\ transactions (durable (snd k6_first))
       = transactions (durable sample_state) ++ [row]
    /\ (cents (Transaction.amount row) == 50)%Q
    /\ balance_of (durable (snd k6_first)) U2
       = Some (before + Transaction.amount row)%Z.
Proof.
  destruct (deposit_credits_the_account uuid_shape (sequential true) k6_deposit
              sample_state)
    as (before & row & _ & Hbefore & _ & _ & _ & Hreply & Hlog & _ & _ & _ & _
        & _ & _ & _ & _ & _ & Hexact).
  - apply sequential_quiet.
  - vm_compute. reflexivity.
  - destruct Hexact as [Hamount Hafter]; [vm_compute; reflexivity|].
    exists before, row. repeat split; assumption.
Defined.

Lemma withdraw_debits_the_account_witness :
  exists checked found row,
    balance_of (durable sample_state) U1 = Some checked
    /\ (100 <= cents checked)%Q
    /\ balance_of (others_done overlapping (durable sample_state)) U1 = Some found
    /\ fst k11_overlapped = mkResponse 201 (JTransaction row)
    /\ Transaction.status row = COMPLETED
    /\ balance_of (durable (snd k11_overlapped)) U1
       = Some (found - Transaction.amount row)%Z.
Proof.
  destruct (withdraw_debits_the_account uuid_shape overlapping k11_withdraw
              sample_state)
    as (checked & found & row & Hchecked & _ & Hcovered & Hfound & _ & _ & _
        & Hreply & _ & _ & Hstatus & _ & _ & _ & _ & Hexact & _).
  - vm_compute. reflexivity.
  - destruct Hexact as [_ Hafter]; [vm_compute; reflexivity|].
    exists checked, found, row. split; [exact Hchecked|].
    split.
    { vm_compute in Hchecked. injection Hchecked as <-.
      vm_compute. discriminate. }
    repeat split; assumption.
Defined.

Lemma withdraw_insufficient_funds_witness :
  fst (withdraw uuid_shape (sequential true) k8_withdraw sample_state)
  = insufficient_funds "User does not have enough balance for this withdrawal"
  /\ durable (snd (withdraw uuid_shape (sequential true) k8_withdraw sample_state))
     = durable sample_state
  /\ external_calls
       (events_of sample_state
          (snd (withdraw uuid_shape (sequential true) k8_withdraw sample_state)))
     = [].
Proof.
  apply (withdraw_insufficient_funds uuid_shape (sequential true) k8_withdraw
           sample_state (User.mk "u1@example.com" "U1" 70000)).
  - apply sequential_quiet.
  - vm_compute. reflexivity.
  - vm_compute. reflexivity.
  - vm_compute. reflexivity.
  - vm_compute. reflexivity.
Defined.

Lemma unknown_account_is_404_witness :
  fst (deposit uuid_shape (sequential true) k9_deposit sample_state)
  = user_not_found
  /\ durable (snd (deposit uuid_shape (sequential true) k9_deposit sample_state))
     = durable sample_state
  /\ replyStatus (fst (getUserBalance U3 sample_state)) = 404
  /\ replyStatus (fst (getTransactions U3 sample_state)) = 404.
Proof.
  destruct (unknown_account_is_404 uuid_shape (sequential true) sample_state)
    as (Hdeposit & _ & _ & Hget).
  - apply sequential_quiet.
  - destruct (Hdeposit k9_deposit) as [Hreply Hsame];
      [vm_compute; reflexivity..|].
    destruct (Hget U3) as [Hbalance Hhistory]; [vm_compute; reflexivity|].
    split; [exact Hreply|]. split; [exact Hsame|].
    split; [exact Hbalance | exact Hhistory].
Defined.

Lemma invalid_body_is_rejected_witness :
  deposit uuid_shape (sequential true) k10_deposit sample_state
  = (invalid_input, sample_state)
  /\ createUser email_shape (sequential true) U3
       (CreateUserBody.mk "u3@example.com" EmptyString) sample_state
     = (mkReply 400 PInvalidInput, sample_state).
Proof.
  destruct (invalid_body_is_rejected uuid_shape email_shape (sequential true)
              sample_state) as (Hdeposit & _ & _ & Hcreate).
  split.
  - apply (Hdeposit k10_deposit). left. vm_compute. reflexivity.
  - apply (Hcreate U3). left. reflexivity.
Defined.

Lemma only_a_201_moves_money_witness :
  durable (snd k3_rejected) = durable sample_state
  /\ users (durable (snd k4_declined)) = users (durable sample_state).
Proof.
  destruct (only_a_201_moves_money uuid_shape (sequential true) sample_state)
    as (_ & Htransfer & _).
  { apply sequential_quiet. }
  destruct (only_a_201_moves_money uuid_shape (sequential false) sample_state)
    as (_ & _ & Hwithdraw).
  { apply sequential_quiet. }
  split.
  - apply (Htransfer k3_transfer). vm_compute. discriminate.
  - apply (Hwithdraw k4_withdraw). vm_compute. discriminate.
Defined.

Lemma overflow_is_rolled_back_witness :
  fst (deposit uuid_shape (sequential true) k1_deposit rich_state)
  = internal_server_error
  /\ durable (snd (deposit uuid_shape (sequential true) k1_deposit rich_state))
     = durable rich_state
  /\ fst (transfer uuid_shape (sequential true) k7_transfer rich_state)
     = internal_server_error
  /\ durable (snd (transfer uuid_shape (sequential true) k7_transfer rich_state))
     = durable rich_state.
Proof.
  destruct (overflow_is_rolled_back uuid_shape (sequential true) rich_state)
    as (Hdeposit & Htransfer).
  - apply sequential_quiet.
  - destruct (Hdeposit k1_deposit
                (User.mk "u1@example.com" "U1" 999999999999900))
      as [Hreply1 Hsame1]; [vm_compute; reflexivity..|].
    destruct (Htransfer k7_transfer (User.mk "u2@example.com" "U2" 30000)
                (User.mk "u1@example.com" "U1" 999999999999900))
      as [Hreply2 Hsame2].
    + vm_compute. reflexivity.
    + vm_compute. discriminate.
    + vm_compute. reflexivity.
    + vm_compute. reflexivity.
    + vm_compute. reflexivity.
    + vm_compute. discriminate.
    + vm_compute. reflexivity.
    + split; [exact Hreply1|]. split; [exact Hsame1|].
      split; [exact Hreply2 | exact Hsame2].
Defined.

Lemma history_is_complete_and_ordered_witness :
  replyStatus (fst (getTransactions U1 sample_state)) = 200
  /\ history_rows (fst (getTransactions U1 sample_state)) = [k2_row; k1_row]
  /\ StronglySorted newer (history_rows (fst (getTransactions U1 sample_state))).
Proof.
  destruct (history_is_complete_and_ordered U1 sample_state
              (User.mk "u1@example.com" "U1" 70000))
    as (Hstatus & _ & _ & Hsorted & _).
  - apply sample_db_well_formed.
  - vm_compute. reflexivity.
  - split; [exact Hstatus|]. split; [vm_compute; reflexivity | exact Hsorted].
Defined.

Lemma transfer_shows_in_both_histories_witness :
  history_rows (fst (getTransactions U2 (snd k7_completed)))
  = k7_row :: history_rows (fst (getTransactions U2 sample_state))
  /\ history_rows (fst (getTransactions U1 (snd k7_completed)))
     = k7_row :: history_rows (fst (getTransactions U1 sample_state)).
Proof.
  destruct (transfer_shows_in_both_histories uuid_shape (sequential true)
              k7_transfer sample_state k7_row) as (Hsender & Hreceiver & _).
  - apply sequential_quiet.
  - vm_compute. reflexivity.
  - split; [exact Hsender | exact Hreceiver].
Defined.

Lemma new_account_has_no_history_witness :
  fst (getTransactions U3 sample_state)
  = mkReply 404 (PError "User not found" None)
  /\ fst (getTransactions U3
            (snd (createUser email_shape (sequential true) U3 u3_body
                    sample_state)))
     = mkReply 200 (PTransactions []).
Proof.
  destruct (new_account_has_no_history email_shape (sequential true) U3 u3_body
              sample_state) as (Hbefore & Hafter & _).
  - apply sample_db_well_formed.
  - apply sequential_quiet.
  - vm_compute. reflexivity.
  - split; [exact Hbefore | exact Hafter].
Defined.

Lemma dashboard_follows_the_requests_witness :
  figures_of (fst (getAdminStats sample_state))
  = Some (2, Number 100000, 1, 0, 1)
  /\ figures_of (fst (getAdminStats (snd k6_first)))
     = Some (2, Number (100000 + 5000), 1, 0, 2)
  /\ figures_of (fst (getAdminStats (snd k4_declined)))
     = Some (2, Number 100000, 1, 0, 1).
Proof.
  destruct (dashboard_follows_the_requests uuid_shape email_shape
              (sequential true) sample_state)
    as (accounts & value & transfers & withdrawals & deposits & Hnow & Hvalue
        & Hdeposit & _).
  { apply sequential_quiet. }
  destruct (dashboard_follows_the_requests uuid_shape email_shape
              (sequential false) sample_state)
    as (accounts' & value' & transfers' & withdrawals' & deposits' & Hnow'
        & Hvalue' & _ & _ & _ & Hdeclined & _).
  { apply sequential_quiet. }
  assert (Htotal : total_balance (users (durable sample_state)) = 100000%Z)
    by (vm_compute; reflexivity).
  rewrite Htotal in Hvalue, Hvalue'. subst value value'.
  assert (Hfigures : figures_of (fst (getAdminStats sample_state))
                     = Some (2, Number 100000, 1, 0, 1))
    by (vm_compute; reflexivity).
  rewrite Hfigures in Hnow, Hnow'. injection Hnow as <- <- <- <-.
  injection Hnow' as <- <- <- <-.
  split; [exact Hfigures|]. split.
  - apply (Hdeposit k6_deposit); vm_compute; reflexivity.
  - apply (Hdeclined k4_withdraw). vm_compute. discriminate.
Defined.


Lemma createUser_race_is_a_500_witness :
  fst (createUser email_shape racing_signup U3 u3_body sample_state)
  = server_error
  /\ durable (snd (createUser email_shape racing_signup U3 u3_body sample_state))
     = concurrent racing_signup (durable sample_state).
Proof.
  apply (createUser_race_is_a_500 email_shape racing_signup U3 u3_body
           sample_state).
  - vm_compute. reflexivity.
  - vm_compute. reflexivity.
  - right. exists U3, (User.mk "u3@example.com" "U3" 0).
    split; vm_compute; reflexivity.
Defined.
